(** * Database transition validator: a shallow embedding of its validation core

    The development follows the Python sources file by file: the severity
    enum ([ValidationStatus]), the issue and result data classes, the table
    mapping constructor, the key-set comparison metrics, the rule-based column
    validator, the comparison of the samples, the per-table data task with
    its row-count bands, the concurrent data phase and the run-level status.

    Python values are modelled as follows: [int] is [Z]; [str] is [string];
    [None]-able fields are [option]; a [set] is a [gset]; a [dict] whose
    order is visible is an association list; a call that may raise returns
    an [outcome].  Float arithmetic goes through the interface [PyFloat]:
    its instance [binary64] is IEEE 754 double precision as CPython computes
    it ([spec_float] of the Standard Library with its [SFmul], [SFdiv], ...),
    and every concrete evaluation below uses it; the instance [exactQ] is
    the same code over exact rationals, used where a bound on a rate is
    proved for all inputs. *)

From Stdlib Require Import ZArith QArith Qabs SpecFloat.
From Stdlib Require Import Ascii String DecimalString Lia Sorted.
From stdpp Require Import gmap sets list strings.

#[local] Open Scope Z_scope.

(** ** Python numbers *)

(** The arithmetic the validator performs on floats, as an interface.  The
    code is written once against it; [binary64] below is what CPython
    computes, [exactQ] is the same arithmetic without rounding. *)
Class PyFloat (F : Type) := {
  float_of_int : Z -> F;        (* float(n), also the implicit int -> float *)
  int_truediv : Z -> Z -> F;    (* n / d on two ints *)
  fmul : F -> F -> F;           (* x * y *)
  fdiv : F -> F -> F;           (* x / y *)
  fabs : F -> F;                (* abs(x) *)
  fleb : F -> F -> bool;        (* x <= y *)
  fltb : F -> F -> bool;        (* x < y *)
  ftrunc : F -> option Z;       (* int(x); None when it raises *)
  fformat : nat -> F -> string  (* f"{x:.<d>f}" *)
}.

Module Decimal.

(** [str(n)] for a natural number. *)
Definition of_N (n : N) : string := NilEmpty.string_of_uint (N.to_uint n).

(** [str(n)] for an int. *)
Definition of_Z (z : Z) : string := NilEmpty.string_of_int (Z.to_int z).

Fixpoint zeros (n : nat) : string :=
  match n with
  | O => EmptyString
  | S k => String "0"%char (zeros k)
  end.

(** The decimal digits of [n], left-padded with zeros to [width]. *)
Definition padded (width : nat) (n : N) : string :=
  let s := of_N n in
  zeros (width - String.length s) +:+ s.

(** Nearest integer to [num / den] ([den > 0], [num >= 0]), ties to even. *)
Definition round_half_even (num den : Z) : Z :=
  let q := num / den in
  let r := num mod den in
  if (den <? 2 * r) || ((den =? 2 * r) && Z.odd q) then q + 1 else q.

(** Fixed-point text of [(-1)^neg * num / den] with [d] fractional digits,
    correctly rounded (ties to even), as the [f] presentation type prints
    it: the sign is kept even when the digits round to zero. *)
Definition fixed (d : nat) (neg : bool) (num den : Z) : string :=
  let scale := 10 ^ Z.of_nat d in
  let q := round_half_even (num * scale) den in
  let int_part := of_N (Z.to_N (q / scale)) in
  let frac_part :=
    match d with
    | O => EmptyString
    | _ => "." +:+ padded d (Z.to_N (q mod scale))
    end in
  (if neg then "-" else "") +:+ int_part +:+ frac_part.

End Decimal.

Module Binary64.

Definition prec : Z := 53.
Definition emax : Z := 1024.

(** [float(n)]: the int rounded to the nearest float, ties to even.  (Python
    raises [OverflowError] beyond the float range, where this answers an
    infinity; row and sample counts are far below it.) *)
Definition of_int (n : Z) : spec_float := binary_normalize prec emax n 0 false.

(** True division of two ints: the exact quotient of the two integers,
    rounded once to the nearest float.  A zero divisor raises
    [ZeroDivisionError] in Python; every call in the validator is guarded by
    a test of the divisor, and NaN stands for it here. *)
Definition truediv (a b : Z) : spec_float :=
  match a, b with
  | _, Z0 => S754_nan
  | Z0, _ => S754_zero (b <? 0)
  | _, _ =>
      SFdiv prec emax
        (S754_finite (a <? 0) (Z.to_pos (Z.abs a)) 0)
        (S754_finite (b <? 0) (Z.to_pos (Z.abs b)) 0)
  end.

(** [int(x)]: truncation towards zero; NaN and the infinities raise. *)
Definition trunc (x : spec_float) : option Z :=
  match x with
  | S754_zero _ => Some 0
  | S754_finite s m e =>
      let a := if 0 <=? e then Z.pos m * 2 ^ e else Z.pos m / 2 ^ (- e) in
      Some (if s then - a else a)
  | S754_infinity _ | S754_nan => None
  end.

(** [f"{x:.<d>f}"]: the exact value [m * 2^e] printed with [d] decimals. *)
Definition format (d : nat) (x : spec_float) : string :=
  match x with
  | S754_nan => "nan"
  | S754_infinity s => if s then "-inf" else "inf"
  | S754_zero s => Decimal.fixed d s 0 1
  | S754_finite s m e =>
      if 0 <=? e then Decimal.fixed d s (Z.pos m * 2 ^ e) 1
      else Decimal.fixed d s (Z.pos m) (2 ^ (- e))
  end.

End Binary64.

#[export] Instance binary64 : PyFloat spec_float := {
  float_of_int := Binary64.of_int;
  int_truediv := Binary64.truediv;
  fmul := SFmul Binary64.prec Binary64.emax;
  fdiv := SFdiv Binary64.prec Binary64.emax;
  fabs := SFabs;
  fleb := SFleb;
  fltb := SFltb;
  ftrunc := Binary64.trunc;
  fformat := Binary64.format
}.

(** The same operations on exact rationals. *)
Module Exact.

Definition trunc (x : Q) : option Z := Some (Z.quot (Qnum x) (Z.pos (Qden x))).

Definition format (d : nat) (x : Q) : string :=
  Decimal.fixed d (Qnum x <? 0) (Z.abs (Qnum x)) (Z.pos (Qden x)).

End Exact.

#[export] Instance exactQ : PyFloat Q := {
  float_of_int := inject_Z;
  int_truediv := fun a b => (inject_Z a / inject_Z b)%Q;
  fmul := Qmult;
  fdiv := Qdiv;
  fabs := Qabs;
  fleb := Qle_bool;
  fltb := fun x y => negb (Qle_bool y x);
  ftrunc := Exact.trunc;
  fformat := Exact.format
}.

(** ** Python strings and exceptions *)

(** A [str] is modelled by its sequence of ASCII characters. *)
Module PyStr.

(** [c.isspace()]: tab, line feed, vertical tab, form feed, carriage
    return, the four separators 0x1c-0x1f and the space. *)
Definition isspace (c : ascii) : bool :=
  let n := N_of_ascii c in
  ((9 <=? n) && (n <=? 13) || (28 <=? n) && (n <=? 32))%N.

Fixpoint lstrip (s : string) : string :=
  match s with
  | String c s' => if isspace c then lstrip s' else s
  | EmptyString => EmptyString
  end.

Definition rstrip (s : string) : string := String.rev (lstrip (String.rev s)).

(** [s.strip()] *)
Definition strip (s : string) : string := rstrip (lstrip s).

Definition lower_char (c : ascii) : ascii :=
  let n := N_of_ascii c in
  if ((65 <=? n) && (n <=? 90))%N then ascii_of_N (n + 32) else c.

(** [s.lower()] *)
Fixpoint lower (s : string) : string :=
  match s with
  | String c s' => String (lower_char c) (lower s')
  | EmptyString => EmptyString
  end.

(** [sep.join(parts)] *)
Definition join (sep : string) (parts : list string) : string :=
  String.concat sep parts.

(** [s.endswith(suffix)] *)
Definition endswith (s suffix : string) : bool :=
  String.prefix (String.rev suffix) (String.rev s).

(** [s[:-n]] for [n <= len(s)] *)
Definition drop_last (n : nat) (s : string) : string :=
  String.substring 0 (String.length s - n) s.

(** Truth value of an optional string: [None] and [""] are false. *)
Definition truthy (o : option string) : bool :=
  match o with
  | Some (String _ _) => true
  | _ => false
  end.

End PyStr.

(** The exceptions the model distinguishes.  The first three are instances of
    [Exception]; [SystemExit] and [KeyboardInterrupt] derive from
    [BaseException] only, so an [except Exception] clause lets them through. *)
Inductive exn : Type :=
  | ValueError (msg : string)
  | TypeError (msg : string)
  | OtherException (msg : string)
  | SystemExit (msg : string)
  | KeyboardInterrupt.

(** [isinstance(e, Exception)] *)
Definition is_Exception (e : exn) : bool :=
  match e with
  | ValueError _ | TypeError _ | OtherException _ => true
  | SystemExit _ | KeyboardInterrupt => false
  end.

(** [str(e)] *)
Definition exn_text (e : exn) : string :=
  match e with
  | ValueError msg | TypeError msg | OtherException msg | SystemExit msg => msg
  | KeyboardInterrupt => ""
  end.

(** What a call does: it returns a value or raises. *)
Inductive outcome (A : Type) : Type :=
  | Return (a : A)
  | Raise (e : exn).
Arguments Return {A} a.
Arguments Raise {A} e.

#[global] Instance exn_eq_dec : EqDecision exn.
Proof. solve_decision. Defined.

(** ** data_class/ValidationStatus.py *)

Module ValidationStatus.

Inductive t : Type := PASS | FAIL | WARNING | SKIP.

#[global] Instance eq_dec : EqDecision t.
Proof. solve_decision. Defined.

(** The member's [.value] *)
Definition value (s : t) : string :=
  match s with
  | PASS => "PASS"
  | FAIL => "FAIL"
  | WARNING => "WARNING"
  | SKIP => "SKIP"
  end.

(** The class body also binds [SEVERITY_ORDER] to a dict; the code reads it
    only through [.value], as the lookup table from a status name to its
    rank, and that table is what is modelled. *)
Definition SEVERITY_ORDER : gmap string Z :=
  list_to_map [("SKIP", 0); ("PASS", 1); ("WARNING", 2); ("FAIL", 3)].

(** [SEVERITY_ORDER.value[s.value]]; the default stands for the [KeyError]
    of a missing name, which no status has (see [SEVERITY_ORDER_defined]). *)
Definition severity_of (s : t) : Z := default 0 (SEVERITY_ORDER !! value s).

Definition raise_status_level_to (self new_status : t) : t :=
  let new_status_value := severity_of new_status in
  let current_status_value := severity_of self in
  if current_status_value <? new_status_value then new_status else self.

(** The order the table induces on the statuses. *)
Definition le (a b : t) : Prop := severity_of a <= severity_of b.

End ValidationStatus.

Abbreviation Status := ValidationStatus.t.
Import ValidationStatus(PASS, FAIL, WARNING, SKIP).

(** ** data_class/ValidationIssue.py *)

Module ValidationIssue.

(** [source_value] and [target_value] hold the row counts the issue was
    raised for, when it carries any; [additional_info] is never filled by the
    validator and is left out. *)
Record t : Type := mk {
  issue_type : string;
  description : string;
  severity : Status;
  source_value : option Z;
  target_value : option Z
}.

#[global] Instance eq_dec : EqDecision t.
Proof. solve_decision. Defined.

End ValidationIssue.

Abbreviation Issue := ValidationIssue.t.

(** ** data_class/TableMapping.py *)

Module TableMapping.

(** A value of a rule dict, as the YAML configuration yields it. *)
Inductive rule_value : Type :=
  | RNone
  | RBool (b : bool)
  | RInt (n : Z)
  | RStr (s : string).

#[global] Instance rule_value_eq_dec : EqDecision rule_value.
Proof. solve_decision. Defined.

(** The fields of the dataclass, each with its default [None].  The
    distribution specs, which only the distribution-based validation reads,
    and the extra key-column sets are left out. *)
Record t : Type := mk {
  key_columns : option (list string);
  key_columns_cast_types : option (list (option string));
  source_table : option string;
  target_table : option string;
  group : option string;
  sample_size : option Z;
  data_transformation_rules : option (list string);
  number_of_set_sample_records_for_detailed_report : option Z;
  max_item_length_for_html_report : option Z;
  max_word_length_for_html_report : option Z;
  rule_based_data_validation : option (list (string * list (string * rule_value)));
  unique_data_mapping_id : option string;
  exclude_columns : option (list string);
  custom_mappings : option (list (string * string))
}.

#[global] Instance eq_dec : EqDecision t.
Proof. solve_decision. Defined.

(** [str(x)] of an optional string inside an f-string *)
Definition str_of (o : option string) : string := default "None" o.

(** [[str(col).strip() for col in key_columns if str(col).strip()]] *)
Definition clean_key_columns (cols : list string) : list string :=
  List.map PyStr.strip
    (List.filter (fun col => negb (String.eqb (PyStr.strip col) "")) cols).

Section PostInit.

(** [set_iter l] is the order in which this interpreter process iterates
    over [set(l)]: it lists the distinct members of [l], in an order that
    the string hashes of the process decide. *)
Variable set_iter : list string -> list string.

Definition generated_id (source target : option string)
    (keys rules : list string) : string :=
  str_of source +:+ "|" +:+ str_of target +:+ "|"
    +:+ PyStr.join "," (set_iter keys) +:+ "|" +:+ PyStr.join "," rules.

Definition __post_init__ (self : t) : outcome t :=
  if negb (PyStr.truthy (source_table self))
     && negb (PyStr.truthy (target_table self))
  then
    Raise (ValueError
             "At least one of source_table or target_table must be provided.")
  else
    let source :=
      if negb (PyStr.truthy (source_table self)) then target_table self
      else source_table self in
    let target :=
      if negb (PyStr.truthy (source_table self)) then target_table self
      else if negb (PyStr.truthy (target_table self)) then source_table self
      else target_table self in
    let keys := clean_key_columns (default [] (key_columns self)) in
    let finish (id : option string) : t :=
      {| key_columns := Some keys;
         key_columns_cast_types := key_columns_cast_types self;
         source_table := source;
         target_table := target;
         group := group self;
         sample_size := sample_size self;
         data_transformation_rules := data_transformation_rules self;
         number_of_set_sample_records_for_detailed_report :=
           number_of_set_sample_records_for_detailed_report self;
         max_item_length_for_html_report := max_item_length_for_html_report self;
         max_word_length_for_html_report := max_word_length_for_html_report self;
         rule_based_data_validation := rule_based_data_validation self;
         unique_data_mapping_id := id;
         exclude_columns := Some (default [] (exclude_columns self));
         custom_mappings := Some (default [] (custom_mappings self)) |} in
    if PyStr.truthy (unique_data_mapping_id self)
    then Return (finish (unique_data_mapping_id self))
    else
      match data_transformation_rules self with
      | None => Raise (TypeError "can only join an iterable")
      | Some rules =>
          Return (finish (Some (generated_id source target keys rules)))
      end.

End PostInit.

(** An iteration order is admissible when it lists every member of the
    list once. *)
Definition admissible (set_iter : list string -> list string) : Prop :=
  forall l, NoDup (set_iter l) /\ (forall x, x ∈ set_iter l <-> x ∈ l).

(** The identifier as the specification words it: the key columns are
    sorted.  Insertion sort on the code-point order of [str]. *)
Fixpoint insert_sorted (x : string) (l : list string) : list string :=
  match l with
  | [] => [x]
  | y :: l' => if String.leb x y then x :: l else y :: insert_sorted x l'
  end.

Definition sorted (l : list string) : list string :=
  List.fold_right insert_sorted [] l.

Definition spec_identifier (source target : option string)
    (keys rules : list string) : string :=
  str_of source +:+ "|" +:+ str_of target +:+ "|"
    +:+ PyStr.join "," (sorted keys) +:+ "|" +:+ PyStr.join "," rules.

(** A mapping given by its table names, key columns and rules only. *)
Definition simple (source target : option string) (keys : list string)
    (rules : option (list string)) (id : option string) : t :=
  {| key_columns := Some keys;
     key_columns_cast_types := None;
     source_table := source;
     target_table := target;
     group := None;
     sample_size := None;
     data_transformation_rules := rules;
     number_of_set_sample_records_for_detailed_report := None;
     max_item_length_for_html_report := None;
     max_word_length_for_html_report := None;
     rule_based_data_validation := None;
     unique_data_mapping_id := id;
     exclude_columns := None;
     custom_mappings := None |}.

End TableMapping.

Abbreviation Mapping := TableMapping.t.

(** ** data_class/CompareSampleDataResult.py *)

Module CompareSampleDataResult.

(** The counts, the mapping and the issues of the dataclass.  The embedded
    rule-based and distribution-based sub-results and the three bounded key
    samples are carried for the report only and are left out. *)
Record t : Type := mk {
  table_mapping : Mapping;
  sample_size : option Z;
  source_sample_count : Z;
  target_sample_count : Z;
  source_sample_set_count : Z;
  target_sample_set_count : Z;
  matching_set_record_count : Z;
  data_match_validation_issues : list Issue
}.

Section Metrics.

Context {F : Type} `{PyFloat F}.

Definition success_rate_of_2_sets (self : t) : F :=
  let denominator :=
    Z.max (source_sample_set_count self) (target_sample_set_count self) in
  if denominator =? 0 then float_of_int 0
  else fmul (int_truediv (matching_set_record_count self) denominator)
            (float_of_int 100).

Definition interpolated_success_rate_of_tables_from_success_rate_of_2_sets
    (self : t) : F :=
  let nominator :=
    Z.min (source_sample_count self) (target_sample_count self) in
  let denominator :=
    Z.max (source_sample_count self) (target_sample_count self) in
  if denominator =? 0 then float_of_int 0
  else fdiv (fmul (success_rate_of_2_sets self) (float_of_int nominator))
            (float_of_int denominator).

(** [None] stands for the exception [int(...)] raises on a non-finite
    float. *)
Definition interpolated_matching_records_of_tables_from_success_rate
    (self : t) : option Z :=
  let min_sample_count :=
    Z.min (source_sample_count self) (target_sample_count self) in
  let min_sample_count :=
    match sample_size self with
    | Some n => if 0 <? n then Z.min min_sample_count n else min_sample_count
    | None => min_sample_count
    end in
  ftrunc (fdiv (fmul (success_rate_of_2_sets self)
                     (float_of_int min_sample_count))
               (float_of_int 100)).

End Metrics.

End CompareSampleDataResult.

(** ** build_set_from_sample_and_columns.py *)

(** The rows of a sample are the tuples of its key columns.  A row is given
    as the member it is of a Python set of such tuples, an element of [K]:
    two rows are the same element of [K] exactly when a set keeps them as
    one member.  Rows of equal values are one element.  A NaN, which is what
    pandas holds for the NULL of a numeric column, equals no value, itself
    included, so a row with a NaN is an element of its own, different from
    every other row of either sample, until a rule rewrites the NaN. *)
Section KeySets.

Context {K : Type} `{Countable K}.

(** [transform rules row] applies [apply_all] to every value of the tuple,
    for the lower-cased rule names, and gives the member of a set the
    rewritten tuple is; which values it rewrites is not examined here. *)
Variable transform : list string -> K -> K.

Definition build_set_from_sample_and_columns_original (df : list K) : gset K :=
  list_to_set df.

Definition build_set_from_sample_and_columns (df : list K)
    (data_transformation_rules : option (list string)) : gset K :=
  match data_transformation_rules with
  | Some ((_ :: _) as given) =>
      let rules := List.map (fun r => PyStr.strip (PyStr.lower r)) given in
      let round_rule :=
        List.find (String.prefix "round_float_to_decimal") rules in
      if existsb (fun r => bool_decide (r ∈ rules))
                 ["normalize_null_nan"; "timestamp_to_date_only"]
         || bool_decide (is_Some round_rule)
      then list_to_set (List.map (transform rules) df)
      else build_set_from_sample_and_columns_original df
  | _ => build_set_from_sample_and_columns_original df
  end.

End KeySets.

(** ** Sampled values, normalize_item_data_end_with_dot_0.py, text_mean_none.py *)

(** A cell of a sampled column, by what the validator can observe of it. *)
Inductive item : Type :=
  | INone                     (* None *)
  | INaN                      (* float("nan"), as pandas fills missing numbers *)
  | IBool (b : bool)
  | IInt (n : Z)
  | IFloat (text : string)    (* any other float, given by its str() *)
  | IStr (s : string).

(** [item_data is None] *)
Definition is_None (x : item) : bool :=
  match x with
  | INone => true
  | _ => false
  end.

(** [item_data is None or pd.isna(item_data)] *)
Definition is_none_or_na (x : item) : bool :=
  match x with
  | INone | INaN => true
  | _ => false
  end.

(** [isinstance(item_data, numbers.Number) or type(item_data) in {float, int, complex}] *)
Definition is_number (x : item) : bool :=
  match x with
  | INaN | IBool _ | IInt _ | IFloat _ => true
  | INone | IStr _ => false
  end.

(** [str(item_data)] *)
Definition item_str (x : item) : string :=
  match x with
  | INone => "None"
  | INaN => "nan"
  | IBool b => if b then "True" else "False"
  | IInt n => Decimal.of_Z n
  | IFloat text => text
  | IStr s => s
  end.

Definition normalize_item_data_end_with_dot_0 (item_data : item) : string :=
  let item_data_str := item_str item_data in
  if is_number item_data
     && PyStr.endswith item_data_str ".0"
     && (2 <? String.length item_data_str)%nat
  then PyStr.drop_last 2 item_data_str
  else item_data_str.

Definition text_mean_none (text : string) : bool :=
  bool_decide (PyStr.lower (PyStr.strip text)
                 ∈ ["none"; "nan"; "null"; "n/a"; "na"; ""; "undefined"]).

(** A [pandas.DataFrame]: its columns in order, each with its cells. *)
Definition DataFrame : Type := list (string * list item).

(** [len(data)]: the number of rows. *)
Definition df_len (data : DataFrame) : Z :=
  match data with
  | [] => 0
  | (_, cells) :: _ => Z.of_nat (length cells)
  end.

(** [d.get(key)] on a dict kept as an association list *)
Fixpoint dict_get {V : Type} (key : string) (d : list (string * V)) : option V :=
  match d with
  | [] => None
  | (k, v) :: d' => if String.eqb k key then Some v else dict_get key d'
  end.

(** A sample as [_get_sample_data] returns it, a data frame of the key
    columns, in the two ways it is read: [rows] lists its rows as members of
    a key set, one entry for every row; [frame] gives its columns with their
    cells, as the validators of the columns read them.  The query selects
    every key column under its own name, so taking the key columns of the
    frame does not fail. *)
Record Sample (K : Type) : Type := mk_sample {
  rows : list K;
  frame : DataFrame
}.
Arguments mk_sample {K}.
Arguments rows {K}.
Arguments frame {K}.

(** [pd.DataFrame()] *)
Definition empty_sample {K : Type} : Sample K := mk_sample [] [].

(** [len(sample) if sample is not None else 0] *)
Definition sample_count {K : Type} (sample : option (Sample K)) : Z :=
  match sample with
  | Some sample => Z.of_nat (length (rows sample))
  | None => 0
  end.

(** [itertools.islice(keys, stop)] raises [ValueError] unless [stop] is
    [None] or an integer from 0 to [sys.maxsize], which is 2^63 - 1. *)
Definition islice_accepts (stop : option Z) : bool :=
  match stop with
  | None => true
  | Some n => (0 <=? n) && (n <=? 2 ^ 63 - 1)
  end.

Definition islice_error : exn :=
  ValueError
    "Stop argument for islice() must be None or an integer: 0 <= x <= sys.maxsize.".

(** ** data_class/RuleBasedDataValidationResult.py *)

Module RuleBasedDataValidationResult.

(** The per-column dicts of the dataclass, keyed in the order of the
    filtered rules.  [failed_set] and [success_set] are the sets the
    reported samples are drawn from. *)
Record t : Type := mk {
  table_mapping : Mapping;
  total_records : Z;
  passed_records_count : list (string * Z);
  failed_records_count : list (string * Z);
  failed_set : list (string * gset string);
  success_set : list (string * gset string)
}.

End RuleBasedDataValidationResult.

(** ** DatabaseTransitionValidator._rule_based_data_validation *)

Module RuleBased.

Import TableMapping.

(** The flag a rule entry stands for: a string counts when it reads
    "true", anything else by its truth value; a missing or null entry is
    [False]. *)
Definition flag (entry : option rule_value) : bool :=
  match entry with
  | None | Some RNone => false
  | Some (RStr s) => String.eqb (PyStr.lower (PyStr.strip s)) "true"
  | Some (RBool b) => b
  | Some (RInt n) => negb (n =? 0)
  end.

Definition has_key {V : Type} (key : string) (d : list (string * V)) : bool :=
  bool_decide (is_Some (dict_get key d)).

(** The description generated for a rule without a pattern. *)
Definition default_description (value_must_be_unique value_can_be_null : bool)
    : string :=
  "Accept any value" +:+
  (if value_must_be_unique || negb value_can_be_null then
     " (" +:+ PyStr.join " and "
                ((if value_must_be_unique then ["Have to be unique"] else [])
                 ++ (if negb value_can_be_null then ["not null"] else []))
          +:+ ")"
   else "").

(** The rule dict after the default pattern and its description are added. *)
Definition with_default_pattern (rule : list (string * rule_value))
    (value_must_be_unique value_can_be_null : bool)
    : list (string * rule_value) :=
  if has_key "pattern" rule then rule
  else
    let rule := rule ++ [("pattern", RStr "^.*$")] in
    if has_key "pattern_regex_description" rule then rule
    else rule ++ [("pattern_regex_description",
                   RStr (default_description value_must_be_unique
                                             value_can_be_null))].

(** The running state of one column: the two counters and the two sets
    handed to the result. *)
Record column_state : Type := mk_state {
  passed : Z;
  failed : Z;
  failed_values : gset string;
  success_values : gset string
}.

Definition column_start : column_state := mk_state 0 0 ∅ ∅.

(** The state of the loop over the cells: [(matched_set, non_matched_set,
    failed count)]. *)
Definition scan_state : Type := gset string * gset string * Z.

(** One turn of [for item_data in column_data]. *)
Definition check_item (value_can_be_null value_must_be_unique : bool)
    (fullmatch : string -> bool) (st : scan_state) (item_data : item)
    : scan_state :=
  let '(matched_set, non_matched_set, failed_count) := st in
  let item_data_is_none := is_none_or_na item_data in
  let normalized_item_data := normalize_item_data_end_with_dot_0 item_data in
  if (is_None item_data
      || item_data_is_none
      || text_mean_none normalized_item_data)
     && value_can_be_null
  then ({[normalized_item_data]} ∪ matched_set, non_matched_set, failed_count)
  else if value_must_be_unique
          && bool_decide (normalized_item_data ∈ matched_set)
  then (matched_set, {[normalized_item_data]} ∪ non_matched_set, failed_count + 1)
  else if negb (fullmatch normalized_item_data)
  then (matched_set, {[normalized_item_data]} ∪ non_matched_set, failed_count + 1)
  else ({[normalized_item_data]} ∪ matched_set, non_matched_set, failed_count).

Section Validation.

(** [re.compile(pattern)] followed by [regex.fullmatch]: [None] when the
    pattern does not compile. *)
Variable re_compile : string -> option (string -> bool).

(** The body of [if key.lower() == "pattern":] for one pattern. *)
Definition apply_pattern (value_can_be_null value_must_be_unique : bool)
    (column_data : list item) (st : column_state) (pattern : rule_value)
    : outcome column_state :=
  match pattern with
  | RStr p =>
      match re_compile p with
      | None => Raise (OtherException "re.error")
      | Some fullmatch =>
          let '(matched_set, non_matched_set, failed_count) :=
            fold_left (check_item value_can_be_null value_must_be_unique
                                  fullmatch)
                      column_data (∅, ∅, failed st) in
          Return
            {| failed := failed_count;
               failed_values :=
                 if bool_decide (non_matched_set = ∅) then failed_values st
                 else non_matched_set;
               success_values :=
                 if bool_decide (matched_set = ∅) then success_values st
                 else matched_set;
               passed :=
                 passed st + (Z.of_nat (length column_data) - failed_count) |}
      end
  | _ => Raise (TypeError "first argument must be string or compiled pattern")
  end.

(** [for key in filtered_rules[column_name]: ...] *)
Fixpoint scan_keys (value_can_be_null value_must_be_unique : bool)
    (column_data : list item) (entries : list (string * rule_value))
    (st : column_state) : outcome column_state :=
  match entries with
  | [] => Return st
  | (key, value) :: rest =>
      if String.eqb (PyStr.lower key) "pattern" then
        match apply_pattern value_can_be_null value_must_be_unique
                            column_data st value with
        | Return st' =>
            scan_keys value_can_be_null value_must_be_unique column_data
                      rest st'
        | Raise e => Raise e
        end
      else scan_keys value_can_be_null value_must_be_unique column_data
                     rest st
  end.

(** The body of [for column_name in filtered_rules:] for one column. *)
Definition validate_column (rule : list (string * rule_value))
    (column_data : option (list item)) : outcome column_state :=
  match column_data with
  | None => Return column_start
  | Some column_data =>
      let value_can_be_null := flag (dict_get "nullable" rule) in
      let value_must_be_unique := flag (dict_get "unique" rule) in
      let rule :=
        with_default_pattern rule value_must_be_unique value_can_be_null in
      scan_keys value_can_be_null value_must_be_unique column_data rule
                column_start
  end.

Fixpoint validate_columns (data : DataFrame)
    (filtered_rules : list (string * list (string * rule_value)))
    : outcome (list (string * column_state)) :=
  match filtered_rules with
  | [] => Return []
  | (column_name, rule) :: rest =>
      match validate_column rule (dict_get column_name data) with
      | Raise e => Raise e
      | Return st =>
          match validate_columns data rest with
          | Raise e => Raise e
          | Return sts => Return ((column_name, st) :: sts)
          end
      end
  end.

(** The two dict comprehensions that draw the reported samples: [islice]
    is called once for every set, with the bound of the mapping. *)
Definition record_samples (table_mapping : Mapping)
    (sets : list (string * gset string)) : outcome unit :=
  match sets with
  | [] => Return tt
  | _ :: _ =>
      if islice_accepts
           (number_of_set_sample_records_for_detailed_report table_mapping)
      then Return tt
      else Raise islice_error
  end.

Definition _rule_based_data_validation (data : option DataFrame)
    (table_mapping : Mapping)
    : outcome (option RuleBasedDataValidationResult.t) :=
  match rule_based_data_validation table_mapping, data with
  | Some ((_ :: _) as rules), Some data =>
      let key_columns_set : gset string :=
        list_to_set (default [] (key_columns table_mapping)) in
      let filtered_rules :=
        List.filter (fun kv => bool_decide (fst kv ∈ key_columns_set)) rules in
      match filtered_rules with
      | [] => Return None
      | _ =>
          match validate_columns data filtered_rules with
          | Raise e => Raise e
          | Return sts =>
              let failed_set :=
                List.filter
                  (fun cs => negb (bool_decide (snd cs = ∅)))
                  (List.map (fun cs => (fst cs, failed_values (snd cs))) sts) in
              let success_set :=
                List.filter
                  (fun cs => negb (bool_decide (snd cs = ∅)))
                  (List.map (fun cs => (fst cs, success_values (snd cs))) sts) in
              match record_samples table_mapping (failed_set ++ success_set) with
              | Raise e => Raise e
              | Return _ =>
                  Return (Some
                    {| RuleBasedDataValidationResult.table_mapping := table_mapping;
                       RuleBasedDataValidationResult.total_records := df_len data;
                       RuleBasedDataValidationResult.passed_records_count :=
                         List.map (fun cs => (fst cs, passed (snd cs))) sts;
                       RuleBasedDataValidationResult.failed_records_count :=
                         List.map (fun cs => (fst cs, failed (snd cs))) sts;
                       RuleBasedDataValidationResult.failed_set := failed_set;
                       RuleBasedDataValidationResult.success_set := success_set
                    |})
              end
          end
      end
  | _, _ => Return None
  end.

End Validation.

(** A matcher that knows the default pattern only: ["^.*$"] fully matches
    exactly the strings without a line feed. *)
Definition no_line_feed (s : string) : bool :=
  negb (existsb (Ascii.eqb "010"%char) (list_ascii_of_string s)).

Definition default_only (pattern : string) : option (string -> bool) :=
  if String.eqb pattern "^.*$" then Some no_line_feed else None.

End RuleBased.

(** ** data_class/DataMatchValidationResult.py *)

Module DataMatchValidationResult.

(** The dataclass without its wall-clock duration. *)
Record t : Type := mk {
  table_name : option string;
  source_table : option string;
  target_table : option string;
  key_columns : option (list string);
  unique_data_mapping_id : option string;
  status : Status;
  group : option string;
  source_table_exist : bool;
  target_table_exist : bool;
  source_table_or_view : option string;
  target_table_or_view : option string;
  source_count : Z;
  target_count : Z;
  matching_records : Z;
  sample_size : option Z;
  data_transformation_rules : option (list string);
  row_count_validation_issues : list Issue;
  data_match_validation_issues : list Issue;
  compare_sample_data_result : option CompareSampleDataResult.t
}.

(** The constructor call with the keyword arguments every call site gives;
    the remaining fields take the defaults of the dataclass. *)
Definition init (mapping : Mapping) (status : Status) : t :=
  {| table_name := TableMapping.source_table mapping;
     source_table := TableMapping.source_table mapping;
     target_table := TableMapping.target_table mapping;
     key_columns := TableMapping.key_columns mapping;
     unique_data_mapping_id := TableMapping.unique_data_mapping_id mapping;
     status := status;
     group := TableMapping.group mapping;
     source_table_exist := true;
     target_table_exist := true;
     source_table_or_view := Some "";
     target_table_or_view := Some "";
     source_count := 0;
     target_count := 0;
     matching_records := 0;
     sample_size := Some 0;
     data_transformation_rules := None;
     row_count_validation_issues := [];
     data_match_validation_issues := [];
     compare_sample_data_result := None |}.

(** Assignments to the attributes the validator mutates. *)
Definition set_status (v : Status) (r : t) : t :=
  mk (table_name r) (source_table r) (target_table r) (key_columns r)
     (unique_data_mapping_id r) v (group r) (source_table_exist r)
     (target_table_exist r) (source_table_or_view r) (target_table_or_view r)
     (source_count r) (target_count r) (matching_records r) (sample_size r)
     (data_transformation_rules r) (row_count_validation_issues r)
     (data_match_validation_issues r) (compare_sample_data_result r).

Definition set_row_count_validation_issues (v : list Issue) (r : t) : t :=
  mk (table_name r) (source_table r) (target_table r) (key_columns r)
     (unique_data_mapping_id r) (status r) (group r) (source_table_exist r)
     (target_table_exist r) (source_table_or_view r) (target_table_or_view r)
     (source_count r) (target_count r) (matching_records r) (sample_size r)
     (data_transformation_rules r) v
     (data_match_validation_issues r) (compare_sample_data_result r).

Definition set_data_match_validation_issues (v : list Issue) (r : t) : t :=
  mk (table_name r) (source_table r) (target_table r) (key_columns r)
     (unique_data_mapping_id r) (status r) (group r) (source_table_exist r)
     (target_table_exist r) (source_table_or_view r) (target_table_or_view r)
     (source_count r) (target_count r) (matching_records r) (sample_size r)
     (data_transformation_rules r) (row_count_validation_issues r)
     v (compare_sample_data_result r).

Definition set_compare_sample_data_result (v : CompareSampleDataResult.t)
    (r : t) : t :=
  mk (table_name r) (source_table r) (target_table r) (key_columns r)
     (unique_data_mapping_id r) (status r) (group r) (source_table_exist r)
     (target_table_exist r) (source_table_or_view r) (target_table_or_view r)
     (source_count r) (target_count r) (matching_records r) (sample_size r)
     (data_transformation_rules r) (row_count_validation_issues r)
     (data_match_validation_issues r) (Some v).

Definition set_matching_records (v : Z) (r : t) : t :=
  mk (table_name r) (source_table r) (target_table r) (key_columns r)
     (unique_data_mapping_id r) (status r) (group r) (source_table_exist r)
     (target_table_exist r) (source_table_or_view r) (target_table_or_view r)
     (source_count r) (target_count r) v (sample_size r)
     (data_transformation_rules r) (row_count_validation_issues r)
     (data_match_validation_issues r) (compare_sample_data_result r).

(** The keyword arguments the per-table task adds to [init]. *)
Definition with_probe (source_exist target_exist : bool)
    (source_kind target_kind : option string) (source_n target_n : Z)
    (size : option Z) (rules : option (list string))
    (row_issues data_issues : list Issue) (r : t) : t :=
  mk (table_name r) (source_table r) (target_table r) (key_columns r)
     (unique_data_mapping_id r) (status r) (group r) source_exist
     target_exist source_kind target_kind source_n target_n
     (matching_records r) size rules row_issues data_issues
     (compare_sample_data_result r).

Section Properties.

Context {F : Type} `{PyFloat F}.

Definition success_rate (self : t) : F :=
  if source_count self =? 0 then float_of_int 0
  else
    let total_count :=
      match sample_size self with
      | Some n => if n =? 0 then source_count self else n
      | None => source_count self
      end in
    fmul (fdiv (float_of_int (matching_records self))
               (float_of_int total_count))
         (float_of_int 100).

End Properties.

End DataMatchValidationResult.

Abbreviation TableResult := DataMatchValidationResult.t.

(** ** DatabaseTransitionValidator: settings and the per-table data task *)

(** The entries of [settings["validation_settings"]] the data task reads;
    [None] is an absent entry, replaced by the default of the [.get] call. *)
Record Settings (F : Type) : Type := mk_settings {
  enable_row_count_validation : option bool;
  row_count_difference_threshold_failure : option F;
  row_count_difference_threshold_success : option F;
  data_validation_threshold_warning : option F;
  data_validation_threshold_success : option F;
  enable_rule_based_data_validation : option bool
}.
Arguments mk_settings {F}.
Arguments enable_row_count_validation {F}.
Arguments row_count_difference_threshold_failure {F}.
Arguments row_count_difference_threshold_success {F}.
Arguments data_validation_threshold_warning {F}.
Arguments data_validation_threshold_success {F}.
Arguments enable_rule_based_data_validation {F}.

(** The configuration with every entry absent. *)
Definition default_settings {F : Type} : Settings F :=
  mk_settings None None None None None None.

Inductive relation_kind : Type := Table | View.

Definition kind_name (k : relation_kind) : string :=
  match k with
  | Table => "table"
  | View => "view"
  end.

(** What the connector answers to one data task: the existence index entry
    of each side, the [COUNT] of each side ([None] when the query failed),
    and what [_get_sample_data] does for each side: it returns [None] when
    the side has no database configuration, returns the sample the query
    read, or raises. *)
Record Probe (K : Type) : Type := mk_probe {
  source_lookup : option relation_kind;
  target_lookup : option relation_kind;
  source_count_query : option Z;
  target_count_query : option Z;
  source_sample_query : outcome (option (Sample K));
  target_sample_query : outcome (option (Sample K))
}.
Arguments mk_probe {K}.
Arguments source_lookup {K}.
Arguments target_lookup {K}.
Arguments source_count_query {K}.
Arguments target_count_query {K}.
Arguments source_sample_query {K}.
Arguments target_sample_query {K}.

Module Validator.

Import ValidationIssue.
Module R := DataMatchValidationResult.
Module C := CompareSampleDataResult.

Definition _to_positive_integer (value : option Z) : Z :=
  match value with
  | Some n => Z.max 0 n
  | None => 0
  end.

(** [str(n)] of a row count inside an f-string *)
Definition count_text (n : Z) : string := Decimal.of_Z n.

(** [text.splitlines()[0]] for a non-empty text *)
Fixpoint first_line (text : string) : string :=
  match text with
  | EmptyString => EmptyString
  | String c rest =>
      let n := N_of_ascii c in
      if ((10 <=? n) && (n <=? 13) || (28 <=? n) && (n <=? 30))%N
      then EmptyString
      else String c (first_line rest)
  end.

Section RowCount.

Context {F : Type} `{PyFloat F}.

Variable settings : Settings F.

Definition failure_row_count_difference_threshold : F :=
  default (float_of_int 5) (row_count_difference_threshold_failure settings).

Definition warning_row_count_difference_threshold : F :=
  default (float_of_int 1) (row_count_difference_threshold_success settings).

Definition percent_diff (source_count target_count : Z) : F :=
  if source_count =? 0 then float_of_int 100
  else fmul (int_truediv (- (source_count - target_count)) source_count)
            (float_of_int 100).

(** The severity and the issue kind the three bands assign. *)
Definition row_count_band (source_count target_count : Z) : Status * string :=
  let percent_diff := percent_diff source_count target_count in
  if fleb (fabs percent_diff) warning_row_count_difference_threshold then
    (PASS,
     "row_count_mismatch<="
       +:+ fformat 1 warning_row_count_difference_threshold +:+ "%")
  else if fltb failure_row_count_difference_threshold (fabs percent_diff) then
    if source_count <? target_count then
      (WARNING, "target_has_more_" +:+ fformat 1 percent_diff +:+ "%_data")
    else
      (FAIL,
       "row_count_mismatch>"
         +:+ fformat 1 failure_row_count_difference_threshold +:+ "%")
  else (WARNING, "row_count_mismatch").

Definition row_count_issue (source_count target_count : Z) : Issue :=
  let '(severity, issue_type) := row_count_band source_count target_count in
  {| issue_type := issue_type;
     description :=
       "Row count mismatch: source=" +:+ count_text source_count
         +:+ ", target=" +:+ count_text target_count
         +:+ " (" +:+ fformat 2 (percent_diff source_count target_count)
         +:+ "% difference)";
     severity := severity;
     source_value := Some source_count;
     target_value := Some target_count |}.

(** The block [# Check if row counts match]. *)
Definition check_row_counts (source_count target_count : option Z)
    (result : TableResult) : TableResult :=
  match source_count, target_count with
  | Some s, Some t =>
      if negb (s =? t) then
        let issue := row_count_issue s t in
        R.set_row_count_validation_issues
          (R.row_count_validation_issues result ++ [issue])
          (R.set_status (severity issue) result)
      else result
  | _, _ => result
  end.

End RowCount.

Section DataTask.

Context {F : Type} `{PyFloat F}.
Context {K : Type} `{Countable K}.

Variable settings : Settings F.
Variable transform : list string -> K -> K.

(** [re.compile(pattern)] followed by [regex.fullmatch], as the rule-based
    validation uses it. *)
Variable re_compile : string -> option (string -> bool).

(** [_distribution_based_data_validation] is not embedded: it reads the
    distribution specs, which are not among the fields of [Mapping], and
    its result is carried for the report only.
    [distribution_based_data_validation_block mapping source_sample
    target_sample] stands for the block that calls it on the two samples
    when the mapping has specs and the settings enable it: the block
    returns, or raises what the validator raised. *)
Variable distribution_based_data_validation_block :
  Mapping -> option (Sample K) -> option (Sample K) -> outcome unit.

(** The block that fills [rule_based_data_validation]: the validator runs
    on the source sample, then on the target sample.  The first run writes
    the default pattern into the rule dicts of the mapping that lack one;
    the second run then finds the pattern it would have added, so both runs
    are given the rules as the configuration has them. *)
Definition rule_based_data_validation_block (mapping : Mapping)
    (source_sample target_sample : option (Sample K))
    : outcome (option (option RuleBasedDataValidationResult.t
                       * option RuleBasedDataValidationResult.t)) :=
  match TableMapping.rule_based_data_validation mapping with
  | Some (_ :: _) =>
      if default true (enable_rule_based_data_validation settings) then
        match RuleBased._rule_based_data_validation re_compile
                (frame <$> source_sample) mapping with
        | Raise e => Raise e
        | Return rule_based_data_validation_source =>
            match RuleBased._rule_based_data_validation re_compile
                    (frame <$> target_sample) mapping with
            | Raise e => Raise e
            | Return rule_based_data_validation_target =>
                Return (Some (rule_based_data_validation_source,
                              rule_based_data_validation_target))
            end
        end
      else Return None
  | _ => Return None
  end.

(** The key sets of the two samples; both stay empty when a sample is
    [None]. *)
Definition key_sets (mapping : Mapping)
    (source_sample target_sample : option (Sample K)) : gset K * gset K :=
  match source_sample, target_sample with
  | Some source_sample, Some target_sample =>
      let rules := TableMapping.data_transformation_rules mapping in
      (build_set_from_sample_and_columns transform (rows source_sample) rules,
       build_set_from_sample_and_columns transform (rows target_sample) rules)
  | _, _ => (∅, ∅)
  end.

(** The record the comparison returns on its normal path. *)
Definition compared (mapping : Mapping) (sample_size : option Z)
    (source_sample target_sample : option (Sample K))
    (source_keys_set target_keys_set : gset K) : C.t :=
  let matching_keys_set := source_keys_set ∩ target_keys_set in
  {| C.table_mapping := mapping;
     C.sample_size := sample_size;
     C.source_sample_count := sample_count source_sample;
     C.target_sample_count := sample_count target_sample;
     C.source_sample_set_count := Z.of_nat (size source_keys_set);
     C.target_sample_set_count := Z.of_nat (size target_keys_set);
     C.matching_set_record_count := Z.of_nat (size matching_keys_set);
     C.data_match_validation_issues := [] |}.

(** The record the [except Exception] clause returns, from the samples and
    the key sets as they are when the exception is raised.  The two samples
    the issue carries as its values are not row counts and are left out. *)
Definition compare_failed (mapping : Mapping) (sample_size : option Z)
    (source_sample target_sample : Sample K)
    (source_keys_set target_keys_set : gset K) (e : exn) : C.t :=
  let matching_keys_set := source_keys_set ∩ target_keys_set in
  let error_message :=
    "Error comparing sample data for "
      +:+ TableMapping.str_of (TableMapping.source_table mapping) +:+ ": "
      +:+ (if String.eqb (exn_text e) "" then "Unknown error"
           else first_line (exn_text e)) in
  {| C.table_mapping := mapping;
     C.sample_size := sample_size;
     C.source_sample_count := Z.of_nat (length (rows source_sample));
     C.target_sample_count := Z.of_nat (length (rows target_sample));
     C.source_sample_set_count := Z.of_nat (size source_keys_set);
     C.target_sample_set_count := Z.of_nat (size target_keys_set);
     C.matching_set_record_count := Z.of_nat (size matching_keys_set);
     C.data_match_validation_issues :=
       [ {| issue_type := "Error_comparing_sample_data";
            description := error_message;
            severity := FAIL;
            source_value := None;
            target_value := None |} ] |}.

(** The [except Exception] clause.  It takes the length of both samples, so
    it raises in its turn when one of them is [None]. *)
Definition compare_except (mapping : Mapping) (sample_size : option Z)
    (source_sample target_sample : option (Sample K))
    (source_keys_set target_keys_set : gset K) (e : exn) : outcome C.t :=
  if is_Exception e then
    match source_sample, target_sample with
    | Some source_sample, Some target_sample =>
        Return (compare_failed mapping sample_size source_sample target_sample
                               source_keys_set target_keys_set e)
    | _, _ => Raise (TypeError "object of type 'NoneType' has no len()")
    end
  else Raise e.

(** The samples start as empty data frames and the key sets as empty sets;
    the [except] clause reads them as the [try] block left them.  The
    results of the two validations and the three bounded lists of keys are
    carried for the report only: the calls are made, their values are not
    kept.  [islice] is given the bound of the mapping when the lists are
    drawn. *)
Definition _compare_sample_data (mapping : Mapping) (sample_size : option Z)
    (source_sample_query target_sample_query : outcome (option (Sample K)))
    : outcome C.t :=
  let sample_size :=
    match TableMapping.sample_size mapping with
    | Some n => Some n
    | None => sample_size
    end in
  match source_sample_query with
  | Raise e =>
      compare_except mapping sample_size (Some empty_sample) (Some empty_sample)
                     ∅ ∅ e
  | Return source_sample =>
      match target_sample_query with
      | Raise e =>
          compare_except mapping sample_size source_sample (Some empty_sample)
                         ∅ ∅ e
      | Return target_sample =>
          match rule_based_data_validation_block mapping source_sample
                                                 target_sample with
          | Raise e =>
              compare_except mapping sample_size source_sample target_sample
                             ∅ ∅ e
          | Return _ =>
              match distribution_based_data_validation_block mapping source_sample
                                                             target_sample with
              | Raise e =>
                  compare_except mapping sample_size source_sample target_sample
                                 ∅ ∅ e
              | Return _ =>
                  let '(source_keys_set, target_keys_set) :=
                    key_sets mapping source_sample target_sample in
                  if islice_accepts
                       (TableMapping.number_of_set_sample_records_for_detailed_report
                          mapping)
                  then
                    Return (compared mapping sample_size source_sample
                                     target_sample source_keys_set target_keys_set)
                  else
                    compare_except mapping sample_size source_sample
                                   target_sample source_keys_set target_keys_set
                                   islice_error
              end
          end
      end
  end.

(** The issues raised for one side from its existence and its count. *)
Definition side_issues (side : string) (table : option string)
    (table_exist : bool) (count : option Z) : list Issue :=
  let quoted := "'" +:+ TableMapping.str_of table +:+ "'" in
  let issue kind text severity :=
    [ {| issue_type := side +:+ kind;
         description := text;
         severity := severity;
         source_value := None;
         target_value := None |} ] in
  if negb table_exist then
    issue "_table_missing"
          ("Could not find " +:+ side +:+ " table " +:+ quoted +:+ ".") FAIL
  else
    match count with
    | Some n =>
        if n <? 0 then
          issue "_table_count_error"
                ("Could not retrieve row count for " +:+ side +:+ " table "
                   +:+ quoted +:+ ".") FAIL
        else if n =? 0 then
          issue "_table_is_empty"
                (match side with
                 | "source" => "Source"
                 | _ => "Target"
                 end +:+ " table " +:+ quoted +:+ " is empty.") WARNING
        else []
    | None => []
    end.

Definition unknown_or_empty (count : option Z) : bool :=
  match count with
  | None => true
  | Some n => n <=? 0
  end.

(** [for issue in compare_sample_data_result.data_match_validation_issues] *)
Definition merge_issue (result : TableResult) (issue : Issue) : TableResult :=
  if bool_decide (issue ∈ R.data_match_validation_issues result) then result
  else
    R.set_status
      (ValidationStatus.raise_status_level_to (R.status result) (severity issue))
      (R.set_data_match_validation_issues
         (R.data_match_validation_issues result ++ [issue]) result).

(** The block [# Determine status based on success rate]. *)
Definition apply_success_rate (source_count target_count : option Z)
    (success_rate : F) (result : TableResult) : TableResult :=
  let success_rate_status :=
    if fltb (fabs success_rate)
            (default (float_of_int 95) (data_validation_threshold_warning settings))
    then FAIL
    else if fltb (fabs success_rate)
                 (default (float_of_int 99)
                          (data_validation_threshold_success settings))
    then WARNING
    else PASS in
  let result :=
    if fltb (fabs success_rate) (float_of_int 100) then
      R.set_data_match_validation_issues
        (R.data_match_validation_issues result
           ++ [ {| issue_type := fformat 2 success_rate +:+ "% matched data";
                   description :=
                     "Data validation: " +:+ fformat 2 success_rate +:+ "% success";
                   severity := success_rate_status;
                   source_value := source_count;
                   target_value := target_count |} ])
        result
    else result in
  R.set_status
    (ValidationStatus.raise_status_level_to (R.status result) success_rate_status)
    result.

Definition _validate_single_table_data (mapping : Mapping)
    (sample_size : option Z) (io : Probe K) : outcome TableResult :=
  let source_table_exist := bool_decide (is_Some (source_lookup io)) in
  let target_table_exist := bool_decide (is_Some (target_lookup io)) in
  let source_table_or_view := kind_name <$> source_lookup io in
  let target_table_or_view := kind_name <$> target_lookup io in
  let enabled := default true (enable_row_count_validation settings) in
  let source_count :=
    if enabled && source_table_exist then source_count_query io else None in
  let target_count :=
    if enabled && target_table_exist then target_count_query io else None in
  let found_issues :=
    side_issues "source" (TableMapping.source_table mapping)
                source_table_exist source_count
    ++ side_issues "target" (TableMapping.target_table mapping)
                   target_table_exist target_count in
  if unknown_or_empty source_count && unknown_or_empty target_count then
    Return
      (R.with_probe source_table_exist target_table_exist
         source_table_or_view target_table_or_view
         (_to_positive_integer source_count)
         (_to_positive_integer target_count) sample_size
         (TableMapping.data_transformation_rules mapping)
         found_issues found_issues (R.init mapping FAIL))
  else
    let result :=
      R.with_probe true true source_table_or_view target_table_or_view
        (_to_positive_integer source_count)
        (_to_positive_integer target_count) sample_size
        (TableMapping.data_transformation_rules mapping) [] []
        (R.init mapping PASS) in
    let result := check_row_counts settings source_count target_count result in
    if bool_decide (source_count = Some 0) && bool_decide (target_count = Some 0)
    then
      Return (R.set_status
                (ValidationStatus.raise_status_level_to (R.status result) PASS)
                result)
    else
      match TableMapping.key_columns mapping with
      | None | Some [] =>
          Return
            (R.set_data_match_validation_issues
               (R.data_match_validation_issues result
                  ++ [ {| issue_type := "no_key_columns";
                          description :=
                            "Skip Data validation because no key columns are defined.";
                          severity := WARNING;
                          source_value := source_count;
                          target_value := target_count |} ])
               result)
      | Some (_ :: _) =>
          match _compare_sample_data mapping sample_size
                  (source_sample_query io) (target_sample_query io) with
          | Raise e => Raise e
          | Return compare_sample_data_result =>
              let result :=
                R.set_compare_sample_data_result compare_sample_data_result
                                                 result in
              let result :=
                fold_left merge_issue
                  (C.data_match_validation_issues compare_sample_data_result)
                  result in
              match C.interpolated_matching_records_of_tables_from_success_rate
                      (F:=F) compare_sample_data_result with
              | None => Raise (ValueError "cannot convert float to integer")
              | Some matching =>
                  let result := R.set_matching_records matching result in
                  let success_rate :=
                    C.interpolated_success_rate_of_tables_from_success_rate_of_2_sets
                      compare_sample_data_result in
                  Return (apply_success_rate source_count target_count
                                             success_rate result)
              end
          end
      end.

End DataTask.

(** *** The concurrent data phase *)

(** The result the [except Exception] clause of the data phase appends. *)
Definition failure_result (mapping : Mapping) (e : exn) : TableResult :=
  R.set_data_match_validation_issues
    [ {| issue_type := "data_validation_error";
         description := "Data validation failed: " +:+ exn_text e;
         severity := FAIL;
         source_value := None;
         target_value := None |} ]
    (R.init mapping FAIL).

Section DataPhase.

(** A future is the index of its submission with its mapping.
    [run i mapping] is what [future.result()] does for the task submitted
    [i]-th: it returns the task's result or raises what the task raised.
    [as_completed] is the order in which the pool hands the futures back. *)
Variable run : nat -> Mapping -> outcome TableResult.
Variable as_completed : list (nat * Mapping) -> list (nat * Mapping).

Definition submit_all (table_mappings : list Mapping) : list (nat * Mapping) :=
  imap (fun i mapping => (i, mapping)) table_mappings.

(** [for future in as_completed(future_to_mapping)]; the log calls have no
    effect on the results. *)
Fixpoint collect (futures : list (nat * Mapping)) (results : list TableResult)
    : outcome (list TableResult) :=
  match futures with
  | [] => Return results
  | (i, mapping) :: rest =>
      match run i mapping with
      | Return result => collect rest (results ++ [result])
      | Raise e =>
          if is_Exception e
          then collect rest (results ++ [failure_result mapping e])
          else Raise e
      end
  end.

Definition _validate_data (table_mappings : list Mapping)
    : outcome (list TableResult) :=
  collect (as_completed (submit_all table_mappings)) [].

(** What the loop appends for a future whose task returned or raised an
    instance of [Exception]. *)
Definition settled (future : nat * Mapping) : TableResult :=
  match run (fst future) (snd future) with
  | Return result => result
  | Raise e => failure_result (snd future) e
  end.

End DataPhase.

End Validator.

(** ** data_class/OverallValidationResult.py *)

Module OverallValidationResult.

(** The run identifier and the table data results; the timestamps, the
    schema results and the summary are not read by [overall_status_table_result]. *)
Record t : Type := mk {
  validation_id : string;
  data_match_validation_result : list TableResult
}.

Definition overall_status_table_result (self : t) : Status :=
  match data_match_validation_result self with
  | [] => SKIP
  | _ =>
      let failed_tables :=
        List.filter
          (fun r => bool_decide (DataMatchValidationResult.status r = FAIL))
          (data_match_validation_result self) in
      let warning_tables :=
        List.filter
          (fun r => bool_decide (DataMatchValidationResult.status r = WARNING))
          (data_match_validation_result self) in
      match failed_tables, warning_tables with
      | _ :: _, _ => FAIL
      | [], _ :: _ => WARNING
      | [], [] => PASS
      end
  end.

End OverallValidationResult.

(** ** The specification's formula for the table success rate *)

(** The table success rate as the specification words it: the set success
    rate scaled by min / max of two row counts, 0 when the larger is 0. *)
Definition spec_table_success_rate {F : Type} `{PyFloat F} (set_success_rate : F)
    (source_row_count target_row_count : Z) : F :=
  if Z.max source_row_count target_row_count =? 0 then float_of_int 0
  else fdiv (fmul set_success_rate
                  (float_of_int (Z.min source_row_count target_row_count)))
            (float_of_int (Z.max source_row_count target_row_count)).

(** ** Concrete inputs used below *)

Module Scenario.

(** Failure threshold 5%, success threshold 1%, as binary64 floats. *)
Definition thresholds_5_1 : Settings spec_float :=
  mk_settings None (Some (Binary64.of_int 5)) (Some (Binary64.of_int 1)) None None
              None.

(** A mapping of table ORDERS onto itself, keyed by ID. *)
Definition orders : Mapping :=
  TableMapping.simple (Some "ORDERS") (Some "ORDERS") ["ID"] (Some [])
                      (Some "ORDERS|ORDERS|ID|").

(** The result the data task starts from for [orders]. *)
Definition fresh : TableResult := DataMatchValidationResult.init orders PASS.

(** [orders] with a sample size of 3. *)
Definition orders_sampled : Mapping :=
  TableMapping.mk (Some ["ID"]) (Some [None]) (Some "ORDERS") (Some "ORDERS") None
                  (Some 3) (Some []) None None None None
                  (Some "ORDERS|ORDERS|ID|") (Some []) (Some []).

(** A sample of the key column ID whose rows hold the given integers. *)
Definition sample_of (ids : list Z) : Sample Z :=
  mk_sample ids [("ID", List.map IInt ids)].

(** Both tables exist; the source holds 1000 rows and the target 500; each
    sample query returns the three keys 1, 2, 3. *)
Definition probe_1000_500 : Probe Z :=
  mk_probe (Some Table) (Some Table) (Some 1000) (Some 500)
           (Return (Some (sample_of [1; 2; 3])))
           (Return (Some (sample_of [1; 2; 3]))).

(** No transformation rule rewrites a key. *)
Definition keep : list string -> Z -> Z := fun _ key => key.

(** No mapping has distribution specs. *)
Definition no_distribution_specs
    : Mapping -> option (Sample Z) -> option (Sample Z) -> outcome unit :=
  fun _ _ _ => Return tt.

(** The comparison and the table result the data task computes from them. *)
Definition compared_1000_500 : CompareSampleDataResult.t :=
  Eval vm_compute in
    Validator.compared orders_sampled (Some 3) (Some (sample_of [1; 2; 3]))
                       (Some (sample_of [1; 2; 3]))
                       (list_to_set [1; 2; 3]) (list_to_set [1; 2; 3]).

(** The comparison of the sampled keys 1, 2, 3 with the sampled keys
    2, 3, 4, 3. *)
Definition compared_3_of_4 : CompareSampleDataResult.t :=
  Eval vm_compute in
    Validator.compared orders None (Some (sample_of [1; 2; 3]))
                       (Some (sample_of [2; 3; 4; 3]))
                       (list_to_set [1; 2; 3]) (list_to_set [2; 3; 4; 3]).

Definition result_1000_500 : TableResult :=
  Eval vm_compute in
    match Validator._validate_single_table_data thresholds_5_1 keep
            RuleBased.default_only no_distribution_specs orders_sampled
            None probe_1000_500 with
    | Return r => r
    | Raise _ => fresh
    end.

(** Both tables exist; the source holds 1000 rows and the target 950; the
    samples share the keys 1, 2, 3. *)
Definition probe_1000_950 : Probe Z :=
  mk_probe (Some Table) (Some Table) (Some 1000) (Some 950)
           (Return (Some (sample_of [1; 2; 3])))
           (Return (Some (sample_of [1; 2; 3]))).

Definition result_1000_950 : TableResult :=
  Eval vm_compute in
    match Validator._validate_single_table_data thresholds_5_1 keep
            RuleBased.default_only no_distribution_specs orders None
            probe_1000_950 with
    | Return r => r
    | Raise _ => fresh
    end.

(** A run of three tasks of which the second raises; the pool hands the
    futures back in reverse order of submission. *)
Definition second_task_raises (i : nat) (mapping : Mapping) : outcome TableResult :=
  if Nat.eqb i 1 then Raise (OtherException "connection reset")
  else Return (DataMatchValidationResult.init mapping PASS).

Definition three_mappings : list Mapping := [orders; orders_sampled; orders].

(** The rule [nullable: false, unique: true] and the column [1, 1, 2, null],
    as a column of Python objects and as the float column pandas builds when
    a numeric column holds a NULL. *)
Definition not_null_unique : list (string * TableMapping.rule_value) :=
  [("nullable", TableMapping.RBool false); ("unique", TableMapping.RBool true)].

Definition column_objects : list item := [IInt 1; IInt 1; IInt 2; INone].

Definition column_floats : list item :=
  [IFloat "1.0"; IFloat "1.0"; IFloat "2.0"; INaN].

(** A mapping whose key column ID carries the rule, and the two samples as
    data frames. *)
Definition orders_with_rule : Mapping :=
  TableMapping.mk (Some ["ID"]) (Some [None]) (Some "ORDERS") (Some "ORDERS") None
                  None (Some []) None None None (Some [("ID", not_null_unique)])
                  (Some "ORDERS|ORDERS|ID|") (Some []) (Some []).

Definition frame_objects : DataFrame := [("ID", column_objects)].

Definition frame_floats : DataFrame := [("ID", column_floats)].

(** [orders] with a rule whose pattern does not compile, and [orders] with
    a negative bound on the keys listed in the report. *)
Definition orders_with_bad_pattern : Mapping :=
  TableMapping.mk (Some ["ID"]) (Some [None]) (Some "ORDERS") (Some "ORDERS") None
                  None (Some []) None None None
                  (Some [("ID", [("pattern", TableMapping.RStr "[")])])
                  (Some "ORDERS|ORDERS|ID|") (Some []) (Some []).

Definition orders_with_negative_bound : Mapping :=
  TableMapping.mk (Some ["ID"]) (Some [None]) (Some "ORDERS") (Some "ORDERS") None
                  None (Some []) (Some (-1)) None None None
                  (Some "ORDERS|ORDERS|ID|") (Some []) (Some []).

(** A sample of a numeric key column that holds the number 1 and two
    NULLs.  The NaN of a row is a member of a key set of its own, so a key
    is a number or the NaN of one row, given by the number of the row among
    all the sampled rows. *)
Definition sample_with_nulls (first_row : nat) : Sample (Z + nat) :=
  mk_sample [inl 1; inr first_row; inr (S first_row)]
            [("ID", [IFloat "1.0"; INaN; INaN])].

(** A table result whose status is SKIP. *)
Definition skipped : TableResult := DataMatchValidationResult.init orders SKIP.

End Scenario.

(** * The remaining functions of the sources *)

(** ** Python strings: case, search and slices *)

Module PyText.

Definition upper_char (c : ascii) : ascii :=
  let n := N_of_ascii c in
  if ((97 <=? n) && (n <=? 122))%N then ascii_of_N (n - 32) else c.

(** [s.upper()] *)
Fixpoint upper (s : string) : string :=
  match s with
  | String c s' => String (upper_char c) (upper s')
  | EmptyString => EmptyString
  end.

(** [s.startswith(prefix)] *)
Definition startswith (s prefix : string) : bool := String.prefix prefix s.

(** [sub in s] *)
Fixpoint contains (sub s : string) : bool :=
  String.prefix sub s
  || match s with
     | String _ s' => contains sub s'
     | EmptyString => false
     end.

(** [s[n:]] *)
Fixpoint drop (n : nat) (s : string) : string :=
  match n, s with
  | O, _ => s
  | S n', String _ s' => drop n' s'
  | S _, EmptyString => EmptyString
  end.

(** [s.split(sep, 1)] for a non-empty [sep]: a list of one part, the text
    itself, when [sep] does not occur in it, else of two parts, the text
    before and the text after the first occurrence.  The list is given by
    its first part and, when there is one, its second part. *)
Fixpoint split_1 (sep s : string) : string * option string :=
  if String.prefix sep s then (EmptyString, Some (drop (String.length sep) s))
  else
    match s with
    | EmptyString => (EmptyString, None)
    | String c s' =>
        let '(head, rest) := split_1 sep s' in (String c head, rest)
    end.

End PyText.

(** ** data_class/DataMatchValidationResult.py: the derived statuses *)

Module TableStatus.

Import ValidationIssue DataMatchValidationResult.

(** [any(issue.severity == s for issue in issues)] *)
Definition any_severity (s : Status) (issues : list Issue) : bool :=
  existsb (fun issue => bool_decide (severity issue = s)) issues.

Definition is_successful (self : TableResult) : bool :=
  bool_decide (status self = PASS)
  && forallb (fun issue => bool_decide (severity issue = PASS))
             (data_match_validation_issues self).

Definition row_count_status (self : TableResult) : Status :=
  if any_severity FAIL (row_count_validation_issues self) then FAIL
  else if any_severity WARNING (row_count_validation_issues self) then WARNING
  else PASS.

Definition get_data_match_status (self : TableResult) : Status :=
  if bool_decide (status self = FAIL)
     || any_severity FAIL (data_match_validation_issues self)
  then FAIL
  else if bool_decide (status self = WARNING)
          || any_severity WARNING (data_match_validation_issues self)
  then WARNING
  else PASS.

Section Percent.

Context {F : Type} `{PyFloat F}.

(** The counts of the dataclass are ints, so the [isinstance] tests pass;
    [(s - t) / float(s) * 100] converts the int difference to a float before
    it divides. *)
Definition percent_count_difference (self : TableResult) : F :=
  if (source_count self <? 0) || (target_count self <? 0) then float_of_int 100
  else if source_count self =? 0 then
    if target_count self =? 0 then float_of_int 0 else float_of_int 100
  else
    fmul (fdiv (float_of_int (source_count self - target_count self))
               (float_of_int (source_count self)))
         (float_of_int 100).

End Percent.

(** What the data task keeps true of its result from the row-count check
    on: the status is not SKIP, the row-count status is at most the status,
    and no data-match issue is more severe than the status. *)
Definition settled_status (r : TableResult) : Prop :=
  status r <> SKIP
  /\ ValidationStatus.le (row_count_status r) (status r)
  /\ Forall (fun issue => ValidationStatus.le (severity issue) (status r))
            (data_match_validation_issues r).

End TableStatus.

(** ** data_class/DataTypesCompatibleResult.py, data_class/SchemaValidationResult.py *)

Module DataTypesCompatibleResult.

Record t : Type := mk {
  result : Status;
  issue : option Issue
}.

End DataTypesCompatibleResult.

Module SchemaValidationResult.

(** A type mismatch is the dict [{"column", "source_type", "target_type"}]. *)
Record t : Type := mk {
  source_table_name : option string;
  target_table_name : option string;
  status : Status;
  validation_issues : list Issue;
  source_col_names : list string;
  target_col_names : list string;
  missing_columns : option (list string);
  extra_columns : option (list string);
  type_mismatches : option (list (string * string * string));
  source_table_or_view : option string;
  target_table_or_view : option string
}.

End SchemaValidationResult.

Abbreviation SchemaResult := SchemaValidationResult.t.

(** ** Python's stable sort *)

Module PySort.

Section Sort.

Context {A : Type}.

(** [before x y]: [x], which stood before [y], stays before it. *)
Fixpoint insert_by (before : A -> A -> bool) (x : A) (l : list A) : list A :=
  match l with
  | [] => [x]
  | y :: l' => if before x y then x :: l else y :: insert_by before x l'
  end.

(** [sorted(l, key=..., reverse=reverse)] and [l.sort(key=..., reverse=reverse)],
    for keys compared by [key_le]: the sort is stable, also when reversed
    (equal elements keep their order), so its result is the one of an
    insertion sort that moves an element only past strictly smaller (when
    reversed: strictly larger) ones. *)
Definition stable_sort (key_le : A -> A -> bool) (reverse : bool) (l : list A)
    : list A :=
  fold_right
    (insert_by (fun x y => if reverse then key_le y x else key_le x y)) [] l.

End Sort.

End PySort.

(** ** data_class/OverallValidationResult.py: the whole dataclass *)

Module OverallValidation.

Import ValidationIssue.

(** One entry of a list of [report_sorting_settings]: the values of its keys
    [sort_by] and [sort_order], [None] for a missing key. *)
Record sort_directive : Type := mk_sort {
  sort_by : option string;
  sort_order : option string
}.

(** [settings.get("report_sorting_settings", {})] with each of its four
    lists, [[]] for a missing one. *)
Record report_sorting_settings : Type := mk_sorting {
  schema_report : list sort_directive;
  row_count_report : list sort_directive;
  data_match_report : list sort_directive;
  detailed_data_match_report : list sort_directive
}.

(** The dataclass without its timestamps, summary and settings. *)
Record t : Type := mk {
  validation_id : string;
  schema_validation_results : option (list SchemaResult);
  data_match_validation_result : list TableResult;
  data_match_validation_result_grouped : list (string * list TableResult)
}.

(** The part of the record that [overall_status_table_result] reads. *)
Definition table_part (self : t) : OverallValidationResult.t :=
  OverallValidationResult.mk (validation_id self)
                             (data_match_validation_result self).

Definition overall_status_table_result (self : t) : Status :=
  OverallValidationResult.overall_status_table_result (table_part self).

(** The pattern shared by the four list statuses: SKIP for no result, else
    FAIL when a result is FAIL, else WARNING when one is WARNING, else
    PASS. *)
Definition status_of_list {A : Type} (status_of : A -> Status) (results : list A)
    : Status :=
  match results with
  | [] => SKIP
  | _ =>
      let failed_tables :=
        List.filter (fun r => bool_decide (status_of r = FAIL)) results in
      let warning_tables :=
        List.filter (fun r => bool_decide (status_of r = WARNING)) results in
      match failed_tables, warning_tables with
      | _ :: _, _ => FAIL
      | [], _ :: _ => WARNING
      | [], [] => PASS
      end
  end.

(** [not self.schema_validation_results] holds of [None] and of [[]]. *)
Definition overall_status_schema_result (self : t) : Status :=
  status_of_list SchemaValidationResult.status
                 (default [] (schema_validation_results self)).

Definition overall_status (self : t) : Status :=
  let table_status := overall_status_table_result self in
  let schema_status := overall_status_schema_result self in
  if bool_decide (table_status = FAIL) || bool_decide (schema_status = FAIL)
  then FAIL
  else if bool_decide (table_status = WARNING)
          || bool_decide (schema_status = WARNING)
  then WARNING
  else if bool_decide (table_status = PASS) && bool_decide (schema_status = PASS)
  then PASS
  else SKIP.

Definition overall_status_row_count_result (self : t) : Status :=
  status_of_list TableStatus.row_count_status (data_match_validation_result self).

Definition overall_status_data_match_result (self : t) : Status :=
  status_of_list TableStatus.get_data_match_status
                 (data_match_validation_result self).

(** *** success_summary *)

(** The entries of the summary dict, without the execution time. *)
Record summary (F : Type) : Type := mk_summary {
  total_tables : Z;
  successful_tables : Z;
  passed_tables : Z;
  failed_tables : Z;
  warning_tables : Z;
  success_rate_tables : F;
  total_source_records : Z;
  total_target_records : Z;
  total_matching_records : Z;
  overall_data_success_rate : F
}.
Arguments mk_summary {F}.
Arguments total_tables {F}.
Arguments successful_tables {F}.
Arguments passed_tables {F}.
Arguments failed_tables {F}.
Arguments warning_tables {F}.
Arguments success_rate_tables {F}.
Arguments total_source_records {F}.
Arguments total_target_records {F}.
Arguments total_matching_records {F}.
Arguments overall_data_success_rate {F}.

(** [len([r for r in results if test(r)])] *)
Definition count_if (test : TableResult -> bool) (results : list TableResult) : Z :=
  Z.of_nat (length (List.filter test results)).

(** [sum(c(r) if c(r) and c(r) > 0 else 0 for r in results)] *)
Definition sum_positive (count : TableResult -> Z) (results : list TableResult) : Z :=
  fold_left (fun total r =>
               total + (if negb (count r =? 0) && (0 <? count r) then count r else 0))
            results 0.

Section Summary.

Context {F : Type} `{PyFloat F}.

Definition success_summary (self : t) : summary F :=
  let results := data_match_validation_result self in
  let total_tables := Z.of_nat (length results) in
  let successful_tables := count_if TableStatus.is_successful results in
  let passed_tables :=
    count_if (fun r => bool_decide (DataMatchValidationResult.status r = PASS))
             results in
  let failed_tables :=
    count_if (fun r => bool_decide (DataMatchValidationResult.status r = FAIL))
             results in
  let warning_tables :=
    count_if (fun r => bool_decide (DataMatchValidationResult.status r = WARNING))
             results in
  let total_source_records :=
    sum_positive DataMatchValidationResult.source_count results in
  let total_target_records :=
    sum_positive DataMatchValidationResult.target_count results in
  let total_matching_records :=
    sum_positive DataMatchValidationResult.matching_records results in
  {| total_tables := total_tables;
     successful_tables := successful_tables;
     passed_tables := passed_tables;
     failed_tables := failed_tables;
     warning_tables := warning_tables;
     success_rate_tables :=
       if 0 <? total_tables
       then fmul (int_truediv successful_tables total_tables) (float_of_int 100)
       else float_of_int 0;
     total_source_records := total_source_records;
     total_target_records := total_target_records;
     total_matching_records := total_matching_records;
     overall_data_success_rate :=
       if 0 <? total_source_records
       then fmul (int_truediv total_matching_records total_source_records)
                 (float_of_int 100)
       else float_of_int 0 |}.

End Summary.

(** *** sort_results_and_add_data_match_validation_result_grouped *)

(** [sort.get("sort_by") == name] *)
Definition is_by (name : string) (d : sort_directive) : bool :=
  bool_decide (sort_by d = Some name).

(** [sort.get("sort_order", "ascending") == "descending"] *)
Definition reverse_of (d : sort_directive) : bool :=
  bool_decide (sort_order d = Some "descending").

(** The key [ValidationStatus.SEVERITY_ORDER.value.get(str(s.value), 0)] *)
Definition severity_le {A : Type} (status_of : A -> Status) (x y : A) : bool :=
  ValidationStatus.severity_of (status_of x)
  <=? ValidationStatus.severity_of (status_of y).

(** One loop [for sort in ...: if sort.get("sort_by") == "severity_status": ...]
    over a list of directives. *)
Definition sort_by_severity {A : Type} (status_of : A -> Status)
    (directives : list sort_directive) (results : list A) : list A :=
  fold_left
    (fun results d =>
       if is_by "severity_status" d
       then PySort.stable_sort (severity_le status_of) (reverse_of d) results
       else results)
    directives results.

(** [grouped[item.group].append(item)] on the dict kept in insertion order *)
Fixpoint group_append (group : string) (item : TableResult)
    (grouped : list (string * list TableResult))
    : list (string * list TableResult) :=
  match grouped with
  | [] => [(group, [item])]
  | (name, items) :: rest =>
      if String.eqb name group then (name, items ++ [item]) :: rest
      else (name, items) :: group_append group item rest
  end.

(** [for item in results: if item.group: ... else: no_group.append(item)] *)
Definition split_by_group (results : list TableResult)
    : list (string * list TableResult) * list TableResult :=
  fold_left
    (fun acc item =>
       match DataMatchValidationResult.group item with
       | Some (String c g) =>
           (group_append (String c g) item (fst acc), snd acc)
       | _ => (fst acc, snd acc ++ [item])
       end)
    results ([], []).

(** [grouped[key] = value] *)
Fixpoint dict_set {V : Type} (key : string) (value : V) (d : list (string * V))
    : list (string * V) :=
  match d with
  | [] => [(key, value)]
  | (k, v) :: d' =>
      if String.eqb k key then (k, value) :: d' else (k, v) :: dict_set key value d'
  end.

(** [for group_name in grouped.keys(): grouped[group_name] = f(grouped[group_name])] *)
Fixpoint map_groups (f : list TableResult -> outcome (list TableResult))
    (grouped : list (string * list TableResult))
    : outcome (list (string * list TableResult)) :=
  match grouped with
  | [] => Return []
  | (name, items) :: rest =>
      match f items with
      | Raise e => Raise e
      | Return items' =>
          match map_groups f rest with
          | Raise e => Raise e
          | Return rest' => Return ((name, items') :: rest')
          end
      end
  end.

(** [sorted(items, key=lambda x: len(x.key_columns), reverse=reverse)]:
    [len(None)] raises. *)
Definition sort_by_key_columns_length (reverse : bool) (items : list TableResult)
    : outcome (list TableResult) :=
  if forallb (fun x => bool_decide (is_Some (DataMatchValidationResult.key_columns x)))
             items
  then
    Return
      (PySort.stable_sort
         (fun x y =>
            (length (default [] (DataMatchValidationResult.key_columns x))
             <=? length (default [] (DataMatchValidationResult.key_columns y)))%nat)
         reverse items)
  else Raise (TypeError "object of type 'NoneType' has no len()").

(** [sorted(items, key=lambda x: x.source_table, reverse=reverse)]: the keys
    are compared as soon as there are two items, and a comparison with
    [None] raises. *)
Definition sort_by_source_table (reverse : bool) (items : list TableResult)
    : outcome (list TableResult) :=
  if (length items <=? 1)%nat
     || forallb (fun x => bool_decide (is_Some (DataMatchValidationResult.source_table x)))
                items
  then
    Return
      (PySort.stable_sort
         (fun x y =>
            String.leb (default "" (DataMatchValidationResult.source_table x))
                       (default "" (DataMatchValidationResult.source_table y)))
         reverse items)
  else Raise (TypeError "'<' not supported between instances of 'NoneType' and 'str'").

(** One loop over [detailed_data_match_report] for one value of [sort_by]. *)
Fixpoint for_directives (name : string)
    (step : bool -> list (string * list TableResult)
            -> outcome (list (string * list TableResult)))
    (directives : list sort_directive) (grouped : list (string * list TableResult))
    : outcome (list (string * list TableResult)) :=
  match directives with
  | [] => Return grouped
  | d :: rest =>
      if is_by name d then
        match step (reverse_of d) grouped with
        | Raise e => Raise e
        | Return grouped' => for_directives name step rest grouped'
        end
      else for_directives name step rest grouped
  end.

Definition sort_results_and_add_data_match_validation_result_grouped
    (settings : report_sorting_settings) (self : t) : outcome t :=
  let sorts_schema :=
    existsb (is_by "severity_status") (schema_report settings) in
  match schema_validation_results self, sorts_schema with
  | None, true =>
      Raise (OtherException "'NoneType' object has no attribute 'sort'")
  | schema_results, _ =>
      let schema_results :=
        sort_by_severity SchemaValidationResult.status (schema_report settings)
          <$> schema_results in
      let results :=
        sort_by_severity TableStatus.row_count_status (row_count_report settings)
                         (data_match_validation_result self) in
      let results :=
        sort_by_severity TableStatus.get_data_match_status
                         (data_match_report settings) results in
      match results with
      | [] =>
          Return (mk (validation_id self) schema_results results
                     (data_match_validation_result_grouped self))
      | _ =>
          let '(grouped, no_group) := split_by_group results in
          let detailed := detailed_data_match_report settings in
          match
            for_directives "group_name"
              (fun reverse grouped =>
                 Return (PySort.stable_sort
                           (fun x y => String.leb (fst x) (fst y)) reverse grouped))
              detailed grouped
          with
          | Raise e => Raise e
          | Return grouped =>
              match
                for_directives "key_columns_length"
                  (fun reverse => map_groups (sort_by_key_columns_length reverse))
                  detailed grouped
              with
              | Raise e => Raise e
              | Return grouped =>
                  match
                    for_directives "table_view_name"
                      (fun reverse => map_groups (sort_by_source_table reverse))
                      detailed grouped
                  with
                  | Raise e => Raise e
                  | Return grouped =>
                      let grouped_items :=
                        List.concat (List.map snd grouped) ++ no_group in
                      Return (mk (validation_id self) schema_results grouped_items
                                 (dict_set "_no_group_" no_group grouped))
                  end
              end
          end
      end
  end.

(** What the grouping establishes of the dict: the group names are
    different and not empty, and each list is not empty and holds results of
    its group only. *)
Definition well_grouped (grouped : list (string * list TableResult)) : Prop :=
  NoDup (List.map fst grouped)
  /\ Forall (fun entry =>
               snd entry <> [] /\ fst entry <> ""
               /\ Forall (fun r => DataMatchValidationResult.group r
                                   = Some (fst entry)) (snd entry))
            grouped.

(** [not item.group] *)
Definition without_group (r : TableResult) : Prop :=
  DataMatchValidationResult.group r = None
  \/ DataMatchValidationResult.group r = Some "".

End OverallValidation.

(** ** DatabaseTransitionValidator: schema validation *)

Module SchemaValidator.

Import ValidationIssue.

(** [COLUMN_TYPE_COMPATIBLE_MAPPINGS["PASS"]], in the order of the dict *)
Definition COLUMN_TYPE_COMPATIBLE_MAPPINGS_PASS : list (string * list string) :=
  [ ("INT", ["INTEGER"; "BIGINT"; "DECIMAL"]);
    ("INTEGER", ["INT"; "BIGINT"; "DECIMAL"]);
    ("VARCHAR", ["NVARCHAR"; "TEXT"]);
    ("NUMERIC", ["DECIMAL"; "FLOAT"]);
    ("DATE", ["DATETIME"; "TIMESTAMP"]);
    ("BINARY", ["VARBINARY"]);
    ("VARBINARY", ["BINARY"]);
    ("BIT", ["BOOLEAN"; "TINYINT"; "BOOL"; "INTEGER"]);
    ("SMALLINT", ["INTEGER"]);
    ("BOOLEAN", ["BIT"; "BOOL"]);
    ("TIMESTAMP", ["DATE"; "DATETIME"]);
    ("DATETIME", ["DATE"; "TIMESTAMP"]);
    ("DECIMAL", ["NUMERIC"; "FLOAT"; "DOUBLE"]);
    ("NVARCHAR", ["VARCHAR"; "TEXT"]);
    ("BIGINT", ["INT"; "INTEGER"; "DECIMAL"]);
    ("FLOAT", ["REAL"; "DOUBLE"]);
    ("REAL", ["FLOAT"; "DOUBLE"]);
    ("DOUBLE", ["FLOAT"; "REAL"]);
    ("CHAR", ["NCHAR"; "VARCHAR"; "TEXT"]);
    ("NCHAR", ["CHAR"]);
    ("TEXT", ["VARCHAR"; "NVARCHAR"]) ].

(** [COLUMN_TYPE_COMPATIBLE_MAPPINGS["WARNING"]] *)
Definition COLUMN_TYPE_COMPATIBLE_MAPPINGS_WARNING : list (string * list string) :=
  [ ("DECIMAL", ["INT"; "INTEGER"; "BIGINT"; "DECIMAL"]);
    ("INTEGER", ["BIT"; "FLOAT"; "VARCHAR"]);
    ("FLOAT", ["INT"; "INTEGER"; "BIGINT"]);
    ("DOUBLE", ["INT"; "INTEGER"; "BIGINT"]);
    ("NUMERIC", ["INT"; "INTEGER"; "BIGINT"]);
    ("BIGINT", ["INT"; "INTEGER"; "DECIMAL"; "NUMERIC"]) ].

(** One loop over a mapping: some base type occurs in the source type and
    the target type starts with one of its compatible types. *)
Definition listed (mappings : list (string * list string))
    (source_type target_type : string) : bool :=
  existsb
    (fun entry =>
       PyText.contains (fst entry) source_type
       && existsb (fun comp_type => PyText.startswith target_type comp_type)
                  (snd entry))
    mappings.

Definition _are_types_compatible (source_type target_type : string)
    : DataTypesCompatibleResult.t :=
  let source_type := PyText.upper source_type in
  let target_type := PyText.upper target_type in
  if String.eqb source_type target_type then
    DataTypesCompatibleResult.mk PASS None
  else if listed COLUMN_TYPE_COMPATIBLE_MAPPINGS_PASS source_type target_type then
    DataTypesCompatibleResult.mk PASS None
  else if listed COLUMN_TYPE_COMPATIBLE_MAPPINGS_WARNING source_type target_type then
    DataTypesCompatibleResult.mk WARNING
      (Some {| issue_type :=
                 "type_compatible_" +:+ source_type +:+ "->" +:+ target_type;
               description :=
                 "Column type '" +:+ source_type +:+ "' is compatible with '"
                   +:+ target_type +:+ "' but may require attention.";
               severity := WARNING;
               source_value := None;
               target_value := None |})
  else
    DataTypesCompatibleResult.mk FAIL
      (Some {| issue_type :=
                 "fail_type_compatible_" +:+ source_type +:+ "->" +:+ target_type;
               description :=
                 "Column type '" +:+ source_type +:+ "' is NOT compatible with '"
                   +:+ target_type +:+ "'";
               severity := FAIL;
               source_value := None;
               target_value := None |}).

(** What the inspector answers for one mapping: the index entry of each
    table, and for each table its columns, as pairs of a name and the text
    of its type, unless the inspection raises. *)
Record Probe : Type := mk_probe {
  source_lookup : option relation_kind;
  target_lookup : option relation_kind;
  source_columns_query : outcome (list (string * string));
  target_columns_query : outcome (list (string * string))
}.

(** The dict of a table's columns; a later column of the same name replaces
    the earlier one.  An [Exception] is logged and answered by [{}]. *)
Definition _get_table_columns (query : outcome (list (string * string)))
    : outcome (gmap string string) :=
  match query with
  | Return columns =>
      Return (fold_left (fun column_info col => <[fst col := snd col]> column_info)
                        columns ∅)
  | Raise e => if is_Exception e then Return ∅ else Raise e
  end.

(** [sorted(list(names))] *)
Definition sorted_names (names : gset string) : list string :=
  TableMapping.sorted (elements names).

(** [str(len(l))] inside an f-string *)
Definition len_text {A : Type} (l : list A) : string :=
  Decimal.of_Z (Z.of_nat (length l)).

Definition plain_issue (issue_type description : string) (severity : Status)
    : Issue :=
  {| issue_type := issue_type;
     description := description;
     severity := severity;
     source_value := None;
     target_value := None |}.

(** One side of the existence and column checks: the issues it adds and the
    columns it found. *)
Definition inspect_side (exist : bool) (query : outcome (list (string * string)))
    (missing no_columns : Issue) : outcome (list Issue * gmap string string) :=
  if negb exist then Return ([missing], ∅)
  else
    match _get_table_columns query with
    | Raise e => Raise e
    | Return columns =>
        if bool_decide (columns = ∅) then Return ([no_columns], ∅)
        else Return ([], columns)
    end.

Section SingleSchema.

(** The order in which this process iterates over a set of column names. *)
Variable set_iter : list string -> list string.

(** The loop over the common columns: for each column whose types are not
    compatible with the result PASS, the mismatch and the issue of the
    compatibility check.  Both columns are in both dicts. *)
Definition check_types (source_columns target_columns : gmap string string)
    (common_columns : list string)
    : list ((string * string * string) * option Issue) :=
  List.flat_map
    (fun col =>
       let source_type := default "" (source_columns !! col) in
       let target_type := default "" (target_columns !! col) in
       let types_compatible_check := _are_types_compatible source_type target_type in
       if bool_decide (DataTypesCompatibleResult.result types_compatible_check = PASS)
       then []
       else [((col, source_type, target_type),
              DataTypesCompatibleResult.issue types_compatible_check)])
    common_columns.

(** [for issue in type_mismatches_issues: ...] on the state
    [(severity, validate_schema_status, validation_issues)]; reading the
    severity of [None] raises. *)
Fixpoint merge_type_issues (type_mismatches_issues : list (option Issue))
    (state : Status * Status * list Issue)
    : outcome (Status * Status * list Issue) :=
  match type_mismatches_issues with
  | [] => Return state
  | None :: _ =>
      Raise (OtherException "'NoneType' object has no attribute 'severity'")
  | Some issue :: rest =>
      let '(severity0, validate_schema_status, validation_issues) := state in
      merge_type_issues rest
        (ValidationStatus.raise_status_level_to severity0 (severity issue),
         ValidationStatus.raise_status_level_to validate_schema_status
                                                (severity issue),
         if bool_decide (issue ∈ validation_issues) then validation_issues
         else validation_issues ++ [issue])
  end.

Definition _validate_single_schema (mapping : Mapping) (io : Probe)
    : outcome SchemaResult :=
  let source_table := TableMapping.source_table mapping in
  let target_table := TableMapping.target_table mapping in
  let source_name := "'" +:+ TableMapping.str_of source_table +:+ "'" in
  let target_name := "'" +:+ TableMapping.str_of target_table +:+ "'" in
  let source_table_or_view := kind_name <$> source_lookup io in
  let target_table_or_view := kind_name <$> target_lookup io in
  match
    inspect_side (bool_decide (is_Some (source_lookup io))) (source_columns_query io)
      (plain_issue "no_source_table"
         ("Source table " +:+ source_name +:+ " does not exist.") FAIL)
      (plain_issue "no_columns_source_table"
         ("Source table " +:+ source_name
            +:+ " has no columns or could not be inspected.") FAIL)
  with
  | Raise e => Raise e
  | Return (source_issues, source_columns) =>
      match
        inspect_side (bool_decide (is_Some (target_lookup io)))
          (target_columns_query io)
          (plain_issue "no_target_table"
             ("Target table " +:+ target_name +:+ " does not exist.") FAIL)
          (plain_issue "no_column_target_table"
             ("Target table " +:+ target_name
                +:+ " has no columns or could not be inspected.") FAIL)
      with
      | Raise e => Raise e
      | Return (target_issues, target_columns) =>
          let source_col_names : gset string := dom source_columns in
          let target_col_names : gset string := dom target_columns in
          match source_issues ++ target_issues with
          | (_ :: _) as validation_issues =>
              Return
                {| SchemaValidationResult.source_table_name := source_table;
                   SchemaValidationResult.target_table_name := target_table;
                   SchemaValidationResult.status := FAIL;
                   SchemaValidationResult.validation_issues := validation_issues;
                   SchemaValidationResult.source_col_names :=
                     sorted_names source_col_names;
                   SchemaValidationResult.target_col_names :=
                     sorted_names target_col_names;
                   SchemaValidationResult.missing_columns := None;
                   SchemaValidationResult.extra_columns := None;
                   SchemaValidationResult.type_mismatches := None;
                   SchemaValidationResult.source_table_or_view := source_table_or_view;
                   SchemaValidationResult.target_table_or_view := target_table_or_view
                |}
          | [] =>
              let missing_columns :=
                sorted_names (source_col_names ∖ target_col_names) in
              let extra_columns :=
                sorted_names (target_col_names ∖ source_col_names) in
              let common_columns :=
                set_iter (elements (source_col_names ∩ target_col_names)) in
              let checked := check_types source_columns target_columns common_columns in
              let type_mismatches := List.map fst checked in
              let type_mismatches_issues := List.map snd checked in
              let validate_schema_status := PASS in
              let validation_issues : list Issue := [] in
              let '(validate_schema_status, validation_issues) :=
                match extra_columns with
                | [] => (validate_schema_status, validation_issues)
                | _ =>
                    (ValidationStatus.raise_status_level_to validate_schema_status
                                                            WARNING,
                     validation_issues
                       ++ [plain_issue "extra_columns_in_target"
                             ("Target table " +:+ target_name +:+ " has extra "
                                +:+ len_text extra_columns
                                +:+ " column(s) not in the source table.")
                             WARNING])
                end in
              let '(validate_schema_status, validation_issues) :=
                match missing_columns with
                | [] => (validate_schema_status, validation_issues)
                | _ =>
                    (ValidationStatus.raise_status_level_to validate_schema_status
                                                            FAIL,
                     validation_issues
                       ++ [plain_issue "missing_columns_in_target"
                             (len_text missing_columns
                                +:+ " column(s) is(are) missing in target table "
                                +:+ target_name)
                             FAIL])
                end in
              let finish (validate_schema_status : Status)
                         (validation_issues : list Issue) : SchemaResult :=
                {| SchemaValidationResult.source_table_name := source_table;
                   SchemaValidationResult.target_table_name := target_table;
                   SchemaValidationResult.status := validate_schema_status;
                   SchemaValidationResult.validation_issues := validation_issues;
                   SchemaValidationResult.source_col_names :=
                     sorted_names source_col_names;
                   SchemaValidationResult.target_col_names :=
                     sorted_names target_col_names;
                   SchemaValidationResult.missing_columns := Some missing_columns;
                   SchemaValidationResult.extra_columns := Some extra_columns;
                   SchemaValidationResult.type_mismatches := Some type_mismatches;
                   SchemaValidationResult.source_table_or_view := source_table_or_view;
                   SchemaValidationResult.target_table_or_view := target_table_or_view
                |} in
              match type_mismatches with
              | [] => Return (finish validate_schema_status validation_issues)
              | _ =>
                  match
                    merge_type_issues type_mismatches_issues
                      (WARNING,
                       ValidationStatus.raise_status_level_to validate_schema_status
                                                              WARNING,
                       validation_issues)
                  with
                  | Raise e => Raise e
                  | Return (severity0, validate_schema_status, validation_issues) =>
                      Return
                        (finish validate_schema_status
                           (validation_issues
                              ++ [plain_issue "type_mismatches_columns"
                                    (len_text type_mismatches
                                       +:+ " column type mismatches found between source and target tables "
                                       +:+ target_name)
                                    severity0]))
                  end
              end
          end
      end
  end.

End SingleSchema.

(** *** The schema phase *)

(** [deduplicated_mappings]: the first mapping of every source table. *)
Fixpoint deduplicate (seen : gset (option string)) (table_mappings : list Mapping)
    : list Mapping :=
  match table_mappings with
  | [] => []
  | item :: rest =>
      if bool_decide (TableMapping.source_table item ∈ seen)
      then deduplicate seen rest
      else item :: deduplicate ({[TableMapping.source_table item]} ∪ seen) rest
  end.

(** The result the [except Exception] clause of the schema phase appends. *)
Definition failure_result (mapping : Mapping) (e : exn) : SchemaResult :=
  {| SchemaValidationResult.source_table_name := TableMapping.source_table mapping;
     SchemaValidationResult.target_table_name := TableMapping.target_table mapping;
     SchemaValidationResult.status := FAIL;
     SchemaValidationResult.validation_issues :=
       [plain_issue "schema_validation_error"
          ("Schema validation failed: " +:+ exn_text e) FAIL];
     SchemaValidationResult.source_col_names := [];
     SchemaValidationResult.target_col_names := [];
     SchemaValidationResult.missing_columns := None;
     SchemaValidationResult.extra_columns := None;
     SchemaValidationResult.type_mismatches := None;
     SchemaValidationResult.source_table_or_view := Some "";
     SchemaValidationResult.target_table_or_view := Some "" |}.

Section SchemaPhase.

(** As in the data phase: [run i mapping] is [future.result()] of the task
    submitted [i]-th, [as_completed] the order of completion. *)
Variable run : nat -> Mapping -> outcome SchemaResult.
Variable as_completed : list (nat * Mapping) -> list (nat * Mapping).

Fixpoint collect (futures : list (nat * Mapping)) (results : list SchemaResult)
    : outcome (list SchemaResult) :=
  match futures with
  | [] => Return results
  | (i, mapping) :: rest =>
      match run i mapping with
      | Return result => collect rest (results ++ [result])
      | Raise e =>
          if is_Exception e
          then collect rest (results ++ [failure_result mapping e])
          else Raise e
      end
  end.

Definition _validate_schemas (table_mappings : list Mapping)
    : outcome (list SchemaResult) :=
  let deduplicated_mappings := deduplicate ∅ table_mappings in
  collect (as_completed (Validator.submit_all deduplicated_mappings)) [].

End SchemaPhase.

End SchemaValidator.

(** ** DatabaseTransitionValidator: key columns and their cast types *)

Module KeyColumnCasts.

Import TableMapping.

(** [sorted(type_casting_separators, key=len, reverse=True)] *)
Definition type_casting_separators : list string :=
  PySort.stable_sort (fun a b => (String.length a <=? String.length b)%nat) true
                     [">"; "->"; "=>"; ":"; "|"].

(** The body of [for key_column in mapping.key_columns:]: the column name
    and the cast type appended for one key column. *)
Definition split_key_column (key_column : string) : string * option string :=
  match
    List.find (fun separator => PyText.contains separator key_column)
              type_casting_separators
  with
  | Some separator =>
      let '(part_0, part_1) := PyText.split_1 separator key_column in
      (PyStr.strip part_0, PyStr.strip <$> part_1)
  | None => (key_column, None)
  end.

(** The body of [for mapping in table_mappings:]. *)
Definition build_cast_types (mapping : Mapping) : Mapping :=
  match key_columns mapping with
  | Some ((_ :: _) as keys) =>
      if match key_columns_cast_types mapping with
         | None | Some [] => true
         | Some casts => negb (length casts =? length keys)%nat
         end
      then
        let parsed := List.map split_key_column keys in
        {| key_columns := Some (List.map fst parsed);
           key_columns_cast_types := Some (List.map snd parsed);
           source_table := source_table mapping;
           target_table := target_table mapping;
           group := group mapping;
           sample_size := sample_size mapping;
           data_transformation_rules := data_transformation_rules mapping;
           number_of_set_sample_records_for_detailed_report :=
             number_of_set_sample_records_for_detailed_report mapping;
           max_item_length_for_html_report := max_item_length_for_html_report mapping;
           max_word_length_for_html_report := max_word_length_for_html_report mapping;
           rule_based_data_validation := rule_based_data_validation mapping;
           unique_data_mapping_id := unique_data_mapping_id mapping;
           exclude_columns := exclude_columns mapping;
           custom_mappings := custom_mappings mapping |}
      else mapping
  | _ => mapping
  end.

(** The mappings of the list are different objects; each is rewritten in
    place and the list is returned. *)
Definition build_key_columns_cast_types_from_key_columns
    (table_mappings : list Mapping) : list Mapping :=
  List.map build_cast_types table_mappings.

(** The types a key column is cast to INT for. *)
Definition integer_like : list string :=
  ["BOOLEAN"; "BOOL"; "BIT"; "TINYINT"; "BYTEINT"; "SMALLINT"; "INT"; "INTEGER"].

Definition build_casted_key_columns (key_column : string)
    (cast_type : option string) : string :=
  match cast_type with
  | Some (String _ _ as cast_type) =>
      if bool_decide (PyText.upper cast_type ∈ integer_like)
      then " CAST(" +:+ key_column +:+ " AS INT) AS " +:+ key_column +:+ " "
      else key_column
  | _ => key_column
  end.

(** [key_columns_cast_types[i]] *)
Definition cast_type_at (key_columns_cast_types : option (list (option string)))
    (i : nat) : outcome (option string) :=
  match key_columns_cast_types with
  | None => Raise (TypeError "'NoneType' object is not subscriptable")
  | Some casts =>
      match casts !! i with
      | Some cast_type => Return cast_type
      | None => Raise (OtherException "list index out of range")
      end
  end.

(** [for i in range(len(quoted_key_columns)): ...] of [_get_sample_data],
    from the index [i] on. *)
Fixpoint casted_from (i : nat) (quoted_key_columns : list string)
    (key_columns_cast_types : option (list (option string)))
    : outcome (list string) :=
  match quoted_key_columns with
  | [] => Return []
  | quoted_key_column :: rest =>
      match cast_type_at key_columns_cast_types i with
      | Raise e => Raise e
      | Return cast_type =>
          match casted_from (S i) rest key_columns_cast_types with
          | Raise e => Raise e
          | Return casted =>
              Return (build_casted_key_columns quoted_key_column cast_type
                        :: casted)
          end
      end
  end.

(** The double quotation mark, the character of code 34 *)
Definition double_quote : string := String "034"%char EmptyString.

(** The select list of the sample query of [_get_sample_data]. *)
Definition key_cols_str (key_columns : list string)
    (key_columns_cast_types : option (list (option string))) : outcome string :=
  let quoted_key_columns :=
    List.map (fun col => double_quote +:+ col +:+ double_quote) key_columns in
  match casted_from 0 quoted_key_columns key_columns_cast_types with
  | Raise e => Raise e
  | Return casted_key_columns => Return (PyStr.join ", " casted_key_columns)
  end.

End KeyColumnCasts.

(** ** The counts of the rule-based validation *)

Module RuleCounts.

Import RuleBased.

(** What the counters and the sets of a column are expected to satisfy for
    a column of the sample: every cell is counted once, as passed or as
    failed, and the sets hold no more values than were counted. *)
Definition counted (column_data : list item) (st : column_state) : Prop :=
  passed st + failed st = Z.of_nat (length column_data)
  /\ 0 <= failed st /\ 0 <= passed st
  /\ Z.of_nat (size (failed_values st)) <= failed st
  /\ Z.of_nat (size (success_values st)) <= passed st
  /\ (failed st = 0 <-> failed_values st = ∅).

End RuleCounts.

(** ** DatabaseTransitionValidator.validate_transition *)

Module Transition.

Import TableMapping OverallValidation.

(** The assignment to the attribute of a mapping. *)
Definition set_number_of_set_sample_records_for_detailed_report
    (value : option Z) (table_mapping : Mapping) : Mapping :=
  {| key_columns := key_columns table_mapping;
     key_columns_cast_types := key_columns_cast_types table_mapping;
     source_table := source_table table_mapping;
     target_table := target_table table_mapping;
     group := group table_mapping;
     sample_size := sample_size table_mapping;
     data_transformation_rules := data_transformation_rules table_mapping;
     number_of_set_sample_records_for_detailed_report := value;
     max_item_length_for_html_report := max_item_length_for_html_report table_mapping;
     max_word_length_for_html_report := max_word_length_for_html_report table_mapping;
     rule_based_data_validation := rule_based_data_validation table_mapping;
     unique_data_mapping_id := unique_data_mapping_id table_mapping;
     exclude_columns := exclude_columns table_mapping;
     custom_mappings := custom_mappings table_mapping |}.

(** The body of [for table_mapping in table_mappings:]; the attribute is
    not set when it is [None] or 0. *)
Definition set_default_of_mapping (default_value : option Z)
    (table_mapping : Mapping) : Mapping :=
  match number_of_set_sample_records_for_detailed_report table_mapping with
  | Some n =>
      if n =? 0
      then set_number_of_set_sample_records_for_detailed_report default_value
                                                                table_mapping
      else table_mapping
  | None =>
      set_number_of_set_sample_records_for_detailed_report default_value
                                                           table_mapping
  end.

(** [default_value] is what
    [settings.get("validation_settings", {}).get(
       "number_of_set_sample_records_for_detailed_report", 5)] yields. *)
Definition set_default_number_of_set_sample_records_for_detailed_report
    (default_value : option Z) (table_mappings : list Mapping) : list Mapping :=
  List.map (set_default_of_mapping default_value) table_mappings.

Section Run.

(** The settings of the validator: the default of the sample records of the
    report and the sorting of the reports; whether both database
    configurations are given; what the tasks of the two phases do and the
    order in which each pool hands its futures back. *)
Variable default_value : option Z.
Variable sorting : report_sorting_settings.
Variable connected : bool.
Variable schema_task : nat -> Mapping -> outcome SchemaResult.
Variable schema_completed : list (nat * Mapping) -> list (nat * Mapping).
Variable data_task : nat -> Mapping -> outcome TableResult.
Variable data_completed : list (nat * Mapping) -> list (nat * Mapping).

(** [validation_id] is the fresh UUID of the run.  The summary, the
    timestamps and the log are not part of the modelled result; the
    [except Exception] clause logs and raises again. *)
Definition validate_transition (validation_id : string)
    (table_mappings : list Mapping)
    (enable_schema_validation enable_data_validation : bool)
    : outcome OverallValidation.t :=
  let table_mappings :=
    KeyColumnCasts.build_key_columns_cast_types_from_key_columns table_mappings in
  let table_mappings :=
    set_default_number_of_set_sample_records_for_detailed_report
      default_value table_mappings in
  match
    if enable_schema_validation then
      if connected then
        match
          SchemaValidator._validate_schemas schema_task schema_completed
                                            table_mappings
        with
        | Raise e => Raise e
        | Return schema_results => Return (Some schema_results)
        end
      else Return None
    else Return (Some [])
  with
  | Raise e => Raise e
  | Return schema_validation_results =>
      match
        if enable_data_validation
        then Validator._validate_data data_task data_completed table_mappings
        else Return []
      with
      | Raise e => Raise e
      | Return data_match_validation_result =>
          sort_results_and_add_data_match_validation_result_grouped sorting
            {| validation_id := validation_id;
               schema_validation_results := schema_validation_results;
               data_match_validation_result := data_match_validation_result;
               data_match_validation_result_grouped := [] |}
      end
  end.

End Run.

End Transition.

(** ** Values for concrete evaluations *)

Module Examples.

Import TableMapping OverallValidation.

(** Both tables exist and hold no row. *)
Definition probe_empty : Probe Z :=
  mk_probe (Some Table) (Some Table) (Some 0) (Some 0)
           (Return (Some (Scenario.sample_of [])))
           (Return (Some (Scenario.sample_of []))).




(** The settings with the row-count validation switched off. *)
Definition row_counts_disabled : Settings spec_float :=
  mk_settings (Some false) None None None None None.

(** The mapping of ORDERS onto itself without key columns, and the result
    of its data task on 1000 source and 950 target rows. *)
Definition orders_without_keys : Mapping :=
  simple (Some "ORDERS") (Some "ORDERS") [] (Some []) (Some "ORDERS|ORDERS||").

Definition result_without_keys : TableResult :=
  Eval vm_compute in
    match Validator._validate_single_table_data Scenario.thresholds_5_1 Scenario.keep
      RuleBased.default_only Scenario.no_distribution_specs
      orders_without_keys None Scenario.probe_1000_950 with
    | Return r => r
    | Raise _ => Scenario.fresh
    end.

(** A mapping whose group is itself named [_no_group_]. *)
Definition orders_grouped : Mapping :=
  TableMapping.mk (Some ["ID"]) (Some [None]) (Some "ORDERS") (Some "ORDERS")
     (Some "_no_group_") None (Some []) None None None None
     (Some "ORDERS|ORDERS|ID|") (Some []) (Some []).

(** Every report sorted by descending severity; the groups of the detailed
    report by name, by the number of key columns and by table. *)
Definition sorting : report_sorting_settings :=
  let by_severity := [mk_sort (Some "severity_status") (Some "descending")] in
  mk_sorting by_severity by_severity by_severity
             [mk_sort (Some "group_name") None;
              mk_sort (Some "key_columns_length") (Some "descending");
              mk_sort (Some "table_view_name") None].

(** A run with two table results and no schema result, and a run over two
    mappings of ORDERS. *)
Definition run_of_two : OverallValidation.t :=
  OverallValidation.mk "run-1" (Some [])
     [DataMatchValidationResult.init orders_grouped PASS; Scenario.result_1000_950]
     [].

Definition run_of_orders : OverallValidation.t :=
  OverallValidation.mk "run-1" (Some []) [Scenario.result_1000_950; Scenario.result_1000_950] [].

(** Both tables exist; their columns as the inspector lists them. *)
Definition columns_probe : SchemaValidator.Probe :=
  SchemaValidator.mk_probe (Some Table) (Some Table)
    (Return [("ID", "INT"); ("NAME", "VARCHAR(20)")])
    (Return [("ID", "INTEGER"); ("NAME", "VARCHAR(20)")]).

Definition source_columns : gmap string string :=
  <["NAME" := "VARCHAR(20)"]> (<["ID" := "INT"]> ∅).

Definition target_columns : gmap string string :=
  <["NAME" := "VARCHAR(20)"]> (<["ID" := "INTEGER"]> ∅).


(** Neither table is in the index of the inspector. *)
Definition probe_of_missing_tables : SchemaValidator.Probe :=
  SchemaValidator.mk_probe None None (Return []) (Return []).

(** A mapping as a configuration gives it: the target table is missing, a
    key column is padded and one is empty. *)
Definition written : Mapping :=
  simple (Some "ORDERS") None [" ID "; ""] (Some []) None.

End Examples.

(** * Properties *)

(** ** The severity order and its join *)

Section Severity.

Import ValidationStatus.

Lemma severity_of_eq (s : Status) :
  severity_of s = match s with SKIP => 0 | PASS => 1 | WARNING => 2 | FAIL => 3 end.
Proof. destruct s; vm_compute; reflexivity. Qed.

(** Every status has an entry in the table: the lookup never fails. *)
Lemma SEVERITY_ORDER_defined (s : Status) : is_Some (SEVERITY_ORDER !! value s).
Proof. destruct s; vm_compute; eauto. Qed.

Lemma severity_of_inj (a b : Status) : severity_of a = severity_of b -> a = b.
Proof. rewrite !severity_of_eq; destruct a, b; intros E; congruence. Qed.

Lemma raise_status_level_to_max (a b : Status) :
  severity_of (raise_status_level_to a b) = Z.max (severity_of a) (severity_of b).
Proof.
  unfold raise_status_level_to.
  destruct (Z.ltb_spec (severity_of a) (severity_of b)); lia.
Qed.

(** C4: [raise_status_level_to] returns one of its two arguments, the one
    that is at least as severe as the other under SKIP < PASS < WARNING <
    FAIL; it is commutative, idempotent and associative on the four
    statuses, and FAIL absorbs every status. *)
Theorem raise_status_level_to_join :
  (severity_of SKIP < severity_of PASS
   /\ severity_of PASS < severity_of WARNING
   /\ severity_of WARNING < severity_of FAIL)
  /\ (forall a b : Status,
        (raise_status_level_to a b = a \/ raise_status_level_to a b = b)
        /\ ValidationStatus.le a (raise_status_level_to a b)
        /\ ValidationStatus.le b (raise_status_level_to a b))
  /\ (forall a b : Status, raise_status_level_to a b = raise_status_level_to b a)
  /\ (forall a : Status, raise_status_level_to a a = a)
  /\ (forall a b c : Status,
        raise_status_level_to (raise_status_level_to a b) c
        = raise_status_level_to a (raise_status_level_to b c))
  /\ (forall a : Status,
        raise_status_level_to FAIL a = FAIL /\ raise_status_level_to a FAIL = FAIL).
Proof.
  split; [rewrite !severity_of_eq; lia|].
  split.
  { intros a b. unfold ValidationStatus.le.
    rewrite raise_status_level_to_max. unfold raise_status_level_to.
    destruct (severity_of a <? severity_of b); split; auto; lia. }
  split.
  { intros a b. apply severity_of_inj. rewrite !raise_status_level_to_max. lia. }
  split.
  { intros a. apply severity_of_inj. rewrite raise_status_level_to_max. lia. }
  split.
  { intros a b c. apply severity_of_inj. rewrite !raise_status_level_to_max. lia. }
  intros a; split; apply severity_of_inj; rewrite raise_status_level_to_max;
    pose proof (severity_of_eq a) as Ha; rewrite (severity_of_eq FAIL);
    destruct a; lia.
Qed.

End Severity.

(** ** The run-level table status *)

Section OverallStatus.

Import OverallValidationResult.
#[local] Abbreviation status := DataMatchValidationResult.status.

Lemma filter_status_nil (s : Status) (l : list TableResult) :
  List.filter (fun r => bool_decide (status r = s)) l = []
  <-> ~ Exists (fun r => status r = s) l.
Proof.
  induction l as [|r l IH]; simpl.
  - rewrite Exists_nil. tauto.
  - rewrite Exists_cons. case_bool_decide as E.
    + split; [discriminate|tauto].
    + rewrite IH. tauto.
Qed.

Lemma overall_status_table_result_cases (self : t) :
  data_match_validation_result self <> [] ->
  overall_status_table_result self =
    if bool_decide (Exists (fun r => status r = FAIL)
                           (data_match_validation_result self))
    then FAIL
    else if bool_decide (Exists (fun r => status r = WARNING)
                                (data_match_validation_result self))
    then WARNING
    else PASS.
Proof.
  unfold overall_status_table_result. intros Hne.
  destruct (data_match_validation_result self) as [|r0 l0] eqn:El; [contradiction|].
  pose proof (filter_status_nil FAIL (r0 :: l0)) as HF.
  pose proof (filter_status_nil WARNING (r0 :: l0)) as HW.
  destruct (List.filter _ (r0 :: l0)) as [|f fs] eqn:EF.
  - rewrite bool_decide_eq_false_2 by (apply HF; reflexivity).
    destruct (List.filter (fun r => bool_decide (status r = WARNING)) (r0 :: l0))
      as [|w ws] eqn:EW.
    + rewrite bool_decide_eq_false_2 by (apply HW; reflexivity). reflexivity.
    + rewrite bool_decide_eq_true_2; [reflexivity|].
      destruct (decide (Exists (fun r => status r = WARNING) (r0 :: l0)))
        as [Hex|Hno]; [exact Hex|].
      apply HW in Hno. discriminate.
  - rewrite bool_decide_eq_true_2; [reflexivity|].
    destruct (decide (Exists (fun r => status r = FAIL) (r0 :: l0)))
      as [Hex|Hno]; [exact Hex|].
    apply HF in Hno. discriminate.
Qed.

(** C10: the run-level table status is SKIP exactly when there is no table
    result; otherwise it is FAIL when some table failed, else WARNING when
    some table has a warning, else PASS, so a non-empty run whose tables
    are all SKIP reports PASS. *)
Theorem overall_status_table_result_spec (self : t) :
  (overall_status_table_result self = SKIP
   <-> data_match_validation_result self = [])
  /\ (data_match_validation_result self <> [] ->
      (Exists (fun r => status r = FAIL) (data_match_validation_result self) ->
       overall_status_table_result self = FAIL)
      /\ (~ Exists (fun r => status r = FAIL) (data_match_validation_result self) ->
          Exists (fun r => status r = WARNING) (data_match_validation_result self) ->
          overall_status_table_result self = WARNING)
      /\ (~ Exists (fun r => status r = FAIL) (data_match_validation_result self) ->
          ~ Exists (fun r => status r = WARNING) (data_match_validation_result self) ->
          overall_status_table_result self = PASS)
      /\ (Forall (fun r => status r = SKIP) (data_match_validation_result self) ->
          overall_status_table_result self = PASS)).
Proof.
  split.
  - split.
    + intros HS. destruct (data_match_validation_result self) eqn:El; [reflexivity|].
      rewrite overall_status_table_result_cases in HS by (rewrite El; discriminate).
      repeat case_bool_decide; discriminate.
    + intros El. unfold overall_status_table_result. rewrite El. reflexivity.
  - intros Hne. rewrite (overall_status_table_result_cases self Hne).
    repeat split.
    + intros HF. rewrite bool_decide_eq_true_2; auto.
    + intros HF HW. rewrite bool_decide_eq_false_2, bool_decide_eq_true_2; auto.
    + intros HF HW. rewrite !bool_decide_eq_false_2; auto.
    + intros Hall. rewrite !bool_decide_eq_false_2; auto;
        rewrite <- Forall_Exists_neg; eapply Forall_impl; eauto;
        simpl; intros r Hr; rewrite Hr; discriminate.
Qed.

Lemma overall_status_table_result_spec_witness :
  overall_status_table_result (mk "run" [Scenario.skipped; Scenario.skipped]) = PASS
  /\ overall_status_table_result (mk "run" []) = SKIP.
Proof.
split.
- apply (proj2 (overall_status_table_result_spec
                  (mk "run" [Scenario.skipped; Scenario.skipped])));
    [discriminate|repeat constructor].
- apply (proj1 (overall_status_table_result_spec (mk "run" []))). reflexivity.
Defined.

End OverallStatus.

(** ** The identifier of a table mapping *)

Section MappingIdentifier.

Import TableMapping.

Lemma remove_dups_admissible : admissible remove_dups.
Proof.
intros l. split; [apply NoDup_remove_dups|].
intros x. apply elem_of_remove_dups.
Qed.

(** A duplicate-free list with the members of [[x; x]] is [[x]]. *)
Lemma admissible_twice (set_iter : list string -> list string) (x : string) :
  admissible set_iter -> set_iter [x; x] = [x].
Proof.
intros Hadm. destruct (Hadm [x; x]) as [Hnd Hin].
assert (Hall : forall y, y ∈ set_iter [x; x] -> y = x).
{ intros y Hy. apply Hin in Hy. rewrite !elem_of_cons in Hy.
  destruct Hy as [Hy|[Hy|Hy]]; auto. inversion Hy. }
assert (Hx : x ∈ set_iter [x; x]) by (apply Hin; left).
destruct (set_iter [x; x]) as [|a [|b l]].
- inversion Hx.
- f_equal. apply Hall. left.
- exfalso. assert (Ha : a = x) by (apply Hall; left).
  assert (Hb : b = x) by (apply Hall; right; left). subst a b.
  apply NoDup_cons in Hnd as [Hnot _]. apply Hnot. left.
Qed.

Lemma post_init_with_tables (set_iter : list string -> list string) (self : Mapping) :
  PyStr.truthy (source_table self) || PyStr.truthy (target_table self) = true ->
  __post_init__ set_iter self =
    let source :=
      if PyStr.truthy (source_table self) then source_table self
      else target_table self in
    let target :=
      if PyStr.truthy (source_table self) then
        if PyStr.truthy (target_table self) then target_table self
        else source_table self
      else target_table self in
    let keys := clean_key_columns (default [] (key_columns self)) in
    let finish (id : option string) : Mapping :=
      mk (Some keys) (key_columns_cast_types self) source target (group self)
         (sample_size self) (data_transformation_rules self)
         (number_of_set_sample_records_for_detailed_report self)
         (max_item_length_for_html_report self)
         (max_word_length_for_html_report self)
         (rule_based_data_validation self) id
         (Some (default [] (exclude_columns self)))
         (Some (default [] (custom_mappings self))) in
    if PyStr.truthy (unique_data_mapping_id self)
    then Return (finish (unique_data_mapping_id self))
    else
      match data_transformation_rules self with
      | None => Raise (TypeError "can only join an iterable")
      | Some rules => Return (finish (Some (generated_id set_iter source target keys rules)))
      end.
Proof.
intros Htab. unfold __post_init__.
destruct (PyStr.truthy (source_table self)), (PyStr.truthy (target_table self));
  simpl in *; try discriminate; reflexivity.
Qed.

(** C9: with no identifier and [data_transformation_rules] left as [None] the
    constructor raises instead of returning a mapping: the join of the rules
    raises [TypeError] once a table name is given (without any table name the
    earlier [ValueError] is raised); an explicit identifier or an empty rules
    list makes the constructor return a mapping. *)
Theorem post_init_rules_none_raises (set_iter : list string -> list string)
    (self : Mapping) :
  (PyStr.truthy (unique_data_mapping_id self) = false ->
   data_transformation_rules self = None ->
   (exists e, __post_init__ set_iter self = Raise e)
   /\ (PyStr.truthy (source_table self) || PyStr.truthy (target_table self) = true ->
       __post_init__ set_iter self = Raise (TypeError "can only join an iterable")))
  /\ (PyStr.truthy (source_table self) || PyStr.truthy (target_table self) = true ->
      PyStr.truthy (unique_data_mapping_id self) = true
      \/ data_transformation_rules self = Some [] ->
      exists m, __post_init__ set_iter self = Return m).
Proof.
split.
- intros Hid Hrules.
  assert (Hjoin : PyStr.truthy (source_table self) || PyStr.truthy (target_table self) = true ->
                  __post_init__ set_iter self = Raise (TypeError "can only join an iterable")).
  { intros Htab. rewrite post_init_with_tables by exact Htab.
    cbv zeta. rewrite Hid, Hrules. reflexivity. }
  split; [|exact Hjoin].
  destruct (PyStr.truthy (source_table self) || PyStr.truthy (target_table self)) eqn:Htab.
  + eexists. apply Hjoin. reflexivity.
  + apply orb_false_iff in Htab as [Hs Ht].
    unfold __post_init__. rewrite Hs, Ht. simpl. eexists. reflexivity.
- intros Htab Hor. rewrite post_init_with_tables by exact Htab. cbv zeta.
  destruct (PyStr.truthy (unique_data_mapping_id self)) eqn:Hid.
  + eexists. reflexivity.
  + destruct Hor as [Hor|Hor]; [discriminate|]. rewrite Hor. eexists. reflexivity.
Qed.

Lemma post_init_rules_none_raises_witness :
  __post_init__ remove_dups
    (simple (Some "NGS_TEST_RESULT") None ["ACCESSION_NUMBER"; "IS_QNS -> boolean"]
            None None)
  = Raise (TypeError "can only join an iterable")
  /\ (exists m,
        __post_init__ remove_dups
          (simple (Some "NGS_TEST_RESULT") None
                  ["ACCESSION_NUMBER"; "IS_QNS -> boolean"] (Some []) None)
        = Return m).
Proof.
split.
- apply (proj1 (post_init_rules_none_raises remove_dups
                  (simple (Some "NGS_TEST_RESULT") None
                          ["ACCESSION_NUMBER"; "IS_QNS -> boolean"] None None)));
    reflexivity.
- apply (proj2 (post_init_rules_none_raises remove_dups
                  (simple (Some "NGS_TEST_RESULT") None
                          ["ACCESSION_NUMBER"; "IS_QNS -> boolean"] (Some []) None)));
    [reflexivity|right; reflexivity].
Defined.

(** C8, as stated, fails: the key columns enter the identifier through a
    [set], neither sorted nor with their repetitions.  Whatever the iteration
    order, the key columns [a, a] give the identifier "s|t|a|" where the
    sorted list gives "s|t|a,a|"; and an order exists under which [b, a]
    gives "s|t|b,a|" where the sorted list gives "s|t|a,b|". *)
Lemma generated_id_is_not_sorted :
  (forall set_iter, admissible set_iter ->
     exists m,
       __post_init__ set_iter (simple (Some "s") (Some "t") ["a"; "a"] (Some []) None)
       = Return m
       /\ unique_data_mapping_id m = Some "s|t|a|"
       /\ unique_data_mapping_id m
          <> Some (spec_identifier (Some "s") (Some "t") ["a"; "a"] []))
  /\ (exists set_iter m,
        admissible set_iter
        /\ __post_init__ set_iter (simple (Some "s") (Some "t") ["b"; "a"] (Some []) None)
           = Return m
        /\ unique_data_mapping_id m = Some "s|t|b,a|"
        /\ unique_data_mapping_id m
           <> Some (spec_identifier (Some "s") (Some "t") ["b"; "a"] [])).
Proof.
split.
- intros set_iter Hadm. eexists. split; [reflexivity|].
  unfold generated_id. simpl.
  change (clean_key_columns ["a"; "a"]) with ["a"; "a"].
  rewrite (admissible_twice set_iter "a" Hadm).
  split; [reflexivity|]. vm_compute. discriminate.
- exists remove_dups. eexists. split; [apply remove_dups_admissible|].
  split; [reflexivity|]. split; [reflexivity|]. vm_compute. discriminate.
Qed.

(** C8, amended: without an identifier, with a rules list and a table name,
    the identifier is source, target, the distinct cleaned key columns in the
    iteration order of their [set] (each once, not sorted) and the rules,
    joined by "|" and ","; it depends on these four inputs only, so two
    mappings that agree on them get the same identifier under the same
    iteration order. *)
Theorem generated_id_spec (set_iter : list string -> list string)
    (self : Mapping) (rules : list string) :
  admissible set_iter ->
  PyStr.truthy (unique_data_mapping_id self) = false ->
  PyStr.truthy (source_table self) || PyStr.truthy (target_table self) = true ->
  data_transformation_rules self = Some rules ->
  exists m keys,
    __post_init__ set_iter self = Return m
    /\ key_columns m = Some (clean_key_columns (default [] (key_columns self)))
    /\ NoDup keys
    /\ (forall k, k ∈ keys <-> k ∈ clean_key_columns (default [] (key_columns self)))
    /\ unique_data_mapping_id m
       = Some (str_of (source_table m) +:+ "|" +:+ str_of (target_table m) +:+ "|"
                 +:+ PyStr.join "," keys +:+ "|" +:+ PyStr.join "," rules)
    /\ (forall other,
          source_table other = source_table self ->
          target_table other = target_table self ->
          key_columns other = key_columns self ->
          data_transformation_rules other = data_transformation_rules self ->
          PyStr.truthy (unique_data_mapping_id other) = false ->
          exists m', __post_init__ set_iter other = Return m'
                     /\ unique_data_mapping_id m' = unique_data_mapping_id m).
Proof.
intros Hadm Hid Htab Hrules.
rewrite post_init_with_tables by exact Htab. cbv zeta. rewrite Hid, Hrules.
eexists. exists (set_iter (clean_key_columns (default [] (key_columns self)))).
split; [reflexivity|]. simpl.
destruct (Hadm (clean_key_columns (default [] (key_columns self)))) as [Hnd Hin].
repeat split; auto; try apply Hin.
intros other Hs Ht Hk Hr Hido.
rewrite post_init_with_tables by (rewrite Hs, Ht; exact Htab). cbv zeta.
rewrite Hido, Hr, Hs, Ht, Hk. eexists. split; reflexivity.
Qed.

Lemma generated_id_spec_witness :
  exists m keys,
    __post_init__ remove_dups
      (simple (Some "ORDERS") None [" ID "; "DAY"; "ID"; ""] (Some ["normalize_null_nan"]) None)
    = Return m
    /\ key_columns m = Some ["ID"; "DAY"; "ID"]
    /\ NoDup keys
    /\ (forall k, k ∈ keys <-> k ∈ ["ID"; "DAY"; "ID"])
    /\ unique_data_mapping_id m
       = Some (str_of (source_table m) +:+ "|" +:+ str_of (target_table m) +:+ "|"
                 +:+ PyStr.join "," keys +:+ "|" +:+ PyStr.join "," ["normalize_null_nan"])
    /\ (forall other,
          source_table other = Some "ORDERS" ->
          target_table other = None ->
          key_columns other = Some [" ID "; "DAY"; "ID"; ""] ->
          data_transformation_rules other = Some ["normalize_null_nan"] ->
          PyStr.truthy (unique_data_mapping_id other) = false ->
          exists m', __post_init__ remove_dups other = Return m'
                     /\ unique_data_mapping_id m' = unique_data_mapping_id m).
Proof.
exact (generated_id_spec remove_dups
         (simple (Some "ORDERS") None [" ID "; "DAY"; "ID"; ""]
                 (Some ["normalize_null_nan"]) None)
         ["normalize_null_nan"] remove_dups_admissible eq_refl eq_refl eq_refl).
Defined.

End MappingIdentifier.

(** ** The row-count bands *)

Section RowCountBands.

Import Validator.
#[local] Abbreviation status := DataMatchValidationResult.status.
#[local] Abbreviation row_issues := DataMatchValidationResult.row_count_validation_issues.

Context {F : Type} `{PyFloat F}.

Variable settings : Settings F.

#[local] Abbreviation success_threshold :=
  (warning_row_count_difference_threshold settings).
#[local] Abbreviation failure_threshold :=
  (failure_row_count_difference_threshold settings).

Lemma row_count_band_cases (source_count target_count : Z) :
  let percent_diff := percent_diff source_count target_count in
  (fleb (fabs percent_diff) success_threshold = true ->
   row_count_band settings source_count target_count
   = (PASS, "row_count_mismatch<=" +:+ fformat 1 success_threshold +:+ "%"))
  /\ (fleb (fabs percent_diff) success_threshold = false ->
      fltb failure_threshold (fabs percent_diff) = true ->
      target_count <= source_count ->
      row_count_band settings source_count target_count
      = (FAIL, "row_count_mismatch>" +:+ fformat 1 failure_threshold +:+ "%"))
  /\ (fleb (fabs percent_diff) success_threshold = false ->
      fltb failure_threshold (fabs percent_diff) = true ->
      source_count < target_count ->
      row_count_band settings source_count target_count
      = (WARNING, "target_has_more_" +:+ fformat 1 percent_diff +:+ "%_data"))
  /\ (fleb (fabs percent_diff) success_threshold = false ->
      fltb failure_threshold (fabs percent_diff) = false ->
      row_count_band settings source_count target_count
      = (WARNING, "row_count_mismatch")).
Proof.
cbv zeta. unfold row_count_band.
repeat split.
- intros ->. reflexivity.
- intros -> -> Hle. destruct (Z.ltb_spec source_count target_count); [lia|reflexivity].
- intros -> -> Hlt. destruct (Z.ltb_spec source_count target_count); [reflexivity|lia].
- intros -> ->. reflexivity.
Qed.

(** The block stores the band's severity as the table status and appends
    one issue of the band's kind, when both counts are known and differ. *)
Lemma check_row_counts_differ (s t : Z) (result : TableResult) :
  s <> t ->
  status (check_row_counts settings (Some s) (Some t) result)
  = fst (row_count_band settings s t)
  /\ row_issues (check_row_counts settings (Some s) (Some t) result)
     = row_issues result ++ [row_count_issue settings s t]
  /\ ValidationIssue.severity (row_count_issue settings s t)
     = fst (row_count_band settings s t)
  /\ ValidationIssue.issue_type (row_count_issue settings s t)
     = snd (row_count_band settings s t).
Proof.
intros Hne. unfold check_row_counts.
destruct (Z.eqb_spec s t) as [|_]; [contradiction|]. simpl.
unfold row_count_issue. destruct (row_count_band settings s t); auto.
Qed.

(** Equal or unknown counts leave the result as it is. *)
Lemma check_row_counts_skip (source_count target_count : option Z)
    (result : TableResult) :
  source_count = None \/ target_count = None \/ source_count = target_count ->
  check_row_counts settings source_count target_count result = result.
Proof.
unfold check_row_counts.
destruct source_count as [s|], target_count as [t|];
  intros [E | [E | E] ]; try discriminate; try reflexivity.
injection E as ->. rewrite Z.eqb_refl. reflexivity.
Qed.

(** C6: once the failure band applies (the difference is outside the success
    band and exceeds the failure threshold, for two known, different counts)
    the stored severity is WARNING exactly when the target count exceeds the
    source count, and stays FAIL when the target count is at most the source
    count. *)
Theorem failure_band_downgrade (s t : Z) (result : TableResult) :
  s <> t ->
  fleb (fabs (percent_diff s t)) success_threshold = false ->
  fltb failure_threshold (fabs (percent_diff s t)) = true ->
  (status (check_row_counts settings (Some s) (Some t) result) = WARNING <-> s < t)
  /\ (t <= s -> status (check_row_counts settings (Some s) (Some t) result) = FAIL).
Proof.
intros Hne Hsucc Hfail.
destruct (check_row_counts_differ s t result Hne) as [-> _].
destruct (row_count_band_cases s t) as (_ & Hdown & Hup & _).
destruct (Z.lt_ge_cases s t) as [Hlt|Hge].
- rewrite (Hup Hsucc Hfail Hlt). simpl. split; [tauto|lia].
- rewrite (Hdown Hsucc Hfail Hge). simpl. split; [|reflexivity].
  split; [discriminate|lia].
Qed.

End RowCountBands.

(** *** The bands in binary64 arithmetic *)

Section Binary64Bands.

Import Validator.
#[local] Abbreviation status := DataMatchValidationResult.status.

Lemma compare_cont_Eq (m1 m2 : positive) :
  PosDef.Pos.compare_cont Eq m1 m2 = Pos.compare m1 m2.
Proof. reflexivity. Qed.

Ltac compare_cases :=
  repeat (simpl; rewrite ?compare_cont_Eq;
          match goal with
          | |- context [ (?x ?= ?y)%Z ] => destruct (Z.compare_spec x y)
          | |- context [ (?x ?= ?y)%positive ] => destruct (Pos.compare_spec x y)
          end);
  simpl; try discriminate; try reflexivity; try lia.

(** The float comparisons are transitive: what lies above [b] does not lie
    at or below an [a <= b]. *)
Lemma SFleb_SFltb_trans (a b c : spec_float) :
  SFleb a b = true -> SFltb b c = true -> SFleb c a = false.
Proof.
unfold SFleb, SFltb.
destruct a as [sa|sa| |sa ma ea], b as [sb|sb| |sb mb eb], c as [sc|sc| |sc mc ec];
  simpl; try discriminate; try reflexivity;
  repeat match goal with s : bool |- _ => destruct s end;
  compare_cases.
Qed.

(** With a success threshold at or below the failure threshold, a
    difference above the failure threshold is outside the success band, so
    the downgrade rule needs no side condition. *)
Lemma failure_band_downgrade_ordered (settings : Settings spec_float) (s t : Z)
    (result : TableResult) :
  s <> t ->
  SFleb (warning_row_count_difference_threshold settings)
        (failure_row_count_difference_threshold settings) = true ->
  SFltb (failure_row_count_difference_threshold settings)
        (SFabs (percent_diff s t)) = true ->
  status (check_row_counts settings (Some s) (Some t) result)
  = if s <? t then WARNING else FAIL.
Proof.
intros Hne Hord Hfail.
pose proof (SFleb_SFltb_trans _ _ _ Hord Hfail) as Hsucc.
destruct (check_row_counts_differ settings s t result Hne) as [-> _].
destruct (row_count_band_cases settings s t) as (_ & Hdown & Hup & _).
destruct (Z.ltb_spec s t) as [Hlt|Hge].
- rewrite (Hup Hsucc Hfail Hlt). reflexivity.
- rewrite (Hdown Hsucc Hfail Hge). reflexivity.
Qed.

Lemma failure_band_downgrade_witness :
  ((status (check_row_counts Scenario.thresholds_5_1 (Some 1000) (Some 900)
                             Scenario.fresh) = WARNING <-> 1000 < 900)
   /\ (900 <= 1000 ->
       status (check_row_counts Scenario.thresholds_5_1 (Some 1000) (Some 900)
                                Scenario.fresh) = FAIL))
  /\ ((status (check_row_counts Scenario.thresholds_5_1 (Some 1000) (Some 1100)
                                Scenario.fresh) = WARNING <-> 1000 < 1100)
      /\ (1100 <= 1000 ->
          status (check_row_counts Scenario.thresholds_5_1 (Some 1000) (Some 1100)
                                   Scenario.fresh) = FAIL)).
Proof.
split.
- apply (failure_band_downgrade Scenario.thresholds_5_1 1000 900 Scenario.fresh);
    [lia | vm_compute; reflexivity | vm_compute; reflexivity].
- apply (failure_band_downgrade Scenario.thresholds_5_1 1000 1100 Scenario.fresh);
    [lia | vm_compute; reflexivity | vm_compute; reflexivity].
Defined.

(** C1, as stated, fails on its scenario: 1000 against 950 rows is a
    difference of exactly -5.0%, which is not above the 5.0% failure
    threshold, so the band is WARNING with kind "row_count_mismatch", not
    FAIL with "row_count_mismatch>5.0%", and the data task records that
    issue.  The general rule fails too: 1000 against 1100 rows is above the
    failure threshold and yields WARNING. *)
Lemma scenario_1000_950_is_not_fail :
  percent_diff (F:=spec_float) 1000 950 = SFopp (Binary64.of_int 5)
  /\ SFltb (failure_row_count_difference_threshold Scenario.thresholds_5_1)
           (SFabs (percent_diff (F:=spec_float) 1000 950)) = false
  /\ row_count_band Scenario.thresholds_5_1 1000 950 = (WARNING, "row_count_mismatch")
  /\ row_count_band Scenario.thresholds_5_1 1000 950 <> (FAIL, "row_count_mismatch>5.0%")
  /\ status (check_row_counts Scenario.thresholds_5_1 (Some 1000) (Some 950)
                              Scenario.fresh) = WARNING
  /\ _validate_single_table_data Scenario.thresholds_5_1 Scenario.keep
      RuleBased.default_only Scenario.no_distribution_specs
      Scenario.orders None Scenario.probe_1000_950
     = Return Scenario.result_1000_950
  /\ DataMatchValidationResult.row_count_validation_issues Scenario.result_1000_950
     = [ValidationIssue.mk
          "row_count_mismatch"
          "Row count mismatch: source=1000, target=950 (-5.00% difference)"
          WARNING (Some 1000) (Some 950)]
  /\ SFltb (failure_row_count_difference_threshold Scenario.thresholds_5_1)
           (SFabs (percent_diff (F:=spec_float) 1000 1100)) = true
  /\ row_count_band Scenario.thresholds_5_1 1000 1100
     = (WARNING, "target_has_more_10.0%_data").
Proof.
repeat split; try (vm_compute; reflexivity).
vm_compute. discriminate.
Qed.

(** C1, amended: with 1000 source rows, 950 target rows and thresholds 5% and
    1% the difference is -5.0%, the severity is WARNING and the issue kind is
    "row_count_mismatch".  In general, for two known and different counts the
    table status and the appended issue take the severity of the band: PASS
    when |%diff| <= success threshold; otherwise, when |%diff| > failure
    threshold, FAIL with kind "row_count_mismatch>F%" if the target count is
    below the source count and WARNING if it is above; otherwise WARNING
    with kind "row_count_mismatch". *)
Theorem row_count_bands :
  row_count_band Scenario.thresholds_5_1 1000 950 = (WARNING, "row_count_mismatch")
  /\ forall (F : Type) (ops : PyFloat F) (settings : Settings F) (s t : Z)
            (result : TableResult),
       s <> t ->
       let percent_diff := percent_diff (F:=F) s t in
       let success := warning_row_count_difference_threshold settings in
       let failure := failure_row_count_difference_threshold settings in
       let after := check_row_counts settings (Some s) (Some t) result in
       (exists issue,
          DataMatchValidationResult.row_count_validation_issues after
          = DataMatchValidationResult.row_count_validation_issues result ++ [issue]
          /\ ValidationIssue.severity issue = status after
          /\ (status after, ValidationIssue.issue_type issue)
             = row_count_band settings s t)
       /\ (fleb (fabs percent_diff) success = true ->
           row_count_band settings s t
           = (PASS, "row_count_mismatch<=" +:+ fformat 1 success +:+ "%"))
       /\ (fleb (fabs percent_diff) success = false ->
           fltb failure (fabs percent_diff) = true ->
           t < s ->
           row_count_band settings s t
           = (FAIL, "row_count_mismatch>" +:+ fformat 1 failure +:+ "%"))
       /\ (fleb (fabs percent_diff) success = false ->
           fltb failure (fabs percent_diff) = true ->
           s < t ->
           row_count_band settings s t
           = (WARNING, "target_has_more_" +:+ fformat 1 percent_diff +:+ "%_data"))
       /\ (fleb (fabs percent_diff) success = false ->
           fltb failure (fabs percent_diff) = false ->
           row_count_band settings s t = (WARNING, "row_count_mismatch")).
Proof.
split; [vm_compute; reflexivity|].
intros F ops settings s t result Hne. cbv zeta.
destruct (check_row_counts_differ settings s t result Hne) as (Hst & Hiss & Hsev & Hkind).
destruct (row_count_band_cases settings s t) as (Hpass & Hdown & Hup & Hmid).
split.
{ exists (row_count_issue settings s t). rewrite Hiss, Hsev, Hst, Hkind.
  destruct (row_count_band settings s t); auto. }
split; [exact Hpass|].
split; [intros Hsucc Hfail Hlt; apply Hdown; auto; lia|].
split; [exact Hup|exact Hmid].
Qed.

Lemma row_count_bands_witness :
  row_count_band Scenario.thresholds_5_1 1000 949 = (FAIL, "row_count_mismatch>5.0%")
  /\ row_count_band Scenario.thresholds_5_1 1000 995 = (PASS, "row_count_mismatch<=1.0%").
Proof.
split.
- pose proof (proj2 row_count_bands spec_float binary64 Scenario.thresholds_5_1
                    1000 949 Scenario.fresh) as X.
  cbv zeta in X. destruct X as (_ & _ & Hfail & _); [lia|].
  rewrite Hfail; [reflexivity | vm_compute; reflexivity | vm_compute; reflexivity | lia].
- pose proof (proj2 row_count_bands spec_float binary64 Scenario.thresholds_5_1
                    1000 995 Scenario.fresh) as X.
  cbv zeta in X. destruct X as (_ & Hpass & _); [lia|].
  rewrite Hpass; [reflexivity | vm_compute; reflexivity].
Defined.

End Binary64Bands.

(** ** Rounding to binary64 *)

(** What [binary_round_aux] does to a mantissa of at least 53 bits in the
    normal range: the mantissa is cut to 53 bits, rounded up by at most one
    and only when the first dropped bit is set, and renormalised when the
    rounding carries to 2^53. *)

Section Binary64Rounding.













Lemma div_eucl_div_mod (x y : Z) : Z.div_eucl x y = (x / y, x mod y).
Proof. unfold Z.div, Z.modulo. destruct (Z.div_eucl x y); reflexivity. Qed.



Lemma div_eucl_shifted (p : positive) :
  Z.div_eucl (Z.shiftl (Z.pos p) 53) (Z.pos p) = (2 ^ 53, 0).
Proof.
rewrite Z.shiftl_mul_pow2 by lia.
rewrite div_eucl_div_mod, (Z.mul_comm (Z.pos p)), Z.div_mul, Z.mod_mul by lia.
reflexivity.
Qed.

(** An int divided by itself is the float 1.0, whatever its size. *)
Lemma truediv_same (m : Z) : 0 < m -> Binary64.truediv m m = Binary64.of_int 1.
Proof.
intros Hm. destruct m as [|p|p]; try lia.
unfold Binary64.truediv, SFdiv. simpl Z.abs. simpl Z.to_pos.
unfold SFdiv_core_binary.
replace (Zdigits2 (Z.pos p) + 0 - (Zdigits2 (Z.pos p) + 0)) with 0 by lia.
change (Z.min (fexp Binary64.prec Binary64.emax 0) (0 - 0)) with (-53).
change (0 - 0 - -53) with 53.
cbv iota. rewrite div_eucl_shifted. cbv beta iota.
assert (Hloc : new_location (Z.pos p) 0 = loc_Exact).
{ unfold new_location, new_location_even, new_location_odd.
  destruct (Z.even (Z.pos p)); reflexivity. }
rewrite Hloc. vm_compute. reflexivity.
Qed.



End Binary64Rounding.

(** ** The key-set comparison metrics *)

Section KeySetMetrics.

Import Validator.
#[local] Abbreviation rate_of := CompareSampleDataResult.success_rate_of_2_sets.
#[local] Abbreviation matching_of := CompareSampleDataResult.matching_set_record_count.
#[local] Abbreviation source_set_of := CompareSampleDataResult.source_sample_set_count.
#[local] Abbreviation target_set_of := CompareSampleDataResult.target_sample_set_count.
#[local] Abbreviation issues_of :=
  CompareSampleDataResult.data_match_validation_issues.

Context {K : Type} `{Countable K}.





(** Two equal non-empty key sets have the rate 100.0 exactly, also after
    rounding, whatever their size. *)
Lemma binary64_rate_of_equal_sets (mapping : Mapping) (sample_size : option Z)
    (source_sample target_sample : option (Sample K)) (S : gset K) :
  S <> ∅ ->
  rate_of (F:=spec_float)
    (compared mapping sample_size source_sample target_sample S S)
  = Binary64.of_int 100.
Proof.
intros Hne. unfold rate_of. simpl.
rewrite (idemp_L (∩) S), Z.max_id.
assert (Hpos : 0 < Z.of_nat (size S)).
{ assert (size S <> 0%nat); [|lia].
  rewrite size_empty_iff. intros HE. apply Hne. apply leibniz_equiv. exact HE. }
destruct (Z.eqb_spec (Z.of_nat (size S)) 0) as [Hz|_]; [lia|].
rewrite (truediv_same _ Hpos). vm_compute. reflexivity.
Qed.



Section Compared.

Context {F : Type}.

Variable settings : Settings F.
Variable transform : list string -> K -> K.
Variable re_compile : string -> option (string -> bool).
Variable distribution :
  Mapping -> option (Sample K) -> option (Sample K) -> outcome unit.



End Compared.

End KeySetMetrics.


(** The same rate in binary64 arithmetic on the samples {1,2,3} and {2,3,4},
    and on two equal samples. *)
Example set_success_rate_binary64 :
  fformat 2 (CompareSampleDataResult.success_rate_of_2_sets (F:=spec_float)
               Scenario.compared_3_of_4)
  = "66.67"
  /\ CompareSampleDataResult.success_rate_of_2_sets (F:=spec_float)
       (Validator.compared Scenario.orders None
          (Some (Scenario.sample_of [1; 2; 3])) (Some (Scenario.sample_of [3; 2; 1]))
          (list_to_set [1; 2; 3]) (list_to_set [3; 2; 1 : Z]))
     = Binary64.of_int 100.
Proof. split; vm_compute; reflexivity. Qed.

(** ** The interpolated table success rate *)

Section InterpolatedRate.

Import Validator.
#[local] Abbreviation compare_of := DataMatchValidationResult.compare_sample_data_result.
#[local] Abbreviation interpolated_of :=
  CompareSampleDataResult.interpolated_success_rate_of_tables_from_success_rate_of_2_sets.
#[local] Abbreviation rate_of := CompareSampleDataResult.success_rate_of_2_sets.

Context {F : Type} `{PyFloat F}.
Context {K : Type} `{Countable K}.

Variable settings : Settings F.
Variable transform : list string -> K -> K.
Variable re_compile : string -> option (string -> bool).
Variable distribution :
  Mapping -> option (Sample K) -> option (Sample K) -> outcome unit.

Lemma check_row_counts_compare (source_count target_count : option Z)
    (result : TableResult) :
  compare_of (check_row_counts settings source_count target_count result)
  = compare_of result.
Proof.
unfold check_row_counts.
destruct source_count, target_count; try reflexivity.
destruct (negb _); reflexivity.
Qed.

Lemma merge_issues_compare (issues : list Issue) (result : TableResult) :
  compare_of (fold_left merge_issue issues result) = compare_of result.
Proof.
revert result. induction issues as [|issue issues IH]; intros result; simpl.
- reflexivity.
- rewrite IH. unfold merge_issue. case_bool_decide; reflexivity.
Qed.

Lemma apply_success_rate_compare (source_count target_count : option Z)
    (success_rate : F) (result : TableResult) :
  compare_of (apply_success_rate settings source_count target_count success_rate result)
  = compare_of result.
Proof. unfold apply_success_rate. destruct (fltb _ (float_of_int 100)); reflexivity. Qed.

(** The comparison stored in a table result is the one the sample
    comparison returned. *)
Lemma task_compare_result (mapping : Mapping) (sample_size : option Z)
    (io : Probe K) (r : TableResult) (c : CompareSampleDataResult.t) :
  _validate_single_table_data settings transform re_compile distribution mapping
    sample_size io = Return r ->
  compare_of r = Some c ->
  _compare_sample_data settings transform re_compile distribution mapping
    sample_size (source_sample_query io) (target_sample_query io) = Return c.
Proof.
unfold _validate_single_table_data. intros Hrun Hc.
destruct (unknown_or_empty _ && unknown_or_empty _).
{ injection Hrun as <-. discriminate Hc. }
destruct (bool_decide _ && bool_decide _).
{ injection Hrun as <-. simpl in Hc. rewrite check_row_counts_compare in Hc.
  discriminate Hc. }
destruct (TableMapping.key_columns mapping) as [[|k ks]|].
1, 3: injection Hrun as <-; simpl in Hc; rewrite check_row_counts_compare in Hc;
      discriminate Hc.
destruct (_compare_sample_data _ _ _ _ _ _ _ _) as [c'|e]; [|discriminate Hrun].
destruct (CompareSampleDataResult.interpolated_matching_records_of_tables_from_success_rate c');
  [|discriminate Hrun].
injection Hrun as <-.
rewrite apply_success_rate_compare in Hc. simpl in Hc.
rewrite merge_issues_compare in Hc. simpl in Hc. congruence.
Qed.

(** The record of the comparison counts the rows of the two samples. *)
Lemma compare_sample_data_counts (mapping : Mapping) (sample_size : option Z)
    (source_sample target_sample : option (Sample K))
    (c : CompareSampleDataResult.t) :
  _compare_sample_data settings transform re_compile distribution mapping
    sample_size (Return source_sample) (Return target_sample) = Return c ->
  CompareSampleDataResult.source_sample_count c = sample_count source_sample
  /\ CompareSampleDataResult.target_sample_count c = sample_count target_sample.
Proof.
unfold _compare_sample_data. intros Hrun.
assert (Hexcept : forall (S T : gset K) (e : exn),
          compare_except mapping
            match TableMapping.sample_size mapping with
            | Some n => Some n
            | None => sample_size
            end source_sample target_sample S T e = Return c ->
          CompareSampleDataResult.source_sample_count c = sample_count source_sample
          /\ CompareSampleDataResult.target_sample_count c
             = sample_count target_sample).
{ intros S T e. unfold compare_except.
  destruct (is_Exception e); [|discriminate].
  destruct source_sample as [source|]; [|discriminate].
  destruct target_sample as [target|]; [|discriminate].
  intros E. injection E as <-. split; reflexivity. }
destruct (rule_based_data_validation_block _ _ _ _ _) as [rule_based|e];
  [|exact (Hexcept _ _ _ Hrun)].
destruct (distribution mapping source_sample target_sample) as [distribution_based|e];
  [|exact (Hexcept _ _ _ Hrun)].
destruct (key_sets transform mapping source_sample target_sample) as [S T].
destruct (islice_accepts _); [|exact (Hexcept _ _ _ Hrun)].
injection Hrun as <-. split; reflexivity.
Qed.

(** C3, amended: the interpolated table success rate is the set success
    rate times min / max of the numbers of sampled rows of the two sides (0
    when the larger is 0), whatever the full-table row counts are.  The
    number of sampled rows of a side is the length of the sample its query
    returned, and 0 when the side has no sample. *)
Theorem interpolated_rate_uses_sample_rows (mapping : Mapping)
    (sample_size : option Z) (io : Probe K)
    (source_sample target_sample : option (Sample K))
    (r : TableResult) (c : CompareSampleDataResult.t) :
  source_sample_query io = Return source_sample ->
  target_sample_query io = Return target_sample ->
  _validate_single_table_data settings transform re_compile distribution mapping
    sample_size io = Return r ->
  compare_of r = Some c ->
  CompareSampleDataResult.source_sample_count c = sample_count source_sample
  /\ CompareSampleDataResult.target_sample_count c = sample_count target_sample
  /\ interpolated_of c
     = spec_table_success_rate (rate_of c)
         (sample_count source_sample) (sample_count target_sample).
Proof.
intros Hsrc Htgt Hrun Hc.
pose proof (task_compare_result mapping sample_size io r c Hrun Hc) as Hcmp.
rewrite Hsrc, Htgt in Hcmp.
destruct (compare_sample_data_counts _ _ _ _ _ Hcmp) as [<- <-].
repeat split.
Qed.

#[local] Abbreviation row_issues_of :=
  DataMatchValidationResult.row_count_validation_issues.

Lemma merge_issues_row_issues (issues : list Issue) (result : TableResult) :
  row_issues_of (fold_left merge_issue issues result) = row_issues_of result.
Proof.
revert result. induction issues as [|issue issues IH]; intros result; simpl.
- reflexivity.
- rewrite IH. unfold merge_issue. case_bool_decide; reflexivity.
Qed.

Lemma apply_success_rate_row_issues (source_count target_count : option Z)
    (success_rate : F) (result : TableResult) :
  row_issues_of (apply_success_rate settings source_count target_count
                                    success_rate result)
  = row_issues_of result.
Proof. unfold apply_success_rate. destruct (fltb _ (float_of_int 100)); reflexivity. Qed.

(** In the data task: when both tables exist, both counts are known and
    differ, and one of them is positive, a returned result carries exactly
    the issue of the row-count band. *)
Lemma task_row_count_issue (mapping : Mapping) (sample_size : option Z)
    (io : Probe K) (s t : Z) (r : TableResult) :
  enable_row_count_validation settings <> Some false ->
  is_Some (source_lookup io) -> is_Some (target_lookup io) ->
  source_count_query io = Some s -> target_count_query io = Some t ->
  s <> t -> 0 < s \/ 0 < t ->
  _validate_single_table_data settings transform re_compile distribution mapping
    sample_size io = Return r ->
  row_issues_of r = [row_count_issue settings s t].
Proof.
intros Hen Hsrc Htgt Hs Ht Hne Hpos Hrun.
unfold _validate_single_table_data in Hrun.
rewrite (bool_decide_eq_true_2 _ Hsrc), (bool_decide_eq_true_2 _ Htgt) in Hrun.
assert (Henabled : default true (enable_row_count_validation settings) = true).
{ destruct (enable_row_count_validation settings) as [[|]|]; try reflexivity.
  contradiction. }
rewrite Henabled, Hs, Ht in Hrun. simpl in Hrun.
assert (Hearly : (s <=? 0) && (t <=? 0) = false).
{ apply andb_false_iff. destruct Hpos; [left|right]; apply Z.leb_gt; lia. }
rewrite Hearly in Hrun.
assert (Hzero : bool_decide (Some s = Some 0) && bool_decide (Some t = Some 0) = false).
{ apply andb_false_iff.
  destruct Hpos; [left|right]; apply bool_decide_eq_false_2; intros E;
    injection E as E; lia. }
rewrite Hzero in Hrun.
destruct (check_row_counts_differ settings s t
            (DataMatchValidationResult.with_probe true true
               (kind_name <$> source_lookup io) (kind_name <$> target_lookup io)
               (_to_positive_integer (Some s)) (_to_positive_integer (Some t))
               sample_size (TableMapping.data_transformation_rules mapping) [] []
               (DataMatchValidationResult.init mapping PASS)) Hne)
  as (_ & Hissues & _).
simpl in Hissues.
destruct (TableMapping.key_columns mapping) as [[|k ks]|].
1, 3: injection Hrun as <-; exact Hissues.
destruct (_compare_sample_data _ _ _ _ _ _ _ _) as [c|e]; [|discriminate Hrun].
destruct (CompareSampleDataResult.interpolated_matching_records_of_tables_from_success_rate c);
  [|discriminate Hrun].
injection Hrun as <-.
rewrite apply_success_rate_row_issues. simpl.
rewrite merge_issues_row_issues. exact Hissues.
Qed.

End InterpolatedRate.

(** C3, as stated, fails: with 1000 source rows, 500 target rows and three
    identical sampled keys on each side the set success rate is 100 and the
    interpolated rate is 100, where the rate scaled by the full-table row
    counts would be 50. *)
Lemma interpolated_rate_ignores_table_counts :
  Validator._validate_single_table_data Scenario.thresholds_5_1 Scenario.keep
      RuleBased.default_only Scenario.no_distribution_specs
      Scenario.orders_sampled None Scenario.probe_1000_500
  = Return Scenario.result_1000_500
  /\ DataMatchValidationResult.source_count Scenario.result_1000_500 = 1000
  /\ DataMatchValidationResult.target_count Scenario.result_1000_500 = 500
  /\ DataMatchValidationResult.compare_sample_data_result Scenario.result_1000_500
     = Some Scenario.compared_1000_500
  /\ CompareSampleDataResult.success_rate_of_2_sets (F:=spec_float)
          Scenario.compared_1000_500
     = Binary64.of_int 100
  /\ CompareSampleDataResult.interpolated_success_rate_of_tables_from_success_rate_of_2_sets
       (F:=spec_float) Scenario.compared_1000_500
     = Binary64.of_int 100
  /\ spec_table_success_rate
       (CompareSampleDataResult.success_rate_of_2_sets (F:=spec_float)
          Scenario.compared_1000_500)
       1000 500
     = Binary64.of_int 50
  /\ CompareSampleDataResult.interpolated_success_rate_of_tables_from_success_rate_of_2_sets
       (F:=spec_float) Scenario.compared_1000_500
     <> spec_table_success_rate
          (CompareSampleDataResult.success_rate_of_2_sets (F:=spec_float)
          Scenario.compared_1000_500)
          (DataMatchValidationResult.source_count Scenario.result_1000_500)
          (DataMatchValidationResult.target_count Scenario.result_1000_500).
Proof.
repeat split; try (vm_compute; reflexivity).
vm_compute. discriminate.
Qed.

Lemma interpolated_rate_uses_sample_rows_witness :
  CompareSampleDataResult.source_sample_count Scenario.compared_1000_500
  = sample_count (Some (Scenario.sample_of [1; 2; 3]))
  /\ CompareSampleDataResult.target_sample_count Scenario.compared_1000_500
     = sample_count (Some (Scenario.sample_of [1; 2; 3]))
  /\ CompareSampleDataResult.interpolated_success_rate_of_tables_from_success_rate_of_2_sets
       (F:=spec_float) Scenario.compared_1000_500
     = spec_table_success_rate
         (CompareSampleDataResult.success_rate_of_2_sets (F:=spec_float)
          Scenario.compared_1000_500)
         (sample_count (Some (Scenario.sample_of [1; 2; 3])))
         (sample_count (Some (Scenario.sample_of [1; 2; 3]))).
Proof.
apply (interpolated_rate_uses_sample_rows Scenario.thresholds_5_1 Scenario.keep
         RuleBased.default_only Scenario.no_distribution_specs
         Scenario.orders_sampled None Scenario.probe_1000_500
         (Some (Scenario.sample_of [1; 2; 3])) (Some (Scenario.sample_of [1; 2; 3]))
         Scenario.result_1000_500 Scenario.compared_1000_500 eq_refl eq_refl);
  [vm_compute; reflexivity|reflexivity].
Defined.

(** The comparison on the samples 1, 2, 3 and 2, 3, 4, 3, outside its
    normal path.  A rule whose pattern does not compile: the [except]
    clause returns its record, which counts the rows of both samples and no
    key.  A negative bound on the listed keys: the record of the [except]
    clause counts the key sets, which were built before [islice] raised.  A
    side without database configuration has no sample: nothing is compared
    and the record counts no row of that side and no key.  When, without a
    source sample, the query of the target raises, the [except] clause
    raises in its turn. *)
Example compare_sample_data_outside_normal_path :
  let compare mapping :=
    Validator._compare_sample_data Scenario.thresholds_5_1 Scenario.keep
      RuleBased.default_only Scenario.no_distribution_specs mapping None in
  let source := Return (Some (Scenario.sample_of [1; 2; 3])) in
  let target := Return (Some (Scenario.sample_of [2; 3; 4; 3])) in
  let counts c :=
    (CompareSampleDataResult.source_sample_count c,
     CompareSampleDataResult.target_sample_count c,
     CompareSampleDataResult.source_sample_set_count c,
     CompareSampleDataResult.target_sample_set_count c,
     CompareSampleDataResult.matching_set_record_count c,
     List.map ValidationIssue.issue_type
              (CompareSampleDataResult.data_match_validation_issues c)) in
  match compare Scenario.orders source target,
        compare Scenario.orders_with_bad_pattern source target,
        compare Scenario.orders_with_negative_bound source target,
        compare Scenario.orders (Return None) target with
  | Return c1, Return c2, Return c3, Return c4 =>
      counts c1 = (3, 4, 3, 3, 2, [])
      /\ counts c2 = (3, 4, 0, 0, 0, ["Error_comparing_sample_data"])
      /\ counts c3 = (3, 4, 3, 3, 2, ["Error_comparing_sample_data"])
      /\ counts c4 = (0, 4, 0, 0, 0, [])
  | _, _, _, _ => False
  end
  /\ compare Scenario.orders (Return None) (Raise (OtherException "connection reset"))
     = Raise (TypeError "object of type 'NoneType' has no len()")
  /\ compare Scenario.orders (Raise KeyboardInterrupt) target = Raise KeyboardInterrupt.
Proof. vm_compute. repeat split. Qed.

(** Two samples that read the same three rows 1, NULL, NULL of a numeric
    column, compared without a rule that rewrites the NaN: each key set has
    three members, only the key 1 matches, and the rate is 33.33. *)
Example compare_sample_data_of_null_keys :
  match
    Validator._compare_sample_data Scenario.thresholds_5_1 (fun _ key => key)
      RuleBased.default_only (fun _ _ _ => Return tt) Scenario.orders None
      (Return (Some (Scenario.sample_with_nulls 1)))
      (Return (Some (Scenario.sample_with_nulls 4)))
  with
  | Return c =>
      (CompareSampleDataResult.source_sample_set_count c,
       CompareSampleDataResult.target_sample_set_count c,
       CompareSampleDataResult.matching_set_record_count c) = (3, 3, 1)
      /\ fformat 2 (CompareSampleDataResult.success_rate_of_2_sets (F:=spec_float) c)
         = "33.33"
  | Raise _ => False
  end.
Proof. vm_compute. split; reflexivity. Qed.

(** ** The concurrent data phase *)

Section DataPhaseIsolation.

Import Validator.
#[local] Abbreviation status := DataMatchValidationResult.status.
#[local] Abbreviation issues_of := DataMatchValidationResult.data_match_validation_issues.

Variable run : nat -> Mapping -> outcome TableResult.
Variable as_completed : list (nat * Mapping) -> list (nat * Mapping).

Lemma collect_settles (futures : list (nat * Mapping)) (results : list TableResult) :
  Forall (fun future => forall e, run (fst future) (snd future) = Raise e ->
                                  is_Exception e = true) futures ->
  collect run futures results = Return (results ++ List.map (settled run) futures).
Proof.
revert results. induction futures as [|[i mapping] futures IH]; intros results Hall.
- simpl. rewrite app_nil_r. reflexivity.
- apply Forall_cons in Hall as [Hhead Htail]. simpl in Hhead. simpl.
  unfold settled at 1. simpl.
  destruct (run i mapping) as [result|e].
  + rewrite IH by exact Htail. rewrite <- app_assoc. reflexivity.
  + rewrite (Hhead e eq_refl). rewrite IH by exact Htail.
    rewrite <- app_assoc. reflexivity.
Qed.

Lemma failure_result_carries_error (mapping : Mapping) (e : exn) :
  status (failure_result mapping e) = FAIL
  /\ issues_of (failure_result mapping e)
     = [ValidationIssue.mk "data_validation_error"
                           ("Data validation failed: " +:+ exn_text e) FAIL None None]
  /\ DataMatchValidationResult.source_table (failure_result mapping e)
     = TableMapping.source_table mapping
  /\ DataMatchValidationResult.unique_data_mapping_id (failure_result mapping e)
     = TableMapping.unique_data_mapping_id mapping.
Proof. repeat split. Qed.


End DataPhaseIsolation.

(** An interrupt is not an [Exception]: the clause lets it through and the
    data phase raises it. *)
Example validate_data_lets_interrupt_through :
  Validator._validate_data (fun _ _ => Raise KeyboardInterrupt) (fun futures => futures)
                           Scenario.three_mappings
  = Raise KeyboardInterrupt.
Proof. reflexivity. Qed.

(** ** The rule-based column validator *)

Section RuleBasedChecks.

Import RuleBased.

(** A null-like value that the rule does not allow is not failed for being
    null: it falls through to the uniqueness and pattern tests, and a
    pattern that matches its text lets it pass. *)
Lemma disallowed_null_passes (value_must_be_unique : bool)
    (fullmatch : string -> bool) (matched_set non_matched_set : gset string)
    (failed_count : Z) (item_data : item) :
  is_none_or_na item_data = true ->
  normalize_item_data_end_with_dot_0 item_data ∉ matched_set ->
  fullmatch (normalize_item_data_end_with_dot_0 item_data) = true ->
  check_item false value_must_be_unique fullmatch
             (matched_set, non_matched_set, failed_count) item_data
  = ({[normalize_item_data_end_with_dot_0 item_data]} ∪ matched_set,
     non_matched_set, failed_count).
Proof.
intros Hnull Hfresh Hmatch. unfold check_item.
rewrite andb_false_r, Hmatch.
rewrite (bool_decide_eq_false_2 _ Hfresh), andb_false_r. reflexivity.
Qed.

Lemma validate_column_scenario (re_compile : string -> option (string -> bool)) :
  re_compile "^.*$" = Some no_line_feed ->
  validate_column re_compile Scenario.not_null_unique (Some Scenario.column_objects)
  = Return (mk_state 3 1 {["1"]} {["1"; "2"; "None"]})
  /\ validate_column re_compile Scenario.not_null_unique (Some Scenario.column_floats)
     = Return (mk_state 3 1 {["1"]} {["1"; "2"; "nan"]}).
Proof.
intros Hre. unfold validate_column.
change (flag (dict_get "nullable" Scenario.not_null_unique)) with false.
change (flag (dict_get "unique" Scenario.not_null_unique)) with true.
cbv zeta.
change (with_default_pattern Scenario.not_null_unique true false)
  with (Scenario.not_null_unique
          ++ [("pattern", TableMapping.RStr "^.*$");
              ("pattern_regex_description",
               TableMapping.RStr "Accept any value (Have to be unique and not null)")]).
unfold Scenario.not_null_unique. cbn [app scan_keys].
change (String.eqb (PyStr.lower "nullable") "pattern") with false.
change (String.eqb (PyStr.lower "unique") "pattern") with false.
change (String.eqb (PyStr.lower "pattern") "pattern") with true.
change (String.eqb (PyStr.lower "pattern_regex_description") "pattern") with false.
cbv iota. unfold apply_pattern. rewrite Hre.
split; vm_compute; reflexivity.
Qed.

(** C2 on the code: for the rule [nullable=false, unique=true] on the key
    column ID and the sampled values [1, 1, 2, null] the validator returns
    passed=3 and failed=1: the duplicate 1 fails, and the null, which the
    generated description of the rule calls "not null", passes the default
    pattern. *)
Theorem rule_scenario_counts (re_compile : string -> option (string -> bool))
    (data : DataFrame) :
  re_compile "^.*$" = Some no_line_feed ->
  data = Scenario.frame_objects \/ data = Scenario.frame_floats ->
  exists r,
    _rule_based_data_validation re_compile (Some data) Scenario.orders_with_rule
    = Return (Some r)
    /\ RuleBasedDataValidationResult.total_records r = 4
    /\ RuleBasedDataValidationResult.passed_records_count r = [("ID", 3)]
    /\ RuleBasedDataValidationResult.failed_records_count r = [("ID", 1)]
    /\ RuleBasedDataValidationResult.failed_set r = [("ID", {["1"]})]
    /\ (exists null_text,
          RuleBasedDataValidationResult.success_set r
          = [("ID", {["1"; "2"; null_text]})]
          /\ text_mean_none null_text = true)
    /\ dict_get "pattern_regex_description"
                (with_default_pattern Scenario.not_null_unique true false)
       = Some (TableMapping.RStr "Accept any value (Have to be unique and not null)").
Proof.
intros Hre Hdata.
destruct (validate_column_scenario re_compile Hre) as [Hobjects Hfloats].
unfold _rule_based_data_validation.
change (TableMapping.rule_based_data_validation Scenario.orders_with_rule)
  with (Some [("ID", Scenario.not_null_unique)]).
cbv beta iota zeta.
change (List.filter _ [("ID", Scenario.not_null_unique)])
  with [("ID", Scenario.not_null_unique)].
cbv iota. unfold validate_columns.
destruct Hdata as [-> | ->].
- change (dict_get "ID" Scenario.frame_objects) with (Some Scenario.column_objects).
  rewrite Hobjects. eexists. split; [reflexivity|].
  repeat split. exists "None". split; reflexivity.
- change (dict_get "ID" Scenario.frame_floats) with (Some Scenario.column_floats).
  rewrite Hfloats. eexists. split; [reflexivity|].
  repeat split. exists "nan". split; reflexivity.
Qed.

Lemma rule_scenario_counts_witness :
  exists r,
    _rule_based_data_validation default_only (Some Scenario.frame_objects)
                                Scenario.orders_with_rule
    = Return (Some r)
    /\ RuleBasedDataValidationResult.total_records r = 4
    /\ RuleBasedDataValidationResult.passed_records_count r = [("ID", 3)]
    /\ RuleBasedDataValidationResult.failed_records_count r = [("ID", 1)]
    /\ RuleBasedDataValidationResult.failed_set r = [("ID", {["1"]})]
    /\ (exists null_text,
          RuleBasedDataValidationResult.success_set r
          = [("ID", {["1"; "2"; null_text]})]
          /\ text_mean_none null_text = true)
    /\ dict_get "pattern_regex_description"
                (with_default_pattern Scenario.not_null_unique true false)
       = Some (TableMapping.RStr "Accept any value (Have to be unique and not null)").
Proof.
exact (rule_scenario_counts default_only Scenario.frame_objects eq_refl
                            (or_introl eq_refl)).
Defined.

End RuleBasedChecks.

(** * Properties of the remaining functions *)

(** ** The derived statuses of a table result *)

Section DerivedStatuses.

Import ValidationStatus ValidationIssue DataMatchValidationResult TableStatus.

Lemma any_severity_app (s : Status) (l1 l2 : list Issue) :
  any_severity s (l1 ++ l2) = any_severity s l1 || any_severity s l2.
Proof. unfold any_severity. apply existsb_app. Qed.

(** Raising a status other than SKIP through a list of severities ends at
    FAIL when one of them is FAIL, else at WARNING when one of them is
    WARNING, else where it started. *)
Lemma fold_raise_cases (l : list Status) (acc : Status) :
  acc <> SKIP ->
  fold_left raise_status_level_to l acc
  = if bool_decide (acc = FAIL) || existsb (fun s => bool_decide (s = FAIL)) l
    then FAIL
    else if bool_decide (acc = WARNING)
            || existsb (fun s => bool_decide (s = WARNING)) l
    then WARNING
    else PASS.
Proof.
revert acc. induction l as [|s l IH]; intros acc Hacc.
- destruct acc; try reflexivity. congruence.
- cbn [fold_left existsb]. rewrite IH.
  + destruct acc, s; try congruence;
      match goal with
      | |- context [raise_status_level_to ?a ?b] =>
          let v := eval vm_compute in (raise_status_level_to a b) in
          change (raise_status_level_to a b) with v
      end; cbn;
      destruct (existsb (fun s => bool_decide (s = FAIL)) l),
               (existsb (fun s => bool_decide (s = WARNING)) l); reflexivity.
  + destruct acc, s; try congruence; vm_compute; discriminate.
Qed.

Lemma existsb_severity (s : Status) (issues : list Issue) :
  existsb (fun x => bool_decide (x = s)) (List.map severity issues)
  = any_severity s issues.
Proof.
unfold any_severity. induction issues as [|i l IH]; [reflexivity|].
cbn. rewrite IH. reflexivity.
Qed.

(** X1: the data-match status of a table result is the most severe of PASS,
    the status of the result and the severities of its data-match issues,
    as [raise_status_level_to] joins them; it is never SKIP and never below
    the status of the result. *)
Theorem get_data_match_status_join (r : TableResult) :
  get_data_match_status r
  = fold_left raise_status_level_to
      (status r :: List.map severity (data_match_validation_issues r)) PASS
  /\ get_data_match_status r <> SKIP
  /\ le (status r) (get_data_match_status r)
  /\ (forall issue, issue ∈ data_match_validation_issues r ->
      le (severity issue) (get_data_match_status r)).
Proof.
split; [|split; [|split] ].
- rewrite fold_raise_cases by discriminate.
  cbn [existsb]. rewrite !existsb_severity. unfold get_data_match_status.
  destruct (status r); reflexivity.
- unfold get_data_match_status.
  repeat match goal with |- context [if ?b then _ else _] => destruct b end;
    discriminate.
- unfold get_data_match_status, le.
  destruct (status r); repeat case_bool_decide; try congruence; cbn [orb];
    repeat match goal with |- context [if ?b then _ else _] => destruct b end;
    vm_compute; discriminate.
- intros issue Hin. unfold get_data_match_status, le.
  assert (Hsev : forall s, severity issue = s ->
            any_severity s (data_match_validation_issues r) = true).
  { intros s Hs. unfold any_severity. apply existsb_exists. exists issue.
    split; [apply list_elem_of_In; exact Hin|]. apply bool_decide_eq_true. exact Hs. }
  destruct (severity issue) eqn:Es.
  + repeat match goal with |- context [if ?b then _ else _] => destruct b end;
      vm_compute; discriminate.
  + rewrite (Hsev FAIL eq_refl), orb_true_r. vm_compute. discriminate.
  + rewrite (Hsev WARNING eq_refl), orb_true_r.
    destruct (bool_decide (status r = FAIL) || any_severity FAIL _);
      vm_compute; discriminate.
  + repeat match goal with |- context [if ?b then _ else _] => destruct b end;
      vm_compute; discriminate.
Qed.

(** X2: the row-count status is the most severe of PASS and the severities
    of the row-count issues, and recording further issues never lowers it. *)
Theorem row_count_status_join (r : TableResult) (more : list Issue) :
  row_count_status r
  = fold_left raise_status_level_to
      (List.map severity (row_count_validation_issues r)) PASS
  /\ le (row_count_status r)
        (row_count_status
           (set_row_count_validation_issues
              (row_count_validation_issues r ++ more) r)).
Proof.
split.
- rewrite fold_raise_cases by discriminate. rewrite !existsb_severity.
  reflexivity.
- unfold row_count_status, le. cbn [row_count_validation_issues set_row_count_validation_issues].
  rewrite !any_severity_app.
  destruct (any_severity FAIL (row_count_validation_issues r)),
           (any_severity WARNING (row_count_validation_issues r)),
           (any_severity FAIL more), (any_severity WARNING more);
    vm_compute; discriminate.
Qed.

(** X3: a successful table result has the status PASS and the data-match
    status PASS; conversely a result with both, none of whose issues has the
    severity SKIP, is successful. *)
Theorem is_successful_spec (r : TableResult) :
  (is_successful r = true ->
   status r = PASS /\ get_data_match_status r = PASS)
  /\ (status r = PASS -> get_data_match_status r = PASS ->
      any_severity SKIP (data_match_validation_issues r) = false ->
      is_successful r = true).
Proof.
unfold is_successful, get_data_match_status, any_severity.
induction (data_match_validation_issues r) as [|i l IH].
- cbn. destruct (status r); cbn; split; try discriminate; auto.
- cbn [forallb existsb]. destruct IH as [IH1 IH2].
  destruct (status r) eqn:Es; cbn in *; try (split; intros; discriminate).
  destruct (severity i) eqn:Ei; cbn in *.
  + split; [intros H; split; [reflexivity|]; apply IH1 in H; tauto|].
    intros _ H1 H2. apply IH2; auto.
  + split; intros; discriminate.
  + split; [intros; discriminate|]. intros _ H1.
    destruct (existsb (fun issue => bool_decide (severity issue = FAIL)) l);
      discriminate.
  + split; intros; discriminate.
Qed.

End DerivedStatuses.

(** ** The data task: early exits and the statuses of its result *)

Section DataTaskStatuses.

Import ValidationStatus ValidationIssue TableStatus Validator.
#[local] Abbreviation status_of := DataMatchValidationResult.status.
#[local] Abbreviation data_issues_of :=
  DataMatchValidationResult.data_match_validation_issues.
#[local] Abbreviation row_issues_in :=
  DataMatchValidationResult.row_count_validation_issues.
#[local] Abbreviation compare_in :=
  DataMatchValidationResult.compare_sample_data_result.

Context {F : Type} `{PyFloat F}.
Context {K : Type} `{Countable K}.

Variable settings : Settings F.
Variable transform : list string -> K -> K.
Variable re_compile : string -> option (string -> bool).
Variable distribution :
  Mapping -> option (Sample K) -> option (Sample K) -> outcome unit.

(** The count the task works with for one side: the answer of the count
    query when row-count validation is enabled and the table exists. *)
Lemma effective_count_unknown (enabled : option bool) (lookup : option relation_kind)
    (count : option Z) :
  enabled = Some false \/ lookup = None \/ count = None
  \/ (exists n, count = Some n /\ n <= 0) ->
  unknown_or_empty
    (if default true enabled && bool_decide (is_Some lookup) then count else None)
  = true.
Proof.
intros [->|[->|[->|(n & -> & Hn)] ] ]; cbn.
- reflexivity.
- rewrite andb_false_r. reflexivity.
- destruct (_ && _); reflexivity.
- destruct (_ && _); [cbn; apply Z.leb_le; exact Hn|reflexivity].
Qed.

(** X4: when neither side has a known positive row count (row-count
    validation is disabled, or the table is missing, or its count query
    failed, or it holds no row), the task returns at once: the result is
    FAIL, its counts are clamped to 0 or more, no sample is compared, and the
    row-count issues and the data-match issues are the same list. *)
Theorem task_without_rows_fails (mapping : Mapping) (sample_size : option Z)
    (io : Probe K) :
  (enable_row_count_validation settings = Some false
   \/ source_lookup io = None \/ source_count_query io = None
   \/ (exists n, source_count_query io = Some n /\ n <= 0)) ->
  (enable_row_count_validation settings = Some false
   \/ target_lookup io = None \/ target_count_query io = None
   \/ (exists n, target_count_query io = Some n /\ n <= 0)) ->
  exists r,
    _validate_single_table_data settings transform re_compile distribution mapping
    sample_size io = Return r
    /\ status_of r = FAIL
    /\ compare_in r = None
    /\ DataMatchValidationResult.source_count r = 0
    /\ DataMatchValidationResult.target_count r = 0
    /\ DataMatchValidationResult.matching_records r = 0
    /\ row_issues_in r = data_issues_of r.
Proof.
intros Hs Ht. unfold _validate_single_table_data.
pose proof (effective_count_unknown _ _ _ Hs) as Es.
pose proof (effective_count_unknown _ _ _ Ht) as Et.
rewrite Es, Et. cbn [andb]. eexists. split; [reflexivity|].
cbn. repeat split.
- destruct (default true _ && bool_decide _); [|reflexivity].
  destruct (source_count_query io) as [n|]; [|reflexivity].
  cbn in Es. apply Z.leb_le in Es. cbn. lia.
- destruct (default true _ && bool_decide (is_Some (target_lookup io))); [|reflexivity].
  destruct (target_count_query io) as [n|]; [|reflexivity].
  cbn in Et. apply Z.leb_le in Et. cbn. lia.
Qed.

(** X5: with row-count validation disabled the task never reaches the
    sample comparison: every table gets the status FAIL, and a table that
    exists on both sides gets it without a single issue. *)
Theorem task_with_row_counts_disabled (mapping : Mapping) (sample_size : option Z)
    (io : Probe K) :
  enable_row_count_validation settings = Some false ->
  exists r,
    _validate_single_table_data settings transform re_compile distribution mapping
    sample_size io = Return r
    /\ status_of r = FAIL
    /\ compare_in r = None
    /\ (is_Some (source_lookup io) -> is_Some (target_lookup io) ->
        row_issues_in r = [] /\ data_issues_of r = []).
Proof.
intros Hoff. unfold _validate_single_table_data. rewrite Hoff. cbn.
eexists. split; [reflexivity|]. cbn. split; [reflexivity|]. split; [reflexivity|].
intros Hsrc Htgt.
rewrite (bool_decide_eq_true_2 _ Hsrc), (bool_decide_eq_true_2 _ Htgt).
split; reflexivity.
Qed.

(** Raising a status never lowers it, and gives one of the two statuses. *)
Lemma raise_status_level_to_ge (a b : Status) :
  le a (raise_status_level_to a b) /\ le b (raise_status_level_to a b)
  /\ (raise_status_level_to a b = a \/ raise_status_level_to a b = b).
Proof. destruct a, b; vm_compute; repeat split; try discriminate; auto. Qed.

Lemma le_trans (a b c : Status) : le a b -> le b c -> le a c.
Proof. unfold le. lia. Qed.

Lemma raise_status_level_to_not_skip (a b : Status) :
  a <> SKIP -> raise_status_level_to a b <> SKIP.
Proof. destruct a, b; vm_compute; congruence. Qed.

Lemma settled_status_raise (r : TableResult) (s : Status) :
  settled_status r ->
  settled_status (DataMatchValidationResult.set_status
                    (raise_status_level_to (status_of r) s) r).
Proof.
intros (Hskip & Hrow & Hdata).
destruct (raise_status_level_to_ge (status_of r) s) as (Hge & _ & Hor).
split; [|split].
- cbn. apply raise_status_level_to_not_skip. exact Hskip.
- unfold row_count_status in *. cbn. eapply le_trans; [exact Hrow|exact Hge].
- cbn. eapply Forall_impl; [exact Hdata|]. cbn. intros issue Hle.
  eapply le_trans; [exact Hle|exact Hge].
Qed.

Lemma settled_status_append (r : TableResult) (issue : Issue) :
  settled_status r ->
  settled_status
    (DataMatchValidationResult.set_status
       (raise_status_level_to (status_of r) (severity issue))
       (DataMatchValidationResult.set_data_match_validation_issues
          (data_issues_of r ++ [issue]) r)).
Proof.
intros (Hskip & Hrow & Hdata).
destruct (raise_status_level_to_ge (status_of r) (severity issue)) as (Hge & Hge' & Hor).
split; [|split].
- cbn. apply raise_status_level_to_not_skip. exact Hskip.
- unfold row_count_status in *. cbn. eapply le_trans; [exact Hrow|exact Hge].
- cbn. apply Forall_app. split.
  + eapply Forall_impl; [exact Hdata|]. cbn. intros i Hle.
    eapply le_trans; [exact Hle|exact Hge].
  + constructor; [exact Hge'|constructor].
Qed.

Lemma settled_status_merge (issues : list Issue) (r : TableResult) :
  settled_status r -> settled_status (fold_left merge_issue issues r).
Proof.
revert r. induction issues as [|issue issues IH]; intros r Hr; [exact Hr|].
cbn [fold_left]. apply IH. unfold merge_issue.
case_bool_decide; [exact Hr|]. apply settled_status_append. exact Hr.
Qed.

Lemma settled_status_apply_success_rate (source_count target_count : option Z)
    (success_rate : F) (r : TableResult) :
  settled_status r ->
  settled_status (apply_success_rate settings source_count target_count
                                     success_rate r).
Proof.
intros Hr. unfold apply_success_rate.
destruct (fltb (fabs success_rate) (float_of_int 100)).
- match goal with
  | |- context [ _ ++ [?i] ] => exact (settled_status_append r i Hr)
  end.
- apply settled_status_raise. exact Hr.
Qed.

Lemma row_count_band_not_skip (s t : Z) : fst (row_count_band settings s t) <> SKIP.
Proof.
unfold row_count_band.
repeat match goal with |- context [if ?b then _ else _] => destruct b end;
  discriminate.
Qed.

(** After the row-count check the status is the row-count status. *)
Lemma check_row_counts_settled (source_count target_count : option Z)
    (r : TableResult) :
  status_of r = PASS -> row_issues_in r = [] -> data_issues_of r = [] ->
  settled_status (check_row_counts settings source_count target_count r)
  /\ status_of (check_row_counts settings source_count target_count r)
     = row_count_status (check_row_counts settings source_count target_count r)
  /\ data_issues_of (check_row_counts settings source_count target_count r) = [].
Proof.
intros Hst Hrow Hdata. unfold check_row_counts.
assert (Hsame : settled_status r /\ status_of r = row_count_status r
                /\ data_issues_of r = []).
{ unfold settled_status, row_count_status. rewrite Hst, Hrow, Hdata. cbn.
  split; [split; [discriminate|split; [vm_compute; discriminate|constructor] ]|].
  split; reflexivity. }
destruct source_count as [s|], target_count as [t|]; try exact Hsame.
destruct (negb (s =? t)); [|exact Hsame].
pose proof (row_count_band_not_skip s t) as Hskip.
unfold settled_status, row_count_status, row_count_issue.
destruct (row_count_band settings s t) as [sev kind]. cbn in *.
rewrite Hrow, Hdata. cbn.
destruct sev; try congruence; cbn; repeat split; try discriminate;
  try constructor; vm_compute; discriminate.
Qed.

Lemma settled_get_data_match_status (r : TableResult) :
  settled_status r -> get_data_match_status r = status_of r.
Proof.
intros (Hskip & _ & Hdata). unfold get_data_match_status.
assert (Hany : forall s, any_severity s (data_issues_of r) = true -> le s (status_of r)).
{ intros s Hs. unfold any_severity in Hs. apply existsb_exists in Hs as (i & Hin & Hi).
  apply bool_decide_eq_true in Hi. subst s.
  rewrite Forall_forall in Hdata. apply Hdata, list_elem_of_In. exact Hin. }
pose proof (Hany FAIL) as HF. pose proof (Hany WARNING) as HW.
destruct (status_of r); try congruence; cbn.
- destruct (any_severity FAIL _); [specialize (HF eq_refl); vm_compute in HF; congruence|].
  destruct (any_severity WARNING _); [specialize (HW eq_refl); vm_compute in HW; congruence|].
  reflexivity.
- reflexivity.
- destruct (any_severity FAIL _); [specialize (HF eq_refl); vm_compute in HF; congruence|].
  reflexivity.
Qed.

(** The result the task builds before it looks at the data. *)
Lemma task_start_settled (mapping : Mapping) (sample_size : option Z)
    (kinds : option string * option string) (counts : Z * Z)
    (source_count target_count : option Z) :
  let result :=
    check_row_counts settings source_count target_count
      (DataMatchValidationResult.with_probe true true (fst kinds) (snd kinds)
         (fst counts) (snd counts) sample_size
         (TableMapping.data_transformation_rules mapping) [] []
         (DataMatchValidationResult.init mapping PASS)) in
  settled_status result /\ status_of result = row_count_status result
  /\ data_issues_of result = [].
Proof. cbv zeta. apply check_row_counts_settled; reflexivity. Qed.

Lemma early_result_settled (r : TableResult) :
  status_of r = FAIL -> settled_status r.
Proof.
intros Hst. unfold settled_status. rewrite Hst.
split; [discriminate|]. split.
- unfold le, row_count_status.
  repeat match goal with |- context [if ?b then _ else _] => destruct b end;
    vm_compute; discriminate.
- apply Forall_forall. intros issue _. destruct (severity issue);
    vm_compute; discriminate.
Qed.

Lemma unknown_or_empty_clamped (count : option Z) :
  unknown_or_empty count = true -> _to_positive_integer count = 0.
Proof.
destruct count as [n|]; cbn; [|reflexivity].
intros Hn. apply Z.leb_le in Hn. lia.
Qed.

(** The shapes of a returned result: either it is settled, and the mapping
    has key columns or both counts of the result are 0; or the mapping has
    no key column and the result is a settled one, without data-match issue
    and without comparison, to which the issue [no_key_columns] was added. *)
Lemma task_cases (mapping : Mapping) (sample_size : option Z)
    (io : Probe K) (r : TableResult) :
  _validate_single_table_data settings transform re_compile distribution mapping
    sample_size io = Return r ->
  (settled_status r
   /\ ((exists k ks, TableMapping.key_columns mapping = Some (k :: ks))
       \/ (DataMatchValidationResult.source_count r = 0
           /\ DataMatchValidationResult.target_count r = 0)))
  \/ ((TableMapping.key_columns mapping = None
       \/ TableMapping.key_columns mapping = Some [])
      /\ exists r1 issue,
           settled_status r1 /\ status_of r1 = row_count_status r1
           /\ data_issues_of r1 = [] /\ compare_in r1 = None
           /\ issue_type issue = "no_key_columns" /\ severity issue = WARNING
           /\ r = DataMatchValidationResult.set_data_match_validation_issues
                    [issue] r1).
Proof.
unfold _validate_single_table_data. intros Hrun.
destruct (unknown_or_empty _ && unknown_or_empty _) eqn:Hearly.
{ injection Hrun as <-. left. split; [apply early_result_settled; reflexivity|].
  right. apply andb_true_iff in Hearly as [Hs Ht]. cbn.
  split; apply unknown_or_empty_clamped; assumption. }
match type of Hrun with
| context [check_row_counts settings ?sc ?tc
             (DataMatchValidationResult.with_probe _ _ ?k1 ?k2 ?c1 ?c2 _ _ _ _ _)] =>
    destruct (task_start_settled mapping sample_size (k1, k2) (c1, c2) sc tc)
      as (Hset & Hrow & Hnil);
    pose proof (check_row_counts_compare settings sc tc
                  (DataMatchValidationResult.with_probe true true k1 k2 c1 c2
                     sample_size (TableMapping.data_transformation_rules mapping)
                     [] [] (DataMatchValidationResult.init mapping PASS))) as Hcmp
end.
cbn [fst snd] in Hset, Hrow, Hnil. cbn in Hcmp.
destruct (bool_decide _ && bool_decide _) eqn:Hzero.
{ injection Hrun as <-. left. split; [apply settled_status_raise; exact Hset|].
  right. apply andb_true_iff in Hzero as [Hs Ht].
  apply bool_decide_eq_true in Hs, Ht. cbn.
  unfold check_row_counts. rewrite Hs, Ht. cbn. split; reflexivity. }
destruct (TableMapping.key_columns mapping) as [[|k ks]|] eqn:Hkeys.
- injection Hrun as <-. right. split; [right; reflexivity|].
  match goal with
  | |- context [DataMatchValidationResult.set_data_match_validation_issues
                  (_ ++ [?i]) ?x] => exists x, i
  end.
  split; [exact Hset|]. split; [exact Hrow|]. split; [exact Hnil|].
  split; [exact Hcmp|]. split; [reflexivity|]. split; [reflexivity|].
  rewrite Hnil. reflexivity.
- destruct (_compare_sample_data _ _ _ _ _ _ _ _) as [c|e]; [|discriminate Hrun].
  destruct (CompareSampleDataResult.interpolated_matching_records_of_tables_from_success_rate c);
    [|discriminate Hrun].
  injection Hrun as <-. left. split; [|left; eauto].
  apply settled_status_apply_success_rate.
  match goal with
  | |- settled_status (DataMatchValidationResult.set_matching_records ?m ?res) =>
      assert (Hres : settled_status res)
  end.
  { apply settled_status_merge.
    destruct Hset as (Ha & Hb & Hc). split; [exact Ha|]. split; [exact Hb|exact Hc]. }
  destruct Hres as (Ha & Hb & Hc). split; [exact Ha|]. split; [exact Hb|exact Hc].
- injection Hrun as <-. right. split; [left; reflexivity|].
  match goal with
  | |- context [DataMatchValidationResult.set_data_match_validation_issues
                  (_ ++ [?i]) ?x] => exists x, i
  end.
  split; [exact Hset|]. split; [exact Hrow|]. split; [exact Hnil|].
  split; [exact Hcmp|]. split; [reflexivity|]. split; [reflexivity|].
  rewrite Hnil. reflexivity.
Qed.

Lemma task_status_covers_row_counts_aux (mapping : Mapping)
    (sample_size : option Z) (io : Probe K) (r : TableResult) :
  _validate_single_table_data settings transform re_compile distribution mapping
    sample_size io = Return r ->
  status_of r <> SKIP /\ le (row_count_status r) (status_of r).
Proof.
intros Hrun.
destruct (task_cases mapping sample_size io r Hrun)
  as [ [(Hskip & Hrow & _) _]|(_ & r1 & issue & (Hskip & Hrow & _) & _ & _ & _ & _ & _ & ->)];
  split; assumption.
Qed.

(** X6: in every result the data task returns, the status is PASS, WARNING
    or FAIL and is at least the row-count status: a row-count issue is never
    more severe than the status of its table. *)
Theorem task_status_covers_row_counts (mapping : Mapping) (sample_size : option Z)
    (io : Probe K) (r : TableResult) :
  _validate_single_table_data settings transform re_compile distribution mapping
    sample_size io = Return r ->
  status_of r <> SKIP /\ le (row_count_status r) (status_of r).
Proof. apply task_status_covers_row_counts_aux. Qed.

(** X7: for a mapping with key columns, no data-match issue of a returned
    result is more severe than its status, and the data-match status of the
    result is its status. *)
Theorem task_data_match_status (mapping : Mapping) (sample_size : option Z)
    (io : Probe K) (r : TableResult) (k : string) (ks : list string) :
  TableMapping.key_columns mapping = Some (k :: ks) ->
  _validate_single_table_data settings transform re_compile distribution mapping
    sample_size io = Return r ->
  get_data_match_status r = status_of r
  /\ (forall issue, issue ∈ data_issues_of r -> le (severity issue) (status_of r)).
Proof.
intros Hkeys Hrun.
destruct (task_cases mapping sample_size io r Hrun) as [ [Hset _]|([E|E] & _)];
  [|congruence|congruence].
split; [apply settled_get_data_match_status; exact Hset|].
destruct Hset as (_ & _ & Hall). rewrite Forall_forall in Hall. exact Hall.
Qed.

(** X8: for a mapping without key columns and a result with a positive
    count, no sample is compared and the only data-match issue is the
    WARNING [no_key_columns], which the status does not take up: the status
    is the row-count status, the data-match status is that status raised to
    WARNING at least, and the result is not successful. *)
Theorem task_without_key_columns (mapping : Mapping) (sample_size : option Z)
    (io : Probe K) (r : TableResult) :
  TableMapping.key_columns mapping = None
  \/ TableMapping.key_columns mapping = Some [] ->
  0 < DataMatchValidationResult.source_count r
  \/ 0 < DataMatchValidationResult.target_count r ->
  _validate_single_table_data settings transform re_compile distribution mapping
    sample_size io = Return r ->
  compare_in r = None
  /\ List.map issue_type (data_issues_of r) = ["no_key_columns"]
  /\ List.map severity (data_issues_of r) = [WARNING]
  /\ status_of r = row_count_status r
  /\ get_data_match_status r = raise_status_level_to (status_of r) WARNING
  /\ is_successful r = false.
Proof.
intros Hkeys Hpos Hrun.
destruct (task_cases mapping sample_size io r Hrun)
  as [ [_ [(k & ks & E)|[E1 E2] ] ]
     |(_ & r1 & issue & (Hskip & _) & Hrow & Hnil & Hcmp & Hty & Hsev & ->)].
- destruct Hkeys; congruence.
- lia.
- cbn. rewrite Hty, Hsev. split; [exact Hcmp|]. split; [reflexivity|].
  split; [reflexivity|]. split; [exact Hrow|].
  unfold get_data_match_status, is_successful, any_severity. cbn.
  rewrite Hsev.
  destruct (status_of r1); try congruence; split; reflexivity.
Qed.

End DataTaskStatuses.

(** ** The statuses of a run *)

Section RunStatuses.

Import ValidationStatus OverallValidation.

Lemma filter_nil_iff {A : Type} (f : A -> bool) (l : list A) :
  List.filter f l = [] <-> forall x, x ∈ l -> f x = false.
Proof.
induction l as [|a l IH]; cbn.
- split; [intros _ x Hx; inversion Hx|reflexivity].
- destruct (f a) eqn:Ea.
  + split; [discriminate|]. intros Hall.
    rewrite (Hall a) in Ea by (left). discriminate.
  + rewrite IH. split.
    * intros Hall x Hx. apply elem_of_cons in Hx as [->|Hx]; auto.
    * intros Hall x Hx. apply Hall. right. exact Hx.
Qed.

(** The four outcomes of the shared pattern, by the statuses in the list. *)
Lemma status_of_list_cases {A : Type} (status_of : A -> Status) (results : list A) :
  (status_of_list status_of results = SKIP <-> results = [])
  /\ (status_of_list status_of results = FAIL
      <-> exists r, r ∈ results /\ status_of r = FAIL)
  /\ (status_of_list status_of results = WARNING
      <-> (forall r, r ∈ results -> status_of r <> FAIL)
          /\ exists r, r ∈ results /\ status_of r = WARNING)
  /\ (status_of_list status_of results = PASS
      <-> results <> []
          /\ forall r, r ∈ results -> status_of r <> FAIL /\ status_of r <> WARNING).
Proof.
destruct results as [|a l].
{ cbn. repeat split; try discriminate; try congruence.
  - intros (r & Hr & _). inversion Hr.
  - intros (_ & r & Hr & _). inversion Hr.
  - intros [Hne _]. congruence. }
unfold status_of_list.
set (results := a :: l).
assert (HF : List.filter (fun r => bool_decide (status_of r = FAIL)) results = []
             <-> forall r, r ∈ results -> status_of r <> FAIL).
{ rewrite filter_nil_iff. split; intros Hall r Hr; specialize (Hall r Hr).
  - apply bool_decide_eq_false in Hall. exact Hall.
  - apply bool_decide_eq_false. exact Hall. }
assert (HW : List.filter (fun r => bool_decide (status_of r = WARNING)) results = []
             <-> forall r, r ∈ results -> status_of r <> WARNING).
{ rewrite filter_nil_iff. split; intros Hall r Hr; specialize (Hall r Hr).
  - apply bool_decide_eq_false in Hall. exact Hall.
  - apply bool_decide_eq_false. exact Hall. }
assert (Hex : forall s, (exists r, r ∈ results /\ status_of r = s)
                        <-> ~ forall r, r ∈ results -> status_of r <> s).
{ intros s. split.
  - intros (r & Hr & Hs) Hall. exact (Hall r Hr Hs).
  - intros Hn. destruct (decide (Exists (fun r => status_of r = s) results)) as [He|He].
    + apply Exists_exists in He. exact He.
    + exfalso. apply Hn. intros r Hr Hs. apply He, Exists_exists. eauto. }
assert (Hne : results <> []) by discriminate.
clearbody results.
destruct (List.filter (fun r => bool_decide (status_of r = FAIL)) results) as [|f fs].
- pose proof (proj1 HF eq_refl) as HnoF.
  destruct (List.filter (fun r => bool_decide (status_of r = WARNING)) results) as [|w ws].
  + pose proof (proj1 HW eq_refl) as HnoW.
    split; [split; [discriminate|]|].
    { intros E. exfalso. exact (Hne E). }
    split; [split; [discriminate|]|].
    { intros (r & Hr & Hs). exfalso. exact (HnoF r Hr Hs). }
    split; [split; [discriminate|]|].
    { intros (_ & r & Hr & Hs). exfalso. exact (HnoW r Hr Hs). }
    split; [intros _|reflexivity].
    split; [exact Hne|]. intros r Hr. split; auto.
  + assert (HsomeW : ~ forall r, r ∈ results -> status_of r <> WARNING).
    { intros Hall. apply HW in Hall. discriminate. }
    split; [split; [discriminate|]|].
    { intros E. exfalso. exact (Hne E). }
    split; [split; [discriminate|]|].
    { intros (r & Hr & Hs). exfalso. exact (HnoF r Hr Hs). }
    split; [split; [intros _|reflexivity]|].
    { split; [exact HnoF|]. apply Hex. exact HsomeW. }
    split; [discriminate|]. intros (_ & Hall). exfalso. apply HsomeW.
    intros r Hr. apply Hall. exact Hr.
- assert (HsomeF : ~ forall r, r ∈ results -> status_of r <> FAIL).
  { intros Hall. apply HF in Hall. discriminate. }
  split; [split; [discriminate|]|].
  { intros E. exfalso. exact (Hne E). }
  split; [split; [intros _; apply Hex; exact HsomeF|reflexivity]|].
  split; [split; [discriminate|]|].
  { intros (Hall & _). exfalso. exact (HsomeF Hall). }
  split; [discriminate|]. intros (_ & Hall). exfalso. apply HsomeF.
  intros r Hr. apply Hall. exact Hr.
Qed.

Lemma status_of_list_mono {A : Type} (f g : A -> Status) (results : list A) :
  (forall r, r ∈ results -> le (f r) (g r)) ->
  le (status_of_list f results) (status_of_list g results).
Proof.
intros Hle.
destruct (status_of_list_cases f results) as (FS & FF & FW & FP).
destruct (status_of_list_cases g results) as (GS & GF & GW & GP).
assert (Hup : forall r s, r ∈ results -> f r = s -> s <> SKIP -> s <> PASS ->
                g r = FAIL \/ (s = WARNING /\ g r = WARNING)).
{ intros r s Hr Hs H1 H2. specialize (Hle r Hr). rewrite Hs in Hle.
  destruct s, (g r); try congruence; vm_compute in Hle; try congruence; auto. }
destruct (status_of_list f results) eqn:Ef.
- apply proj1 in FP. destruct (FP eq_refl) as [Hne _].
  destruct (status_of_list g results); try (vm_compute; discriminate).
  exfalso. apply Hne, GS. reflexivity.
- apply proj1 in FF. destruct (FF eq_refl) as (r & Hr & Hs).
  destruct (Hup r FAIL Hr Hs) as [Hg|[? _] ]; try discriminate.
  rewrite (proj2 GF) by eauto. vm_compute. discriminate.
- apply proj1 in FW. destruct (FW eq_refl) as (_ & r & Hr & Hs).
  destruct (Hup r WARNING Hr Hs) as [Hg|[_ Hg] ]; try discriminate.
  + rewrite (proj2 GF) by eauto. vm_compute. discriminate.
  + destruct (status_of_list g results) eqn:Eg; try (vm_compute; discriminate).
    * apply proj1 in GP. destruct (GP eq_refl) as [_ Hall].
      destruct (Hall r Hr) as [_ Hw]. congruence.
    * apply proj1 in GS. rewrite (GS eq_refl) in Hr. inversion Hr.
- destruct (status_of_list g results); vm_compute; discriminate.
Qed.

Lemma status_of_list_ext {A : Type} (f g : A -> Status) (results : list A) :
  (forall r, r ∈ results -> f r = g r) ->
  status_of_list f results = status_of_list g results.
Proof.
intros Heq. unfold status_of_list. destruct results as [|a l]; [reflexivity|].
set (results := a :: l) in *. clearbody results.
assert (E : forall s, List.filter (fun r => bool_decide (f r = s)) results
                      = List.filter (fun r => bool_decide (g r = s)) results).
{ intros s. induction results as [|x xs IH]; [reflexivity|]. cbn.
  rewrite (Heq x) by left. rewrite IH; [reflexivity|].
  intros r Hr. apply Heq. right. exact Hr. }
rewrite !E. reflexivity.
Qed.

Lemma overall_status_of_parts (self : OverallValidation.t) :
  (overall_status self = FAIL
   <-> overall_status_table_result self = FAIL
       \/ overall_status_schema_result self = FAIL)
  /\ (overall_status self = PASS
      <-> overall_status_table_result self = PASS
          /\ overall_status_schema_result self = PASS).
Proof.
unfold overall_status.
destruct (overall_status_table_result self), (overall_status_schema_result self);
  cbn; split; split; try discriminate; try tauto;
  try (intros [E|E]; discriminate E); try (intros [E1 E2]; discriminate).
Qed.

(** X9: a run is FAIL overall exactly when a table result or a schema
    result is FAIL; it is PASS overall exactly when there is at least one
    table result and one schema result and none of them is FAIL or WARNING.
    So a run without schema results (schema validation switched off or
    skipped) or without table results is never PASS overall. *)
Theorem overall_status_spec (self : OverallValidation.t) :
  let tables := data_match_validation_result self in
  let schemas := default [] (schema_validation_results self) in
  (overall_status self = FAIL
   <-> (exists r, r ∈ tables /\ DataMatchValidationResult.status r = FAIL)
       \/ (exists r, r ∈ schemas /\ SchemaValidationResult.status r = FAIL))
  /\ (overall_status self = PASS
      <-> tables <> [] /\ schemas <> []
          /\ (forall r, r ∈ tables ->
                DataMatchValidationResult.status r <> FAIL
                /\ DataMatchValidationResult.status r <> WARNING)
          /\ (forall r, r ∈ schemas ->
                SchemaValidationResult.status r <> FAIL
                /\ SchemaValidationResult.status r <> WARNING))
  /\ (tables = [] \/ schemas = [] -> overall_status self <> PASS).
Proof.
cbv zeta.
destruct (overall_status_of_parts self) as [HF HP].
assert (Et : overall_status_table_result self
             = status_of_list DataMatchValidationResult.status
                 (data_match_validation_result self)) by reflexivity.
unfold overall_status_schema_result in HF, HP. rewrite Et in HF, HP.
destruct (status_of_list_cases DataMatchValidationResult.status
            (data_match_validation_result self)) as (_ & TF & _ & TP).
destruct (status_of_list_cases SchemaValidationResult.status
            (default [] (schema_validation_results self))) as (_ & SF & _ & SP).
rewrite TF, SF in HF. rewrite TP, SP in HP.
split; [exact HF|].
assert (HP' : overall_status self = PASS
              <-> data_match_validation_result self <> []
                  /\ default [] (schema_validation_results self) <> []
                  /\ (forall r, r ∈ data_match_validation_result self ->
                        DataMatchValidationResult.status r <> FAIL
                        /\ DataMatchValidationResult.status r <> WARNING)
                  /\ (forall r, r ∈ default [] (schema_validation_results self) ->
                        SchemaValidationResult.status r <> FAIL
                        /\ SchemaValidationResult.status r <> WARNING)) by tauto.
split; [exact HP'|].
intros Hempty Hpass. apply HP' in Hpass as (H1 & H2 & _).
destruct Hempty; contradiction.
Qed.

(** X10: over any results, the overall data-match status is at least the
    overall table status in the severity order. *)
Theorem overall_data_match_status_covers_table_status (self : OverallValidation.t) :
  le (overall_status_table_result self) (overall_status_data_match_result self).
Proof.
change (overall_status_table_result self)
  with (status_of_list DataMatchValidationResult.status
          (data_match_validation_result self)).
apply status_of_list_mono. intros r _.
unfold TableStatus.get_data_match_status, le.
destruct (DataMatchValidationResult.status r); repeat case_bool_decide;
  try congruence; cbn [orb];
  repeat match goal with |- context [if ?b then _ else _] => destruct b end;
  vm_compute; discriminate.
Qed.

End RunStatuses.

(** ** The data phase and the statuses of the run *)

Section DataPhaseStatuses.

Import ValidationStatus TableStatus Validator OverallValidation.

Context {F : Type} `{PyFloat F}.
Context {K : Type} `{Countable K}.

Variable settings : Settings F.
Variable transform : list string -> K -> K.
Variable re_compile : string -> option (string -> bool).
Variable distribution :
  Mapping -> option (Sample K) -> option (Sample K) -> outcome unit.
Variable sample_size : option Z.

(** What the connector answers to the task submitted [i]-th. *)
Variable io : nat -> Mapping -> Probe K.
Variable as_completed : list (nat * Mapping) -> list (nat * Mapping).

#[local] Abbreviation task :=
  (fun (i : nat) (mapping : Mapping) =>
     _validate_single_table_data settings transform re_compile distribution mapping
       sample_size (io i mapping)).

(** Every collected result is the result of a task or the failure result of
    a task that raised. *)
Lemma collect_members (run : nat -> Mapping -> outcome TableResult)
    (futures : list (nat * Mapping)) (acc results : list TableResult) :
  collect run futures acc = Return results ->
  forall r, r ∈ results ->
    r ∈ acc
    \/ exists i mapping,
         (i, mapping) ∈ futures
         /\ (run i mapping = Return r
             \/ exists e, run i mapping = Raise e /\ r = failure_result mapping e).
Proof.
revert acc. induction futures as [|[i mapping] futures IH]; intros acc Hrun r Hr.
- cbn in Hrun. injection Hrun as <-. left. exact Hr.
- cbn in Hrun. destruct (run i mapping) as [result|e] eqn:Ei.
  + destruct (IH _ Hrun r Hr) as [Hacc|(j & m & Hin & Hj)].
    * apply elem_of_app in Hacc as [Hacc|Hnew]; [left; exact Hacc|].
      apply list_elem_of_singleton in Hnew as ->.
      right. exists i, mapping. split; [left|left; exact Ei].
    * right. exists j, m. split; [right; exact Hin|exact Hj].
  + destruct (is_Exception e); [|discriminate Hrun].
    destruct (IH _ Hrun r Hr) as [Hacc|(j & m & Hin & Hj)].
    * apply elem_of_app in Hacc as [Hacc|Hnew]; [left; exact Hacc|].
      apply list_elem_of_singleton in Hnew as ->.
      right. exists i, mapping. split; [left|right; eauto].
    * right. exists j, m. split; [right; exact Hin|exact Hj].
Qed.

(** X11: over the results of a data phase, whatever the order of
    completion, no status is SKIP, the overall row-count status is at most
    the overall table status, and when every mapping has key columns the
    overall data-match status is the overall table status. *)
Theorem data_phase_statuses (table_mappings : list Mapping)
    (results : list TableResult) (self : OverallValidation.t) :
  (forall futures, as_completed futures ≡ₚ futures) ->
  _validate_data task as_completed table_mappings = Return results ->
  data_match_validation_result self = results ->
  (forall r, r ∈ results -> DataMatchValidationResult.status r <> SKIP)
  /\ le (overall_status_row_count_result self) (overall_status_table_result self)
  /\ ((forall mapping, mapping ∈ table_mappings ->
         exists k ks, TableMapping.key_columns mapping = Some (k :: ks)) ->
      overall_status_data_match_result self = overall_status_table_result self).
Proof.
intros Hperm Hrun Hself. unfold _validate_data in Hrun.
pose proof (collect_members task _ [] results Hrun) as Hmem.
assert (Hfrom : forall r, r ∈ results ->
          exists i mapping, mapping ∈ table_mappings
            /\ (task i mapping = Return r
                \/ exists e, r = failure_result mapping e)).
{ intros r Hr. destruct (Hmem r Hr) as [Hnil|(i & m & Hin & Hcase)]; [inversion Hnil|].
  rewrite (Hperm _) in Hin. unfold submit_all in Hin.
  apply elem_of_lookup_imap_1 in Hin as (j & m' & Heq & Hj). injection Heq as -> ->.
  exists j, m'. split; [eapply list_elem_of_lookup_2; exact Hj|].
  destruct Hcase as [Hok|(e & _ & He)]; [left; exact Hok|right; eauto]. }
assert (Et : overall_status_table_result self
             = status_of_list DataMatchValidationResult.status results)
  by (rewrite <- Hself; reflexivity).
unfold overall_status_row_count_result, overall_status_data_match_result.
rewrite Et, Hself.
split; [|split].
- intros r Hr. destruct (Hfrom r Hr) as (i & m & _ & [Hok|(e & ->)]).
  + apply (task_status_covers_row_counts_aux settings transform re_compile distribution
             m sample_size
             (io i m) r Hok).
  + discriminate.
- apply status_of_list_mono. intros r Hr.
  destruct (Hfrom r Hr) as (i & m & _ & [Hok|(e & ->)]).
  + apply (task_status_covers_row_counts_aux settings transform re_compile distribution
             m sample_size
             (io i m) r Hok).
  + vm_compute. discriminate.
- intros Hkeys. apply status_of_list_ext. intros r Hr.
  destruct (Hfrom r Hr) as (i & m & Hm & [Hok|(e & ->)]).
  + destruct (Hkeys m Hm) as (k & ks & Hk).
    destruct (task_cases settings transform re_compile distribution m sample_size
                         (io i m) r Hok)
      as [ [Hset _]|([E|E] & _)]; [|congruence|congruence].
    apply settled_get_data_match_status. exact Hset.
  + reflexivity.
Qed.

End DataPhaseStatuses.

(** ** The summary of a run *)

Section Summary.

Import OverallValidation.

Lemma count_if_le (f g : TableResult -> bool) (results : list TableResult) :
  (forall r, f r = true -> g r = true) ->
  0 <= count_if f results <= count_if g results.
Proof.
intros Himp. unfold count_if. split; [lia|].
apply inj_le. induction results as [|r l IH]; [reflexivity|]. cbn.
destruct (f r) eqn:Ef.
- rewrite (Himp r Ef). cbn. lia.
- destruct (g r); cbn; lia.
Qed.

Lemma count_if_partition (results : list TableResult) :
  Z.of_nat (length results)
  = count_if (fun r => bool_decide (DataMatchValidationResult.status r = PASS)) results
    + count_if (fun r => bool_decide (DataMatchValidationResult.status r = FAIL)) results
    + count_if (fun r => bool_decide (DataMatchValidationResult.status r = WARNING)) results
    + count_if (fun r => bool_decide (DataMatchValidationResult.status r = SKIP)) results.
Proof.
unfold count_if. induction results as [|r l IH]; [reflexivity|].
cbn [length List.filter]. destruct (DataMatchValidationResult.status r);
  repeat case_bool_decide; try congruence; cbn [length]; lia.
Qed.

Lemma sum_positive_from (count : TableResult -> Z) (results : list TableResult)
    (total : Z) :
  0 <= total ->
  0 <= fold_left
         (fun total r =>
            total + (if negb (count r =? 0) && (0 <? count r) then count r else 0))
         results total.
Proof.
revert total. induction results as [|r l IH]; intros total Htotal; [exact Htotal|].
cbn. apply IH. destruct (negb _ && (0 <? count r)) eqn:E; [|lia].
apply andb_true_iff in E as [_ E]. apply Z.ltb_lt in E. lia.
Qed.

(** X12: in the summary of a run the passed, failed, warning and skipped
    tables add up to the number of tables, the successful tables are among
    the passed ones, the record totals are not negative, and both rates are
    0 when there is nothing to divide by. *)
Theorem success_summary_counts {F : Type} `{PyFloat F} (self : OverallValidation.t) :
  let s := success_summary (F:=F) self in
  let results := data_match_validation_result self in
  total_tables s
  = passed_tables s + failed_tables s + warning_tables s
    + count_if (fun r => bool_decide (DataMatchValidationResult.status r = SKIP))
               results
  /\ 0 <= successful_tables s <= passed_tables s
  /\ passed_tables s <= total_tables s
  /\ 0 <= total_source_records s
  /\ 0 <= total_target_records s
  /\ 0 <= total_matching_records s
  /\ (results = [] -> success_rate_tables s = float_of_int 0)
  /\ (total_source_records s = 0 -> overall_data_success_rate s = float_of_int 0).
Proof.
cbv zeta. cbn [success_summary total_tables passed_tables failed_tables
               warning_tables successful_tables total_source_records
               total_target_records total_matching_records success_rate_tables
               overall_data_success_rate].
pose proof (count_if_partition (data_match_validation_result self)) as Hpart.
split; [exact Hpart|].
split.
{ apply count_if_le. unfold TableStatus.is_successful. intros r Hr.
  apply andb_true_iff in Hr as [Hr _]. exact Hr. }
split.
{ rewrite Hpart. unfold count_if. lia. }
split; [apply sum_positive_from; lia|].
split; [apply sum_positive_from; lia|].
split; [apply sum_positive_from; lia|].
split.
- intros ->. reflexivity.
- intros ->. reflexivity.
Qed.

End Summary.

(** ** Sorting and grouping the results *)

Section StableSort.

Import PySort.

Context {A : Type}.

Lemma insert_by_perm (before : A -> A -> bool) (x : A) (l : list A) :
  insert_by before x l ≡ₚ x :: l.
Proof.
induction l as [|y l IH]; [reflexivity|]. cbn.
destruct (before x y); [reflexivity|]. rewrite IH. apply Permutation_swap.
Qed.

(** The sort keeps every element, once. *)
Lemma stable_sort_perm (key_le : A -> A -> bool) (reverse : bool) (l : list A) :
  stable_sort key_le reverse l ≡ₚ l.
Proof.
unfold stable_sort. induction l as [|x l IH]; [reflexivity|]. cbn.
rewrite insert_by_perm, IH. reflexivity.
Qed.

Lemma stable_sort_length (key_le : A -> A -> bool) (reverse : bool) (l : list A) :
  length (stable_sort key_le reverse l) = length l.
Proof. apply Permutation_length, stable_sort_perm. Qed.

Section Order.

Variable key_le : A -> A -> bool.
Hypothesis key_le_total : forall x y, key_le x y = true \/ key_le y x = true.
Hypothesis key_le_trans :
  forall x y z, key_le x y = true -> key_le y z = true -> key_le x z = true.

Variable reverse : bool.

#[local] Abbreviation before :=
  (fun x y => if reverse then key_le y x else key_le x y).

Lemma before_total (x y : A) : before x y = true \/ before y x = true.
Proof. destruct reverse; apply key_le_total. Qed.

Lemma before_trans (x y z : A) :
  before x y = true -> before y z = true -> before x z = true.
Proof. destruct reverse; eauto. Qed.

Lemma insert_by_sorted (x : A) (l : list A) :
  StronglySorted (fun a b => before a b = true) l ->
  StronglySorted (fun a b => before a b = true) (insert_by before x l).
Proof.
induction l as [|y l IH]; intros Hs; cbn.
- constructor; constructor.
- apply StronglySorted_inv in Hs as [Hs Hy].
  destruct (before x y) eqn:E.
  + constructor; [constructor; assumption|].
    constructor; [exact E|].
    eapply Forall_impl; [exact Hy|]. cbn. intros z Hz.
    exact (before_trans x y z E Hz).
  + constructor; [apply IH; exact Hs|].
    rewrite insert_by_perm. constructor; [|exact Hy].
    destruct (before_total x y) as [H1|H1]; [congruence|exact H1].
Qed.

(** The result is in order: ascending by the key, descending when
    reversed. *)
Lemma stable_sort_sorted (l : list A) :
  StronglySorted (fun a b => before a b = true) (stable_sort key_le reverse l).
Proof.
unfold stable_sort. induction l as [|x l IH]; [constructor|].
cbn. apply insert_by_sorted. exact IH.
Qed.

(** Elements with equal keys keep their order. *)
Lemma stable_sort_stable (x : A) (l : list A) :
  List.filter (fun y => key_le x y && key_le y x) (stable_sort key_le reverse l)
  = List.filter (fun y => key_le x y && key_le y x) l.
Proof.
unfold stable_sort. induction l as [|a l IH]; [reflexivity|].
cbn [fold_right List.filter]. rewrite <- IH.
generalize (fold_right (insert_by before) [] l) as s. intros s.
induction s as [|y s IHs]; [reflexivity|]. cbn [insert_by].
destruct (before a y) eqn:E; [reflexivity|].
cbn [List.filter]. rewrite IHs.
destruct (key_le x y && key_le y x) eqn:Ey; [|reflexivity].
destruct (key_le x a && key_le a x) eqn:Ea; [|reflexivity].
exfalso. apply andb_true_iff in Ey as [Hxy Hyx], Ea as [Hxa Hax].
assert (Hb : before a y = true) by (destruct reverse; eauto).
cbv beta in E, Hb. rewrite E in Hb. discriminate Hb.
Qed.

End Order.

End StableSort.

Section SortResults.

Import PySort OverallValidation.

#[local] Abbreviation flat :=
  (fun grouped : list (string * list TableResult) => List.concat (List.map snd grouped)).

Lemma sort_by_severity_perm {A : Type} (status_of : A -> Status)
    (directives : list sort_directive) (results : list A) :
  sort_by_severity status_of directives results ≡ₚ results.
Proof.
unfold sort_by_severity. revert results.
induction directives as [|d ds IH]; intros results; [reflexivity|].
cbn [fold_left]. rewrite IH.
destruct (is_by "severity_status" d); [apply stable_sort_perm|reflexivity].
Qed.

Lemma flat_perm (g1 g2 : list (string * list TableResult)) :
  g1 ≡ₚ g2 -> flat g1 ≡ₚ flat g2.
Proof.
intros Hp. cbv beta. induction Hp as [|x l l' _ IH|x y l|l l' l'' _ IH1 _ IH2].
- reflexivity.
- cbn. rewrite IH. reflexivity.
- cbn. rewrite !app_assoc. apply Permutation_app_tail, Permutation_app_comm.
- etransitivity; eassumption.
Qed.

Lemma well_grouped_perm (g1 g2 : list (string * list TableResult)) :
  g1 ≡ₚ g2 -> well_grouped g1 -> well_grouped g2.
Proof.
intros Hp [Hnd Hall]. split.
- rewrite <- Hp. exact Hnd.
- rewrite <- Hp. exact Hall.
Qed.

Lemma group_append_names (g : string) (r : TableResult)
    (grouped : list (string * list TableResult)) :
  List.map fst (group_append g r grouped)
  = List.map fst grouped
    ++ (if bool_decide (g ∈ List.map fst grouped) then [] else [g]).
Proof.
induction grouped as [|[name items] rest IH]; [reflexivity|].
cbn [group_append]. destruct (String.eqb_spec name g) as [->|Hne].
- cbn. rewrite bool_decide_eq_true_2 by left. rewrite app_nil_r. reflexivity.
- cbn. rewrite IH. f_equal.
  destruct (decide (g ∈ List.map fst rest)) as [Hin|Hin].
  + rewrite !bool_decide_eq_true_2; [reflexivity|right; exact Hin|exact Hin].
  + rewrite !bool_decide_eq_false_2; [reflexivity| |exact Hin].
    intros Hin'. apply elem_of_cons in Hin' as [->|Hin']; [congruence|contradiction].
Qed.

Lemma group_append_spec (g : string) (r : TableResult)
    (grouped : list (string * list TableResult)) :
  g <> "" -> DataMatchValidationResult.group r = Some g ->
  well_grouped grouped ->
  well_grouped (group_append g r grouped)
  /\ flat (group_append g r grouped) ≡ₚ r :: flat grouped.
Proof.
intros Hg Hr [Hnd Hall]. split; [split|].
- rewrite group_append_names. case_bool_decide; [rewrite app_nil_r; exact Hnd|].
  apply NoDup_app. split; [exact Hnd|]. split; [|apply NoDup_singleton].
  intros x Hx Hx'. apply list_elem_of_singleton in Hx' as ->. contradiction.
- clear Hnd. induction grouped as [|[name items] rest IH]; cbn [group_append].
  + constructor; [|constructor]. cbn. split; [discriminate|]. split; [exact Hg|].
    constructor; [exact Hr|constructor].
  + apply Forall_cons in Hall as [(Hne & Hname & Hitems) Hrest]. cbn in *.
    destruct (String.eqb_spec name g) as [->|Hneq].
    * constructor; [|exact Hrest]. cbn. split; [|split; [exact Hname|] ].
      { destruct items; discriminate. }
      apply Forall_app. split; [exact Hitems|]. constructor; [exact Hr|constructor].
    * constructor; [cbn; auto|]. apply IH. exact Hrest.
- clear Hnd Hall. cbv beta. induction grouped as [|[name items] rest IH]; cbn [group_append].
  + cbn. reflexivity.
  + destruct (String.eqb name g).
    * cbn. rewrite <- app_assoc. cbn.
      rewrite <- Permutation_middle. reflexivity.
    * cbn. rewrite IH. rewrite <- Permutation_middle. reflexivity.
Qed.

Lemma split_by_group_from (results : list TableResult)
    (acc : list (string * list TableResult) * list TableResult) :
  well_grouped (fst acc) -> Forall without_group (snd acc) ->
  let fin :=
    fold_left
      (fun acc item =>
         match DataMatchValidationResult.group item with
         | Some (String c g) =>
             (group_append (String c g) item (fst acc), snd acc)
         | _ => (fst acc, snd acc ++ [item])
         end)
      results acc in
  well_grouped (fst fin) /\ Forall without_group (snd fin)
  /\ flat (fst fin) ++ snd fin ≡ₚ flat (fst acc) ++ snd acc ++ results.
Proof.
revert acc. induction results as [|r l IH]; intros acc Hw Hno; cbv zeta.
- cbn. rewrite app_nil_r. auto.
- cbn [fold_left].
  destruct (DataMatchValidationResult.group r) as [ [|c g]|] eqn:Hr.
  + destruct (IH (fst acc, snd acc ++ [r])) as (H1 & H2 & H3); [exact Hw| |].
    { cbn. apply Forall_app. split; [exact Hno|].
      constructor; [right; exact Hr|constructor]. }
    split; [exact H1|]. split; [exact H2|]. rewrite H3. cbn.
    rewrite <- !app_assoc. reflexivity.
  + destruct (group_append_spec (String c g) r (fst acc)) as [Hw' Hflat];
      [discriminate|exact Hr|exact Hw|].
    destruct (IH (group_append (String c g) r (fst acc), snd acc)) as (H1 & H2 & H3);
      [exact Hw'|exact Hno|].
    split; [exact H1|]. split; [exact H2|]. rewrite H3. cbn [fst snd].
    cbv beta in Hflat. rewrite Hflat. cbn.
    rewrite <- (Permutation_middle (snd acc) l r).
    rewrite <- (Permutation_middle (List.concat (List.map snd (fst acc))) _ r).
    reflexivity.
  + destruct (IH (fst acc, snd acc ++ [r])) as (H1 & H2 & H3); [exact Hw| |].
    { cbn. apply Forall_app. split; [exact Hno|].
      constructor; [left; exact Hr|constructor]. }
    split; [exact H1|]. split; [exact H2|]. rewrite H3. cbn.
    rewrite <- !app_assoc. reflexivity.
Qed.

Lemma split_by_group_spec (results : list TableResult) :
  well_grouped (fst (split_by_group results))
  /\ Forall without_group (snd (split_by_group results))
  /\ flat (fst (split_by_group results)) ++ snd (split_by_group results)
     ≡ₚ results.
Proof.
destruct (split_by_group_from results ([], [])) as (H1 & H2 & H3).
- split; [constructor|constructor].
- constructor.
- split; [exact H1|]. split; [exact H2|exact H3].
Qed.

(** Two dicts with the same group names, each list rearranged. *)
#[local] Abbreviation same_groups :=
  (Forall2 (fun e e' : string * list TableResult =>
              fst e' = fst e /\ snd e' ≡ₚ snd e)).

Lemma same_groups_spec (g g' : list (string * list TableResult)) :
  same_groups g g' ->
  List.map fst g' = List.map fst g /\ flat g' ≡ₚ flat g
  /\ (well_grouped g -> well_grouped g').
Proof.
intros Hs. induction Hs as [|e e' g g' [Hname Hitems] _ (IH1 & IH2 & IH3)].
- auto.
- cbn. rewrite Hname, IH1, IH2, Hitems. split; [reflexivity|].
  split; [reflexivity|]. intros [Hnd Hall]. cbn in Hnd.
  apply NoDup_cons in Hnd as [Hnotin Hnd].
  apply Forall_cons in Hall as [(Hne & Hnm & Hgrp) Hall].
  destruct (IH3 (conj Hnd Hall)) as [Hnd' Hall']. split.
  + cbn. rewrite Hname, IH1. apply NoDup_cons. split; assumption.
  + constructor; [|exact Hall']. rewrite Hname. split; [|split; [exact Hnm|] ].
    * intros E. rewrite E in Hitems. apply Permutation_nil_l in Hitems. congruence.
    * rewrite Hitems. exact Hgrp.
Qed.

Lemma map_groups_same (f : list TableResult -> outcome (list TableResult))
    (g g' : list (string * list TableResult)) :
  (forall items items', f items = Return items' -> items' ≡ₚ items) ->
  map_groups f g = Return g' -> same_groups g g'.
Proof.
intros Hf. revert g'. induction g as [|[name items] rest IH]; intros g' Hrun.
- cbn in Hrun. injection Hrun as <-. constructor.
- cbn in Hrun. destruct (f items) as [items'|e] eqn:Ef; [|discriminate Hrun].
  destruct (map_groups f rest) as [rest'|e]; [|discriminate Hrun].
  injection Hrun as <-. constructor; [|apply IH; reflexivity].
  cbn. split; [reflexivity|]. apply Hf. exact Ef.
Qed.

Lemma map_groups_returns (f : list TableResult -> outcome (list TableResult))
    (g : list (string * list TableResult)) :
  Forall (fun e => exists items', f (snd e) = Return items') g ->
  exists g', map_groups f g = Return g'.
Proof.
induction g as [|[name items] rest IH]; intros Hall.
- eexists. reflexivity.
- apply Forall_cons in Hall as [(items' & Hf) Hall]. cbn in Hf.
  destruct (IH Hall) as (rest' & Hrest). cbn. rewrite Hf, Hrest. eexists. reflexivity.
Qed.

Lemma sort_by_key_columns_length_perm (reverse : bool) (items items' : list TableResult) :
  sort_by_key_columns_length reverse items = Return items' -> items' ≡ₚ items.
Proof.
unfold sort_by_key_columns_length. destruct (forallb _ items); [|discriminate].
intros E. injection E as <-. apply stable_sort_perm.
Qed.

Lemma sort_by_source_table_perm (reverse : bool) (items items' : list TableResult) :
  sort_by_source_table reverse items = Return items' -> items' ≡ₚ items.
Proof.
unfold sort_by_source_table. destruct (_ || _); [|discriminate].
intros E. injection E as <-. apply stable_sort_perm.
Qed.

(** The results the validator builds carry a list of key columns and a
    source table name. *)
#[local] Abbreviation complete :=
  (fun r : TableResult =>
     is_Some (DataMatchValidationResult.key_columns r)
     /\ is_Some (DataMatchValidationResult.source_table r)).

Lemma sort_by_key_columns_length_returns (reverse : bool) (items : list TableResult) :
  Forall complete items ->
  exists items', sort_by_key_columns_length reverse items = Return items'.
Proof.
intros Hall. unfold sort_by_key_columns_length.
assert (E : forallb (fun x => bool_decide (is_Some (DataMatchValidationResult.key_columns x)))
                    items = true).
{ apply forallb_forall. intros x Hx. apply bool_decide_eq_true.
  rewrite Forall_forall in Hall. apply (Hall x). apply list_elem_of_In. exact Hx. }
rewrite E. eexists. reflexivity.
Qed.

Lemma sort_by_source_table_returns (reverse : bool) (items : list TableResult) :
  Forall complete items ->
  exists items', sort_by_source_table reverse items = Return items'.
Proof.
intros Hall. unfold sort_by_source_table.
assert (E : forallb (fun x => bool_decide (is_Some (DataMatchValidationResult.source_table x)))
                    items = true).
{ apply forallb_forall. intros x Hx. apply bool_decide_eq_true.
  rewrite Forall_forall in Hall. apply (Hall x). apply list_elem_of_In. exact Hx. }
rewrite E, orb_true_r. eexists. reflexivity.
Qed.

Lemma flat_entries (P : TableResult -> Prop) (g : list (string * list TableResult)) :
  Forall P (flat g) <-> Forall (fun e => Forall P (snd e)) g.
Proof.
cbv beta. induction g as [|e g IH]; cbn.
- split; constructor.
- rewrite Forall_app, Forall_cons, IH. reflexivity.
Qed.

Section Directives.

Variable name : string.
Variable step : bool -> list (string * list TableResult)
                -> outcome (list (string * list TableResult)).
Variable Inv : list (string * list TableResult) -> Prop.

Lemma for_directives_keeps (directives : list sort_directive)
    (g g' : list (string * list TableResult)) :
  (forall reverse g g', step reverse g = Return g' -> Inv g -> Inv g') ->
  for_directives name step directives g = Return g' -> Inv g -> Inv g'.
Proof.
intros Hstep. revert g. induction directives as [|d ds IH]; intros g Hrun Hg.
- cbn in Hrun. injection Hrun as <-. exact Hg.
- cbn in Hrun. destruct (is_by name d); [|exact (IH g Hrun Hg)].
  destruct (step (reverse_of d) g) as [g1|e] eqn:E; [|discriminate Hrun].
  exact (IH g1 Hrun (Hstep _ _ _ E Hg)).
Qed.

Lemma for_directives_returns (directives : list sort_directive)
    (g : list (string * list TableResult)) :
  (forall reverse g, Inv g -> exists g', step reverse g = Return g' /\ Inv g') ->
  Inv g ->
  exists g', for_directives name step directives g = Return g'.
Proof.
intros Hstep. revert g. induction directives as [|d ds IH]; intros g Hg.
- eexists. reflexivity.
- cbn. destruct (is_by name d); [|exact (IH g Hg)].
  destruct (Hstep (reverse_of d) g Hg) as (g1 & -> & Hg1). exact (IH g1 Hg1).
Qed.

End Directives.

(** The three sorting passes over the dict keep its groups: the names, the
    members of each group, and so the members of the whole. *)
#[local] Abbreviation keeps_groups :=
  (fun (g0 g : list (string * list TableResult)) =>
     (well_grouped g0 -> well_grouped g) /\ flat g ≡ₚ flat g0).

Lemma group_name_step_keeps (g0 : list (string * list TableResult))
    (reverse : bool) (g g' : list (string * list TableResult)) :
  Return (stable_sort (fun x y : string * list TableResult => String.leb (fst x) (fst y))
                      reverse g) = Return g' ->
  keeps_groups g0 g -> keeps_groups g0 g'.
Proof.
intros E [Hw Hf]. injection E as <-.
pose proof (stable_sort_perm
              (fun x y : string * list TableResult => String.leb (fst x) (fst y))
              reverse g) as Hp.
split.
- intros H0. eapply well_grouped_perm; [symmetry; exact Hp|]. apply Hw, H0.
- rewrite <- Hf. apply flat_perm. exact Hp.
Qed.

Lemma map_groups_step_keeps (f : list TableResult -> outcome (list TableResult))
    (g0 g g' : list (string * list TableResult)) :
  (forall items items', f items = Return items' -> items' ≡ₚ items) ->
  map_groups f g = Return g' -> keeps_groups g0 g -> keeps_groups g0 g'.
Proof.
intros Hf E [Hw Hflat].
destruct (same_groups_spec g g' (map_groups_same f g g' Hf E)) as (_ & H2 & H3).
split; [intros H0; apply H3, Hw, H0|]. rewrite H2. exact Hflat.
Qed.

(** The list the grouping starts from: the results after the two severity
    sorts. *)
#[local] Abbreviation severity_sorted :=
  (fun (settings : report_sorting_settings) (self : OverallValidation.t) =>
     sort_by_severity TableStatus.get_data_match_status (data_match_report settings)
       (sort_by_severity TableStatus.row_count_status (row_count_report settings)
          (data_match_validation_result self))).

Lemma sort_results_inv (settings : report_sorting_settings)
    (self self' : OverallValidation.t) :
  sort_results_and_add_data_match_validation_result_grouped settings self
  = Return self' ->
  let results := severity_sorted settings self in
  validation_id self' = validation_id self
  /\ schema_validation_results self'
     = (sort_by_severity SchemaValidationResult.status (schema_report settings)
          <$> schema_validation_results self)
  /\ ((results = [] /\ data_match_validation_result self' = []
       /\ data_match_validation_result_grouped self'
          = data_match_validation_result_grouped self)
      \/ (results <> []
          /\ exists g,
               keeps_groups (fst (split_by_group results)) g
               /\ data_match_validation_result self'
                  = flat g ++ snd (split_by_group results)
               /\ data_match_validation_result_grouped self'
                  = dict_set "_no_group_" (snd (split_by_group results)) g)).
Proof.
cbv zeta. unfold sort_results_and_add_data_match_validation_result_grouped.
intros Hrun.
assert (Hbody :
  match severity_sorted settings self with
  | [] =>
      Return (OverallValidation.mk (validation_id self)
                (sort_by_severity SchemaValidationResult.status (schema_report settings)
                   <$> schema_validation_results self)
                (severity_sorted settings self)
                (data_match_validation_result_grouped self))
  | _ =>
      let '(grouped, no_group) := split_by_group (severity_sorted settings self) in
      match
        for_directives "group_name"
          (fun reverse grouped =>
             Return (stable_sort
                       (fun x y : string * list TableResult =>
                          String.leb (fst x) (fst y)) reverse grouped))
          (detailed_data_match_report settings) grouped
      with
      | Raise e => Raise e
      | Return grouped =>
          match
            for_directives "key_columns_length"
              (fun reverse => map_groups (sort_by_key_columns_length reverse))
              (detailed_data_match_report settings) grouped
          with
          | Raise e => Raise e
          | Return grouped =>
              match
                for_directives "table_view_name"
                  (fun reverse => map_groups (sort_by_source_table reverse))
                  (detailed_data_match_report settings) grouped
              with
              | Raise e => Raise e
              | Return grouped =>
                  Return (OverallValidation.mk (validation_id self)
                            (sort_by_severity SchemaValidationResult.status
                               (schema_report settings)
                               <$> schema_validation_results self)
                            (List.concat (List.map snd grouped) ++ no_group)
                            (dict_set "_no_group_" no_group grouped))
              end
          end
      end
  end = Return self').
{ destruct (schema_validation_results self) as [schemas|];
    [exact Hrun|].
  destruct (existsb (is_by "severity_status") (schema_report settings));
    [discriminate Hrun|exact Hrun]. }
clear Hrun.
destruct (severity_sorted settings self) as [|r0 rs] eqn:Eres.
{ injection Hbody as <-. cbn. split; [reflexivity|]. split; [reflexivity|].
  left. auto. }
set (results := r0 :: rs) in *.
destruct (split_by_group results) as [grouped no_group] eqn:Esplit.
destruct (for_directives "group_name" _ _ grouped) as [g1|e] eqn:E1;
  [|discriminate Hbody].
destruct (for_directives "key_columns_length" _ _ g1) as [g2|e] eqn:E2;
  [|discriminate Hbody].
destruct (for_directives "table_view_name" _ _ g2) as [g3|e] eqn:E3;
  [|discriminate Hbody].
injection Hbody as <-. cbn. split; [reflexivity|]. split; [reflexivity|].
right. split; [discriminate|]. exists g3.
split; [|split; reflexivity].
assert (K1 : keeps_groups grouped g1).
{ eapply (for_directives_keeps _ _ (keeps_groups grouped)); [|exact E1|].
  - intros reverse g g'. apply group_name_step_keeps.
  - split; [auto|reflexivity]. }
assert (K2 : keeps_groups grouped g2).
{ eapply (for_directives_keeps _ _ (keeps_groups grouped)); [|exact E2|exact K1].
  intros reverse g g'. apply map_groups_step_keeps.
  apply sort_by_key_columns_length_perm. }
eapply (for_directives_keeps _ _ (keeps_groups grouped)); [|exact E3|exact K2].
intros reverse g g'. apply map_groups_step_keeps.
apply sort_by_source_table_perm.
Qed.

Lemma severity_sorted_perm (settings : report_sorting_settings)
    (self : OverallValidation.t) :
  severity_sorted settings self ≡ₚ data_match_validation_result self.
Proof. cbv beta. rewrite !sort_by_severity_perm. reflexivity. Qed.

Lemma map_groups_step_returns
    (f : bool -> list TableResult -> outcome (list TableResult)) :
  (forall reverse items items', f reverse items = Return items' -> items' ≡ₚ items) ->
  (forall reverse items, Forall complete items ->
     exists items', f reverse items = Return items') ->
  forall (reverse : bool) (g : list (string * list TableResult)),
    Forall complete (flat g) ->
    exists g', map_groups (f reverse) g = Return g' /\ Forall complete (flat g').
Proof.
intros Hperm Hret reverse g Hg.
destruct (map_groups_returns (f reverse) g) as (g' & Hrun).
{ apply flat_entries in Hg. eapply Forall_impl; [exact Hg|].
  cbn. intros e He. apply Hret. exact He. }
exists g'. split; [exact Hrun|].
destruct (same_groups_spec g g' (map_groups_same _ g g' (Hperm reverse) Hrun))
  as (_ & Hflat & _).
cbv beta in Hflat. rewrite Hflat. exact Hg.
Qed.

Lemma sort_results_returns (settings : report_sorting_settings)
    (self : OverallValidation.t) :
  (schema_validation_results self = None ->
   existsb (is_by "severity_status") (schema_report settings) = false) ->
  Forall complete (data_match_validation_result self) ->
  exists self',
    sort_results_and_add_data_match_validation_result_grouped settings self
    = Return self'.
Proof.
intros Hschema Hall.
unfold sort_results_and_add_data_match_validation_result_grouped.
assert (Hres : Forall complete (severity_sorted settings self))
  by (rewrite severity_sorted_perm; exact Hall).
cbv beta in Hres.
set (results := sort_by_severity TableStatus.get_data_match_status _ _) in *.
assert (Hbody : exists self',
  match results with
  | [] =>
      Return (OverallValidation.mk (validation_id self)
                (sort_by_severity SchemaValidationResult.status (schema_report settings)
                   <$> schema_validation_results self)
                results (data_match_validation_result_grouped self))
  | _ =>
      let '(grouped, no_group) := split_by_group results in
      match
        for_directives "group_name"
          (fun reverse grouped =>
             Return (stable_sort
                       (fun x y : string * list TableResult =>
                          String.leb (fst x) (fst y)) reverse grouped))
          (detailed_data_match_report settings) grouped
      with
      | Raise e => Raise e
      | Return grouped =>
          match
            for_directives "key_columns_length"
              (fun reverse => map_groups (sort_by_key_columns_length reverse))
              (detailed_data_match_report settings) grouped
          with
          | Raise e => Raise e
          | Return grouped =>
              match
                for_directives "table_view_name"
                  (fun reverse => map_groups (sort_by_source_table reverse))
                  (detailed_data_match_report settings) grouped
              with
              | Raise e => Raise e
              | Return grouped =>
                  Return (OverallValidation.mk (validation_id self)
                            (sort_by_severity SchemaValidationResult.status
                               (schema_report settings)
                               <$> schema_validation_results self)
                            (List.concat (List.map snd grouped) ++ no_group)
                            (dict_set "_no_group_" no_group grouped))
              end
          end
      end
  end = Return self').
{ destruct results as [|r0 rs] eqn:Eres; [eexists; reflexivity|].
  rewrite <- Eres in *. clear Eres.
  destruct (split_by_group_spec results) as (_ & _ & Hflat).
  destruct (split_by_group results) as [grouped no_group]. cbn [fst snd] in Hflat.
  assert (H0 : Forall complete (flat grouped)).
  { rewrite <- Hflat in Hres. apply Forall_app in Hres as [Hres _]. exact Hres. }
  assert (Hkeep : forall nm step directives g g',
            (forall reverse g g', step reverse g = Return g' ->
               Forall complete (flat g) -> Forall complete (flat g')) ->
            for_directives nm step directives g = Return g' ->
            Forall complete (flat g) -> Forall complete (flat g')).
  { intros nm step directives g g' Hstep.
    apply (for_directives_keeps nm step (fun g => Forall complete (flat g))).
    exact Hstep. }
  destruct (for_directives_returns "group_name"
              (fun reverse grouped =>
                 Return (stable_sort
                           (fun x y : string * list TableResult =>
                              String.leb (fst x) (fst y)) reverse grouped))
              (fun g => Forall complete (flat g))
              (detailed_data_match_report settings) grouped) as (g1 & E1).
  { intros reverse g Hg. eexists. split; [reflexivity|].
    rewrite (flat_perm _ g (stable_sort_perm _ reverse g)). exact Hg. }
  { exact H0. }
  assert (H1 : Forall complete (flat g1)).
  { eapply Hkeep; [|exact E1|exact H0].
    intros reverse g g' E Hg. injection E as <-.
    rewrite (flat_perm _ g (stable_sort_perm _ reverse g)). exact Hg. }
  rewrite E1.
  destruct (for_directives_returns "key_columns_length"
              (fun reverse => map_groups (sort_by_key_columns_length reverse))
              (fun g => Forall complete (flat g))
              (detailed_data_match_report settings) g1) as (g2 & E2).
  { apply (map_groups_step_returns sort_by_key_columns_length).
    - exact sort_by_key_columns_length_perm.
    - exact sort_by_key_columns_length_returns. }
  { exact H1. }
  assert (H2 : Forall complete (flat g2)).
  { eapply Hkeep; [|exact E2|exact H1].
    intros reverse g g' E Hg.
    destruct (same_groups_spec g g'
                (map_groups_same _ g g' (sort_by_key_columns_length_perm reverse) E))
      as (_ & Hf & _).
    cbv beta in Hf. rewrite Hf. exact Hg. }
  rewrite E2.
  destruct (for_directives_returns "table_view_name"
              (fun reverse => map_groups (sort_by_source_table reverse))
              (fun g => Forall complete (flat g))
              (detailed_data_match_report settings) g2) as (g3 & E3).
  { apply (map_groups_step_returns sort_by_source_table).
    - exact sort_by_source_table_perm.
    - exact sort_by_source_table_returns. }
  { exact H2. }
  rewrite E3. eexists. reflexivity. }
destruct (schema_validation_results self) as [schemas|] eqn:Es; [exact Hbody|].
rewrite (Hschema eq_refl). exact Hbody.
Qed.

Lemma status_of_list_perm {A : Type} (status_of : A -> Status) (l l' : list A) :
  l ≡ₚ l' -> status_of_list status_of l = status_of_list status_of l'.
Proof.
intros Hp.
destruct (status_of_list_cases status_of l) as (S1 & F1 & W1 & P1).
destruct (status_of_list_cases status_of l') as (S2 & F2 & W2 & P2).
assert (Hmem : forall r, r ∈ l <-> r ∈ l') by (intros r; rewrite Hp; reflexivity).
destruct (status_of_list status_of l).
- symmetry. apply P2. apply proj1 in P1. destruct (P1 eq_refl) as [Hne Hall].
  split; [|intros r Hr; apply Hall, Hmem, Hr].
  intros E. rewrite E in Hp. apply Permutation_nil_r in Hp. contradiction.
- symmetry. apply F2. apply proj1 in F1. destruct (F1 eq_refl) as (r & Hr & Hs).
  exists r. split; [apply Hmem, Hr|exact Hs].
- symmetry. apply W2. apply proj1 in W1. destruct (W1 eq_refl) as (Hall & r & Hr & Hs).
  split; [intros x Hx; apply Hall, Hmem, Hx|].
  exists r. split; [apply Hmem, Hr|exact Hs].
- symmetry. apply S2. apply proj1 in S1. rewrite (S1 eq_refl) in Hp.
  apply Permutation_nil_l in Hp. symmetry. exact Hp.
Qed.

(** Sorting and grouping rearranges the results and keeps the statuses. *)
Lemma sort_results_keeps (settings : report_sorting_settings)
    (self : OverallValidation.t) :
  (schema_validation_results self = None ->
   existsb (is_by "severity_status") (schema_report settings) = false) ->
  Forall complete (data_match_validation_result self) ->
  exists self',
    sort_results_and_add_data_match_validation_result_grouped settings self
    = Return self'
    /\ validation_id self' = validation_id self
    /\ data_match_validation_result self' ≡ₚ data_match_validation_result self
    /\ default [] (schema_validation_results self')
       ≡ₚ default [] (schema_validation_results self)
    /\ overall_status_table_result self' = overall_status_table_result self
    /\ overall_status_schema_result self' = overall_status_schema_result self
    /\ overall_status_row_count_result self' = overall_status_row_count_result self
    /\ overall_status_data_match_result self' = overall_status_data_match_result self
    /\ overall_status self' = overall_status self.
Proof.
intros Hschema Hall.
destruct (sort_results_returns settings self Hschema Hall) as (self' & Hrun).
exists self'. split; [exact Hrun|].
destruct (sort_results_inv settings self self' Hrun) as (Hid & Hsch & Hcase).
split; [exact Hid|].
assert (Hdata : data_match_validation_result self'
                ≡ₚ data_match_validation_result self).
{ rewrite <- (severity_sorted_perm settings self).
  destruct Hcase as [(E1 & E2 & _)|(_ & g & [_ Hflat] & E & _)].
  - cbv beta in E1. rewrite E1, E2. reflexivity.
  - rewrite E. destruct (split_by_group_spec (severity_sorted settings self))
      as (_ & _ & Hsplit).
    cbv beta in Hflat, Hsplit. rewrite Hflat. exact Hsplit. }
assert (Hschemas : default [] (schema_validation_results self')
                   ≡ₚ default [] (schema_validation_results self)).
{ rewrite Hsch. destruct (schema_validation_results self); [|reflexivity].
  cbn. apply sort_by_severity_perm. }
split; [exact Hdata|]. split; [exact Hschemas|].
assert (Et : overall_status_table_result self' = overall_status_table_result self).
{ change (status_of_list DataMatchValidationResult.status
            (data_match_validation_result self')
          = status_of_list DataMatchValidationResult.status
              (data_match_validation_result self)).
  apply status_of_list_perm. exact Hdata. }
assert (Es : overall_status_schema_result self' = overall_status_schema_result self).
{ apply status_of_list_perm. exact Hschemas. }
split; [exact Et|]. split; [exact Es|].
split; [apply status_of_list_perm; exact Hdata|].
split; [apply status_of_list_perm; exact Hdata|].
unfold overall_status. rewrite Et, Es. reflexivity.
Qed.

(** X13: sorting and grouping never loses or repeats a result.  For a run
    whose table results carry their key columns and source table (and whose
    schema results exist when they are to be sorted) the function returns;
    the table results and the schema results it returns are rearrangements
    of the given ones, and every overall status of the run is unchanged. *)
Theorem sort_results_keeps_results (settings : report_sorting_settings)
    (self : OverallValidation.t) :
  (schema_validation_results self = None ->
   existsb (is_by "severity_status") (schema_report settings) = false) ->
  Forall complete (data_match_validation_result self) ->
  exists self',
    sort_results_and_add_data_match_validation_result_grouped settings self
    = Return self'
    /\ validation_id self' = validation_id self
    /\ data_match_validation_result self' ≡ₚ data_match_validation_result self
    /\ default [] (schema_validation_results self')
       ≡ₚ default [] (schema_validation_results self)
    /\ overall_status_table_result self' = overall_status_table_result self
    /\ overall_status_schema_result self' = overall_status_schema_result self
    /\ overall_status_row_count_result self' = overall_status_row_count_result self
    /\ overall_status_data_match_result self' = overall_status_data_match_result self
    /\ overall_status self' = overall_status self.
Proof. apply sort_results_keeps. Qed.

(** X14: when there are table results, the returned list is the groups one
    after the other, then the results without a group.  The group names are
    different and not empty, every group holds exactly results of its name,
    and the dict of groups holds these groups with the results without a
    group under the key [_no_group_]. *)
Theorem sort_results_groups (settings : report_sorting_settings)
    (self self' : OverallValidation.t) :
  sort_results_and_add_data_match_validation_result_grouped settings self
  = Return self' ->
  data_match_validation_result self <> [] ->
  exists groups no_group,
    data_match_validation_result self' = flat groups ++ no_group
    /\ well_grouped groups
    /\ Forall without_group no_group
    /\ data_match_validation_result_grouped self'
       = dict_set "_no_group_" no_group groups.
Proof.
intros Hrun Hne.
destruct (sort_results_inv settings self self' Hrun) as (_ & _ & Hcase).
destruct Hcase as [(E & _)|(_ & g & [Hw _] & Edata & Egrouped)].
- exfalso. apply Hne. pose proof (severity_sorted_perm settings self) as Hp.
  cbv beta in E, Hp. rewrite E in Hp. apply Permutation_nil_l in Hp.
  symmetry. exact Hp.
- destruct (split_by_group_spec (severity_sorted settings self)) as (H1 & H2 & _).
  exists g, (snd (split_by_group (severity_sorted settings self))).
  split; [exact Edata|]. split; [apply Hw, H1|]. split; [exact H2|exact Egrouped].
Qed.

Lemma dict_get_set {V : Type} (key : string) (value : V) (d : list (string * V)) :
  dict_get key (dict_set key value d) = Some value.
Proof.
induction d as [|[k v] d IH]; cbn.
- rewrite String.eqb_refl. reflexivity.
- destruct (String.eqb k key) eqn:E; cbn; rewrite E; [reflexivity|exact IH].
Qed.

Lemma dict_set_entries {V : Type} (key : string) (value : V) (d : list (string * V))
    (k : string) (v : V) :
  NoDup (List.map fst d) ->
  (k, v) ∈ dict_set key value d ->
  (k = key /\ v = value) \/ ((k, v) ∈ d /\ k <> key).
Proof.
induction d as [|[k0 v0] d IH]; cbn; intros Hnd Hin.
- apply list_elem_of_singleton in Hin. injection Hin as -> ->. auto.
- apply NoDup_cons in Hnd as [Hfresh Hnd].
  destruct (String.eqb_spec k0 key) as [->|Hne].
  + apply elem_of_cons in Hin as [Hin|Hin]; [injection Hin as -> ->; auto|].
    right. split; [right; exact Hin|]. intros ->. apply Hfresh.
    apply (list_elem_of_fmap_2 fst) in Hin. exact Hin.
  + apply elem_of_cons in Hin as [Hin|Hin].
    * injection Hin as -> ->. right. split; [left|exact Hne].
    * destruct (IH Hnd Hin) as [H1|[H1 H2] ]; [auto|].
      right. split; [right; exact H1|exact H2].
Qed.

(** X15: the entry [_no_group_] of the dict of groups always holds the
    results without a group.  A result whose group is itself named
    [_no_group_] is still in the returned list, but it is in no entry of the
    dict: the entry of its group is overwritten. *)
Theorem group_named_no_group_is_overwritten (settings : report_sorting_settings)
    (self self' : OverallValidation.t) :
  sort_results_and_add_data_match_validation_result_grouped settings self
  = Return self' ->
  data_match_validation_result self <> [] ->
  exists no_group,
    dict_get "_no_group_" (data_match_validation_result_grouped self') = Some no_group
    /\ Forall without_group no_group
    /\ forall r,
         r ∈ data_match_validation_result self ->
         DataMatchValidationResult.group r = Some "_no_group_" ->
         r ∈ data_match_validation_result self'
         /\ forall name items,
              (name, items) ∈ data_match_validation_result_grouped self' ->
              r ∉ items.
Proof.
intros Hrun Hne.
destruct (sort_results_inv settings self self' Hrun) as (_ & _ & Hcase).
destruct Hcase as [(E & _)|(_ & g & [Hw Hflat] & Edata & Egrouped)].
{ exfalso. apply Hne. pose proof (severity_sorted_perm settings self) as Hp.
  cbv beta in E, Hp. rewrite E in Hp. apply Permutation_nil_l in Hp.
  symmetry. exact Hp. }
destruct (split_by_group_spec (severity_sorted settings self)) as (H1 & H2 & H3).
destruct (Hw H1) as [Hnd Hall].
exists (snd (split_by_group (severity_sorted settings self))).
split; [rewrite Egrouped; apply dict_get_set|]. split; [exact H2|].
intros r Hr Hgroup. split.
- rewrite Edata. cbv beta in Hflat, H3. rewrite Hflat, H3.
  rewrite (severity_sorted_perm settings self). exact Hr.
- intros name items Hentry Hin. rewrite Egrouped in Hentry.
  destruct (dict_set_entries _ _ _ _ _ Hnd Hentry) as [ [_ ->]|[Hentry' Hname] ].
  + rewrite Forall_forall in H2. destruct (H2 r Hin) as [E|E]; congruence.
  + rewrite Forall_forall in Hall. destruct (Hall _ Hentry') as (_ & _ & Hitems).
    cbn in Hitems. rewrite Forall_forall in Hitems.
    specialize (Hitems r Hin). congruence.
Qed.

End SortResults.

(** ** Compatible column types *)

Section TypeCompatibility.

Import PyText SchemaValidator DataTypesCompatibleResult.

Lemma append_cons (c : ascii) (a b : string) :
  String c a +:+ b = String c (a +:+ b).
Proof. reflexivity. Qed.

Lemma append_nil (b : string) : "" +:+ b = b.
Proof. reflexivity. Qed.

Lemma upper_app (a b : string) : upper (a +:+ b) = upper a +:+ upper b.
Proof.
induction a as [|c a IH]; [reflexivity|].
rewrite append_cons. cbn [upper]. rewrite append_cons, IH. reflexivity.
Qed.

Lemma upper_char_idemp (c : ascii) : upper_char (upper_char c) = upper_char c.
Proof.
destruct c as [ [|] [|] [|] [|] [|] [|] [|] [|] ]; vm_compute; reflexivity.
Qed.

Lemma upper_idemp (s : string) : upper (upper s) = upper s.
Proof.
induction s as [|c s IH]; [reflexivity|]. cbn. rewrite upper_char_idemp, IH.
reflexivity.
Qed.

Lemma prefix_app (x y : string) : String.prefix x (x +:+ y) = true.
Proof.
induction x as [|c x IH].
- destruct y; reflexivity.
- rewrite append_cons. cbn [String.prefix].
  destruct (ascii_dec c c); [exact IH|contradiction].
Qed.

Lemma contains_prefix (x s : string) : String.prefix x s = true -> contains x s = true.
Proof. intros Hp. destruct s; cbn [contains]; rewrite Hp; reflexivity. Qed.

Lemma contains_app (x p q : string) : contains x (p +:+ x +:+ q) = true.
Proof.
induction p as [|c p IH].
- rewrite append_nil. apply contains_prefix, prefix_app.
- rewrite append_cons. cbn [contains]. rewrite IH. apply orb_true_r.
Qed.

(** The result and the issue of a check agree: PASS comes without an issue,
    WARNING and FAIL with an issue of that severity; SKIP never comes. *)
Lemma are_types_compatible_issue (source_type target_type : string) :
  match result (_are_types_compatible source_type target_type) with
  | PASS => issue (_are_types_compatible source_type target_type) = None
  | SKIP => False
  | s => exists i, issue (_are_types_compatible source_type target_type) = Some i
                   /\ ValidationIssue.severity i = s
  end.
Proof.
unfold _are_types_compatible.
repeat match goal with |- context [if ?b then _ else _] => destruct b end;
  cbn; eauto.
Qed.

(** X16: the check ignores the case of the type names, passes two names
    that differ in case only, and passes every pair of the PASS table
    whatever surrounds the base type in the source type and whatever follows
    the compatible type in the target type (a length, a collation). *)
Theorem are_types_compatible_pass (source_type target_type : string) :
  _are_types_compatible source_type target_type
  = _are_types_compatible (upper source_type) (upper target_type)
  /\ (upper source_type = upper target_type ->
      result (_are_types_compatible source_type target_type) = PASS)
  /\ (forall base_type compatible_types comp_type before after rest b c,
        (base_type, compatible_types) ∈ COLUMN_TYPE_COMPATIBLE_MAPPINGS_PASS ->
        comp_type ∈ compatible_types ->
        upper b = base_type -> upper c = comp_type ->
        source_type = before +:+ b +:+ after -> target_type = c +:+ rest ->
        result (_are_types_compatible source_type target_type) = PASS).
Proof.
split; [|split].
- unfold _are_types_compatible. rewrite !upper_idemp. reflexivity.
- intros E. unfold _are_types_compatible. rewrite E, String.eqb_refl. reflexivity.
- intros base_type compatible_types comp_type before after rest b c
         Hentry Hcomp Hb Hc -> ->.
  unfold _are_types_compatible.
  destruct (String.eqb _ _); [reflexivity|].
  assert (Hlisted : listed COLUMN_TYPE_COMPATIBLE_MAPPINGS_PASS
                           (upper (before +:+ b +:+ after)) (upper (c +:+ rest))
                    = true).
  { unfold listed. apply existsb_exists. exists (base_type, compatible_types).
    split; [apply list_elem_of_In; exact Hentry|]. cbn [fst snd].
    rewrite !upper_app, Hb, Hc, contains_app. cbn [andb].
    apply existsb_exists. exists comp_type.
    split; [apply list_elem_of_In; exact Hcomp|]. apply prefix_app. }
  rewrite Hlisted. reflexivity.
Qed.

End TypeCompatibility.

(** ** Schema validation of one mapping *)

Section SingleSchema.

Import ValidationStatus ValidationIssue SchemaValidator.

Variable set_iter : list string -> list string.
Hypothesis set_iter_admissible : TableMapping.admissible set_iter.

Lemma insert_sorted_perm (x : string) (l : list string) :
  TableMapping.insert_sorted x l ≡ₚ x :: l.
Proof.
induction l as [|y l IH]; [reflexivity|]. cbn.
destruct (String.leb x y); [reflexivity|]. rewrite IH. apply Permutation_swap.
Qed.

Lemma sorted_perm (l : list string) : TableMapping.sorted l ≡ₚ l.
Proof.
unfold TableMapping.sorted. induction l as [|x l IH]; [reflexivity|].
cbn. rewrite insert_sorted_perm, IH. reflexivity.
Qed.

Lemma sorted_names_elem (names : gset string) (x : string) :
  x ∈ sorted_names names <-> x ∈ names.
Proof. unfold sorted_names. rewrite sorted_perm. apply elem_of_elements. Qed.

Lemma sorted_names_nil (names : gset string) :
  sorted_names names = [] <-> names = ∅.
Proof.
split.
- intros E. apply leibniz_equiv. apply elem_of_equiv_empty. intros x Hx.
  apply sorted_names_elem in Hx. rewrite E in Hx. inversion Hx.
- intros ->. reflexivity.
Qed.

Lemma common_columns_elem (names : gset string) (x : string) :
  x ∈ set_iter (elements names) <-> x ∈ names.
Proof.
destruct (set_iter_admissible (elements names)) as [_ Hmem].
rewrite Hmem. apply elem_of_elements.
Qed.

(** Every entry of the type check carries an issue, WARNING or FAIL, and
    stands for a common column whose check did not pass. *)
Lemma check_types_entries (source_columns target_columns : gmap string string)
    (common_columns : list string) (entry : (string * string * string) * option Issue) :
  entry ∈ check_types source_columns target_columns common_columns <->
  exists col,
    col ∈ common_columns
    /\ entry
       = ((col, default "" (source_columns !! col), default "" (target_columns !! col)),
          DataTypesCompatibleResult.issue
            (_are_types_compatible (default "" (source_columns !! col))
                                   (default "" (target_columns !! col))))
    /\ DataTypesCompatibleResult.result
         (_are_types_compatible (default "" (source_columns !! col))
                                (default "" (target_columns !! col))) <> PASS.
Proof.
unfold check_types. rewrite list_elem_of_In, in_flat_map. split.
- intros (col & Hcol & Hin). exists col. apply list_elem_of_In in Hcol.
  split; [exact Hcol|]. case_bool_decide as Hres; [inversion Hin|].
  destruct Hin as [<-|[] ]. split; [reflexivity|exact Hres].
- intros (col & Hcol & -> & Hres). exists col.
  split; [apply list_elem_of_In; exact Hcol|].
  rewrite bool_decide_eq_false_2 by exact Hres. left. reflexivity.
Qed.

Lemma check_types_issues (source_columns target_columns : gmap string string)
    (common_columns : list string) :
  exists issues,
    List.map snd (check_types source_columns target_columns common_columns)
    = List.map Some issues
    /\ Forall (fun i => severity i = WARNING \/ severity i = FAIL) issues
    /\ (Exists (fun i => severity i = FAIL) issues
        <-> exists col,
              col ∈ common_columns
              /\ DataTypesCompatibleResult.result
                   (_are_types_compatible (default "" (source_columns !! col))
                                          (default "" (target_columns !! col)))
                 = FAIL).
Proof.
unfold check_types. induction common_columns as [|col rest IH].
- exists []. cbn. split; [reflexivity|]. split; [constructor|].
  split; [intros Hex; inversion Hex|intros (col & Hcol & _); inversion Hcol].
- destruct IH as (issues & Hmap & Hall & Hex). cbn [flat_map].
  pose proof (are_types_compatible_issue (default "" (source_columns !! col))
                                         (default "" (target_columns !! col))) as Hi.
  destruct (decide (DataTypesCompatibleResult.result
                      (_are_types_compatible (default "" (source_columns !! col))
                                             (default "" (target_columns !! col)))
                    = PASS)) as [Hpass|Hnot].
  + rewrite (bool_decide_eq_true_2 _ Hpass). cbn [app].
    exists issues. split; [exact Hmap|]. split; [exact Hall|].
    rewrite Hex. split.
    * intros (c & Hc & Hr). exists c. split; [right; exact Hc|exact Hr].
    * intros (c & Hc & Hr). apply elem_of_cons in Hc as [->|Hc]; [congruence|].
      exists c. split; assumption.
  + rewrite (bool_decide_eq_false_2 _ Hnot). cbn [app List.map snd].
    destruct (DataTypesCompatibleResult.result _) eqn:Eres;
      [congruence| | |contradiction].
    * destruct Hi as (i & Hi & Hsev). exists (i :: issues). cbn [List.map].
      rewrite Hi, Hmap. split; [reflexivity|].
      split; [constructor; [right; exact Hsev|exact Hall] |].
      split; [intros _; exists col; split; [left|exact Eres] |].
      intros _. apply Exists_cons_hd. exact Hsev.
    * destruct Hi as (i & Hi & Hsev). exists (i :: issues). cbn [List.map].
      rewrite Hi, Hmap. split; [reflexivity|].
      split; [constructor; [left; exact Hsev|exact Hall] |].
      rewrite Exists_cons, Hex. split.
      -- intros [Hf|(c & Hc & Hr)]; [congruence|].
         exists c. split; [right; exact Hc|exact Hr].
      -- intros (c & Hc & Hr). apply elem_of_cons in Hc as [->|Hc]; [congruence|].
         right. exists c. split; assumption.
Qed.

Lemma merge_type_issues_spec (issues : list Issue)
    (severity0 status0 : Status) (validation_issues : list Issue) :
  exists validation_issues',
    merge_type_issues (List.map Some issues) (severity0, status0, validation_issues)
    = Return (fold_left raise_status_level_to (List.map severity issues) severity0,
              fold_left raise_status_level_to (List.map severity issues) status0,
              validation_issues').
Proof.
revert severity0 status0 validation_issues.
induction issues as [|i issues IH]; intros severity0 status0 validation_issues.
- eexists. reflexivity.
- cbn. apply IH.
Qed.

Lemma inspect_side_cases (exist : bool) (query : outcome (list (string * string)))
    (columns : gmap string string) (missing no_columns : Issue) :
  _get_table_columns query = Return columns ->
  inspect_side exist query missing no_columns
  = Return (if negb exist then ([missing], ∅)
            else if bool_decide (columns = ∅) then ([no_columns], ∅)
            else ([], columns)).
Proof.
intros Hq. unfold inspect_side. destruct exist; cbn; [|reflexivity].
rewrite Hq. case_bool_decide; reflexivity.
Qed.

(** The status after the three findings, by what was found. *)
Lemma schema_status_cases (extra_nil missing_nil : bool) (issues : list Issue) :
  Forall (fun i => severity i = WARNING \/ severity i = FAIL) issues ->
  let st1 := if extra_nil then PASS else raise_status_level_to PASS WARNING in
  let st2 := if missing_nil then st1 else raise_status_level_to st1 FAIL in
  let final :=
    match issues with
    | [] => st2
    | _ => fold_left raise_status_level_to (List.map severity issues)
                     (raise_status_level_to st2 WARNING)
    end in
  final <> SKIP
  /\ (final = PASS <-> extra_nil = true /\ missing_nil = true /\ issues = [])
  /\ (final = FAIL
      <-> missing_nil = false \/ Exists (fun i => severity i = FAIL) issues).
Proof.
intros Hsev. cbv zeta.
assert (Hex : Exists (fun i => severity i = FAIL) issues
              <-> existsb (fun s => bool_decide (s = FAIL)) (List.map severity issues)
                  = true).
{ rewrite existsb_exists. split.
  - intros Hex. apply Exists_exists in Hex as (i & Hi & Hf). exists (severity i).
    split; [apply in_map, list_elem_of_In, Hi|apply bool_decide_eq_true; exact Hf].
  - intros (st & Hin & Hf). apply in_map_iff in Hin as (i & <- & Hi).
    apply Exists_exists. exists i. split; [apply list_elem_of_In, Hi|].
    apply bool_decide_eq_true in Hf. exact Hf. }
destruct issues as [|i issues].
- destruct extra_nil, missing_nil; vm_compute; repeat split;
    try discriminate; try tauto; try (intros [E|E]; [discriminate E|inversion E]);
    try (intros (E1 & E2 & E3); discriminate); auto.
- assert (Hst : raise_status_level_to
                  (if missing_nil
                   then if extra_nil then PASS else raise_status_level_to PASS WARNING
                   else raise_status_level_to
                          (if extra_nil then PASS else raise_status_level_to PASS WARNING)
                          FAIL) WARNING
                = if missing_nil then WARNING else FAIL)
    by (destruct extra_nil, missing_nil; vm_compute; reflexivity).
  rewrite Hst, fold_raise_cases by (destruct missing_nil; discriminate).
  rewrite Hex.
  destruct (existsb (fun s => bool_decide (s = FAIL)) (List.map severity (i :: issues)))
    eqn:Ef.
  + rewrite orb_true_r. split; [discriminate|].
    split; [split; [discriminate|intros (_ & _ & E); discriminate] |].
    split; auto.
  + rewrite orb_false_r. destruct missing_nil; cbn.
    * split; [discriminate|].
      split; [split; [discriminate|intros (_ & _ & E); discriminate] |].
      split; [discriminate|intros [E|E]; discriminate].
    * split; [discriminate|].
      split; [split; [discriminate|intros (_ & E & _); discriminate] |].
      split; auto.
Qed.

(** The schema check of one mapping, by what the inspector answers. *)
Lemma validate_single_schema_cases (mapping : Mapping) (io : Probe)
    (source_columns target_columns : gmap string string) :
  _get_table_columns (source_columns_query io) = Return source_columns ->
  _get_table_columns (target_columns_query io) = Return target_columns ->
  let type_check col :=
    DataTypesCompatibleResult.result
      (_are_types_compatible (default "" (source_columns !! col))
                             (default "" (target_columns !! col))) in
  exists r,
    _validate_single_schema set_iter mapping io = Return r
    /\ SchemaValidationResult.source_table_name r = TableMapping.source_table mapping
    /\ SchemaValidationResult.target_table_name r = TableMapping.target_table mapping
    /\ SchemaValidationResult.status r <> SKIP
    /\ (SchemaValidationResult.status r = PASS
        <-> is_Some (source_lookup io) /\ is_Some (target_lookup io)
            /\ source_columns <> ∅
            /\ dom source_columns = dom target_columns
            /\ forall col, col ∈ dom source_columns -> type_check col = PASS)
    /\ (SchemaValidationResult.status r = PASS ->
        SchemaValidationResult.validation_issues r = [])
    /\ (SchemaValidationResult.status r = FAIL
        <-> source_lookup io = None \/ target_lookup io = None
            \/ source_columns = ∅ \/ target_columns = ∅
            \/ (exists col, col ∈ dom source_columns /\ col ∉ dom target_columns)
            \/ (exists col, col ∈ dom source_columns /\ col ∈ dom target_columns
                            /\ type_check col = FAIL)).
Proof.
intros Hsrc Htgt. cbv zeta. unfold _validate_single_schema.
rewrite (inspect_side_cases _ _ _ _ _ Hsrc), (inspect_side_cases _ _ _ _ _ Htgt).
assert (Hdom : forall m : gmap string string, dom m = (∅ : gset string) <-> m = ∅).
{ intros m. split; [apply dom_empty_inv_L|intros ->; apply dom_empty_L]. }
destruct (source_lookup io) as [sk|] eqn:Esl; cbn [negb bool_decide];
  [rewrite (bool_decide_eq_true_2 (is_Some (Some sk))) by eauto
  |rewrite (bool_decide_eq_false_2 (is_Some None)) by (intros [? ?]; discriminate)];
  cbn [negb].
2: { (* the source table is missing *)
  destruct (if negb (bool_decide (is_Some (target_lookup io))) then _ else _)
    as [target_issues tcols].
  eexists. split; [reflexivity|]. cbn. split; [reflexivity|]. split; [reflexivity|]. split; [discriminate|].
  split; [split; [discriminate|intros ([? ?] & _); discriminate] |].
  split; [discriminate|]. split; [auto|reflexivity]. }
destruct (decide (source_columns = ∅)) as [Hse|Hse].
{ rewrite (bool_decide_eq_true_2 _ Hse).
  destruct (if negb (bool_decide (is_Some (target_lookup io))) then _ else _)
    as [target_issues tcols].
  eexists. split; [reflexivity|]. cbn. split; [reflexivity|]. split; [reflexivity|]. split; [discriminate|].
  split; [split; [discriminate|intros (_ & _ & Hne & _); contradiction] |].
  split; [discriminate|]. split; [auto|reflexivity]. }
rewrite (bool_decide_eq_false_2 _ Hse).
destruct (target_lookup io) as [tk|] eqn:Etl; cbn [negb bool_decide];
  [rewrite (bool_decide_eq_true_2 (is_Some (Some tk))) by eauto
  |rewrite (bool_decide_eq_false_2 (is_Some None)) by (intros [? ?]; discriminate)];
  cbn [negb].
2: { eexists. split; [reflexivity|]. cbn. split; [reflexivity|]. split; [reflexivity|]. split; [discriminate|].
  split; [split; [discriminate|intros (_ & [? ?] & _); discriminate] |].
  split; [discriminate|]. split; [auto|reflexivity]. }
destruct (decide (target_columns = ∅)) as [Hte|Hte].
{ rewrite (bool_decide_eq_true_2 _ Hte).
  eexists. split; [reflexivity|]. cbn. split; [reflexivity|]. split; [reflexivity|]. split; [discriminate|].
  split; [split; [discriminate|] |].
  { intros (_ & _ & _ & Hd & _). exfalso. apply Hse, Hdom.
    rewrite Hd, Hte. apply dom_empty_L. }
  split; [discriminate|]. split; [auto 6|reflexivity]. }
rewrite (bool_decide_eq_false_2 _ Hte). cbn [app].
(* both tables show columns *)
set (S := dom source_columns : gset string).
set (T := dom target_columns : gset string).
destruct (check_types_issues source_columns target_columns
            (set_iter (elements (S ∩ T)))) as (issues & Hmap & Hsev & Hfail).
assert (Hnone : issues = []
                <-> forall col, col ∈ S -> col ∈ T ->
                      DataTypesCompatibleResult.result
                        (_are_types_compatible (default "" (source_columns !! col))
                                               (default "" (target_columns !! col)))
                      = PASS).
{ split.
  - intros E col HS HT.
    destruct (decide (DataTypesCompatibleResult.result
                        (_are_types_compatible (default "" (source_columns !! col))
                                               (default "" (target_columns !! col)))
                      = PASS)) as [Hp|Hn]; [exact Hp|].
    exfalso.
    assert (Hin : ((col, default "" (source_columns !! col),
                    default "" (target_columns !! col)),
                   DataTypesCompatibleResult.issue
                     (_are_types_compatible (default "" (source_columns !! col))
                                            (default "" (target_columns !! col))))
                  ∈ check_types source_columns target_columns
                      (set_iter (elements (S ∩ T)))).
    { apply check_types_entries. exists col. split; [|split; [reflexivity|exact Hn] ].
      apply common_columns_elem, elem_of_intersection. split; assumption. }
    rewrite E in Hmap. destruct (check_types _ _ _); [inversion Hin|discriminate Hmap].
  - intros Hall. destruct issues as [|i issues]; [reflexivity|]. exfalso.
    destruct (check_types source_columns target_columns
                (set_iter (elements (S ∩ T)))) as [|entry rest] eqn:E;
      [discriminate Hmap|].
    assert (Hin : entry ∈ check_types source_columns target_columns
                            (set_iter (elements (S ∩ T))))
      by (rewrite E; left).
    apply check_types_entries in Hin as (col & Hcol & _ & Hn).
    apply common_columns_elem, elem_of_intersection in Hcol as [HS HT].
    exact (Hn (Hall col HS HT)). }
assert (Hfail' : Exists (fun i => severity i = FAIL) issues
                 <-> exists col, col ∈ S /\ col ∈ T
                       /\ DataTypesCompatibleResult.result
                            (_are_types_compatible
                               (default "" (source_columns !! col))
                               (default "" (target_columns !! col))) = FAIL).
{ rewrite Hfail. split; intros (col & Hcol & Hres); exists col.
  - apply common_columns_elem, elem_of_intersection in Hcol as [HS HT]. auto.
  - destruct Hres as (HT & Hres).
    split; [apply common_columns_elem, elem_of_intersection; auto|exact Hres]. }
assert (Hmissing : sorted_names (S ∖ T) = [] <-> S ⊆ T).
{ rewrite sorted_names_nil. split.
  - intros E x HS. destruct (decide (x ∈ T)) as [HT|HT]; [exact HT|].
    exfalso. assert (Hx : x ∈ S ∖ T) by (apply elem_of_difference; auto).
    rewrite E in Hx. exact (not_elem_of_empty x Hx).
  - intros Hsub. apply leibniz_equiv, elem_of_equiv_empty. intros x Hx.
    apply elem_of_difference in Hx as [HS HT]. exact (HT (Hsub x HS)). }
assert (Hextra : sorted_names (T ∖ S) = [] <-> T ⊆ S).
{ rewrite sorted_names_nil. split.
  - intros E x HT. destruct (decide (x ∈ S)) as [HS|HS]; [exact HS|].
    exfalso. assert (Hx : x ∈ T ∖ S) by (apply elem_of_difference; auto).
    rewrite E in Hx. exact (not_elem_of_empty x Hx).
  - intros Hsub. apply leibniz_equiv, elem_of_equiv_empty. intros x Hx.
    apply elem_of_difference in Hx as [HT HS]. exact (HS (Hsub x HT)). }
assert (Hsub : ~ S ⊆ T <-> exists col, col ∈ S /\ col ∉ T).
{ split.
  - intros Hn. destruct (sorted_names (S ∖ T)) as [|m ms] eqn:Em.
    + exfalso. apply Hn, Hmissing. reflexivity.
    + exists m. assert (Hm : m ∈ sorted_names (S ∖ T)) by (rewrite Em; left).
      apply sorted_names_elem, elem_of_difference in Hm. exact Hm.
  - intros (col & HS & HT) Hs. exact (HT (Hs col HS)). }
assert (Heq : S = T <-> T ⊆ S /\ S ⊆ T).
{ split; [intros ->; split; reflexivity|].
  intros [H1 H2]. apply leibniz_equiv. intros x. split; [apply H2|apply H1]. }
(* the three findings decide the status *)
pose proof (schema_status_cases
              (bool_decide (sorted_names (T ∖ S) = []))
              (bool_decide (sorted_names (S ∖ T) = [])) issues Hsev) as Hst.
cbv zeta in Hst.
assert (Hshape :
  exists r,
    (let '(validate_schema_status, validation_issues) :=
       match sorted_names (T ∖ S) with
       | [] => (PASS, [])
       | _ :: _ =>
           (raise_status_level_to PASS WARNING,
            [] ++ [plain_issue "extra_columns_in_target"
               ("Target table "
                  +:+ ("'" +:+ TableMapping.str_of (TableMapping.target_table mapping)
                         +:+ "'")
                  +:+ " has extra " +:+ len_text (sorted_names (T ∖ S))
                  +:+ " column(s) not in the source table.")
               WARNING])
       end in
     let '(validate_schema_status0, validation_issues0) :=
       match sorted_names (S ∖ T) with
       | [] => (validate_schema_status, validation_issues)
       | _ :: _ =>
           (raise_status_level_to validate_schema_status FAIL,
            validation_issues
              ++ [plain_issue "missing_columns_in_target"
                    (len_text (sorted_names (S ∖ T))
                       +:+ " column(s) is(are) missing in target table "
                       +:+ ("'" +:+ TableMapping.str_of (TableMapping.target_table mapping)
                              +:+ "'"))
                    FAIL])
       end in
     match List.map fst (check_types source_columns target_columns
                           (set_iter (elements (S ∩ T)))) with
     | [] =>
         Return
           {| SchemaValidationResult.source_table_name :=
                TableMapping.source_table mapping;
              SchemaValidationResult.target_table_name :=
                TableMapping.target_table mapping;
              SchemaValidationResult.status := validate_schema_status0;
              SchemaValidationResult.validation_issues := validation_issues0;
              SchemaValidationResult.source_col_names := sorted_names S;
              SchemaValidationResult.target_col_names := sorted_names T;
              SchemaValidationResult.missing_columns := Some (sorted_names (S ∖ T));
              SchemaValidationResult.extra_columns := Some (sorted_names (T ∖ S));
              SchemaValidationResult.type_mismatches :=
                Some (List.map fst (check_types source_columns target_columns
                                      (set_iter (elements (S ∩ T)))));
              SchemaValidationResult.source_table_or_view := kind_name <$> Some sk;
              SchemaValidationResult.target_table_or_view := kind_name <$> Some tk |}
     | _ :: _ =>
         match
           merge_type_issues
             (List.map snd (check_types source_columns target_columns
                              (set_iter (elements (S ∩ T)))))
             (WARNING, raise_status_level_to validate_schema_status0 WARNING,
              validation_issues0)
         with
         | Return (severity0, validate_schema_status1, validation_issues1) =>
             Return
               {| SchemaValidationResult.source_table_name :=
                    TableMapping.source_table mapping;
                  SchemaValidationResult.target_table_name :=
                    TableMapping.target_table mapping;
                  SchemaValidationResult.status := validate_schema_status1;
                  SchemaValidationResult.validation_issues :=
                    validation_issues1
                      ++ [plain_issue "type_mismatches_columns"
                            (len_text
                               (List.map fst
                                  (check_types source_columns target_columns
                                     (set_iter (elements (S ∩ T)))))
                               +:+ " column type mismatches found between source and target tables "
                               +:+ ("'" +:+ TableMapping.str_of
                                              (TableMapping.target_table mapping)
                                      +:+ "'"))
                            severity0];
                  SchemaValidationResult.source_col_names := sorted_names S;
                  SchemaValidationResult.target_col_names := sorted_names T;
                  SchemaValidationResult.missing_columns := Some (sorted_names (S ∖ T));
                  SchemaValidationResult.extra_columns := Some (sorted_names (T ∖ S));
                  SchemaValidationResult.type_mismatches :=
                    Some (List.map fst (check_types source_columns target_columns
                                          (set_iter (elements (S ∩ T)))));
                  SchemaValidationResult.source_table_or_view := kind_name <$> Some sk;
                  SchemaValidationResult.target_table_or_view := kind_name <$> Some tk |}
         | Raise e => Raise e
         end
     end) = Return r
    /\ SchemaValidationResult.source_table_name r = TableMapping.source_table mapping
    /\ SchemaValidationResult.target_table_name r = TableMapping.target_table mapping
    /\ SchemaValidationResult.status r
       = match issues with
         | [] =>
             if bool_decide (sorted_names (S ∖ T) = [])
             then if bool_decide (sorted_names (T ∖ S) = []) then PASS
                  else raise_status_level_to PASS WARNING
             else raise_status_level_to
                    (if bool_decide (sorted_names (T ∖ S) = []) then PASS
                     else raise_status_level_to PASS WARNING) FAIL
         | _ :: _ =>
             fold_left raise_status_level_to (List.map severity issues)
               (raise_status_level_to
                  (if bool_decide (sorted_names (S ∖ T) = [])
                   then if bool_decide (sorted_names (T ∖ S) = []) then PASS
                        else raise_status_level_to PASS WARNING
                   else raise_status_level_to
                          (if bool_decide (sorted_names (T ∖ S) = []) then PASS
                           else raise_status_level_to PASS WARNING) FAIL)
                  WARNING)
         end
    /\ (issues = [] -> sorted_names (S ∖ T) = [] -> sorted_names (T ∖ S) = [] ->
        SchemaValidationResult.validation_issues r = [])).
{ revert Hmap.
  generalize (sorted_names (T ∖ S)) as extra.
  generalize (sorted_names (S ∖ T)) as missing.
  generalize (check_types source_columns target_columns
                (set_iter (elements (S ∩ T)))) as checked.
  intros checked missing extra Hmap. rewrite Hmap.
  destruct checked as [|entry checked], issues as [|i issues];
    try discriminate Hmap.
  - destruct extra, missing; eexists; (split; [reflexivity|]);
      (split; [reflexivity|]); (split; [reflexivity|]);
      (split; [reflexivity|]); cbn; intros; try reflexivity; discriminate.
  - cbn [List.map].
    destruct extra as [|x xs], missing as [|m ms]; cbv beta iota;
      match goal with
      | |- context [merge_type_issues (Some i :: List.map Some issues) (?a, ?b, ?c)] =>
          destruct (merge_type_issues_spec (i :: issues) a b c) as (vi & Hm);
          cbn [List.map] in Hm; rewrite Hm
      end;
      eexists; (split; [reflexivity|]); (split; [reflexivity|]);
      (split; [reflexivity|]); (split; [reflexivity|]);
      intros; discriminate. }
destruct Hshape as (r & Hrun & Hsource & Htarget & Hstatus & Hissues).
exists r. split; [exact Hrun|]. split; [exact Hsource|]. split; [exact Htarget|].
destruct Hst as (Hskip & Hpass & Hfailed).
rewrite Hstatus.
split; [exact Hskip|].
split.
{ rewrite Hpass, !bool_decide_eq_true, Hextra, Hmissing, Hnone, Heq. split.
  - intros (H1 & H2 & H3). repeat split; eauto.
  - intros (_ & _ & _ & [H1 H2] & H3). repeat split; auto. }
split.
{ intros Hp. apply Hpass in Hp as (H1 & H2 & H3).
  apply bool_decide_eq_true in H1, H2. apply Hissues; assumption. }
rewrite Hfailed, Hfail', bool_decide_eq_false, Hmissing, Hsub. split.
- intros [H1|H1]; auto 7.
- intros [H1|[H1|[H1|[H1|[H1|H1] ] ] ] ]; try discriminate; try contradiction; auto.
Qed.

(** X17: when the inspection of the columns raises nothing but instances of
    [Exception], the schema check of a mapping returns a result for the two
    tables of the mapping, whatever the order in which the common columns
    are visited.  Its status is never SKIP.  It is PASS exactly when both tables exist with the same,
    non-empty set of column names and every column passes the type check,
    and then the result carries no issue.  It is FAIL exactly when a table is
    missing or shows no column, or a source column is missing in the target,
    or the type check of a common column fails. *)
Theorem validate_single_schema_status (mapping : Mapping) (io : Probe)
    (source_columns target_columns : gmap string string) :
  _get_table_columns (source_columns_query io) = Return source_columns ->
  _get_table_columns (target_columns_query io) = Return target_columns ->
  let type_check col :=
    DataTypesCompatibleResult.result
      (_are_types_compatible (default "" (source_columns !! col))
                             (default "" (target_columns !! col))) in
  exists r,
    _validate_single_schema set_iter mapping io = Return r
    /\ SchemaValidationResult.source_table_name r = TableMapping.source_table mapping
    /\ SchemaValidationResult.target_table_name r = TableMapping.target_table mapping
    /\ SchemaValidationResult.status r <> SKIP
    /\ (SchemaValidationResult.status r = PASS
        <-> is_Some (source_lookup io) /\ is_Some (target_lookup io)
            /\ source_columns <> ∅
            /\ dom source_columns = dom target_columns
            /\ forall col, col ∈ dom source_columns -> type_check col = PASS)
    /\ (SchemaValidationResult.status r = PASS ->
        SchemaValidationResult.validation_issues r = [])
    /\ (SchemaValidationResult.status r = FAIL
        <-> source_lookup io = None \/ target_lookup io = None
            \/ source_columns = ∅ \/ target_columns = ∅
            \/ (exists col, col ∈ dom source_columns /\ col ∉ dom target_columns)
            \/ (exists col, col ∈ dom source_columns /\ col ∈ dom target_columns
                            /\ type_check col = FAIL)).
Proof. apply validate_single_schema_cases. Qed.

End SingleSchema.

(** ** The schema phase *)

Section SchemaPhaseResults.

Import ValidationStatus ValidationIssue SchemaValidator.

Variable set_iter : list string -> list string.
Hypothesis set_iter_admissible : TableMapping.admissible set_iter.

(** What the inspector answers to the task submitted [i]-th. *)
Variable io : nat -> Mapping -> Probe.
Variable as_completed : list (nat * Mapping) -> list (nat * Mapping).

#[local] Abbreviation schema_task :=
  (fun (i : nat) (mapping : Mapping) =>
     _validate_single_schema set_iter mapping (io i mapping)).

#[local] Abbreviation tables_of_result :=
  (fun r : SchemaResult =>
     (SchemaValidationResult.source_table_name r,
      SchemaValidationResult.target_table_name r)).

#[local] Abbreviation tables_of_mapping :=
  (fun m : Mapping => (TableMapping.source_table m, TableMapping.target_table m)).

Lemma deduplicate_spec (table_mappings : list Mapping) :
  forall (seen : gset (option string)) (m : Mapping),
    m ∈ deduplicate seen table_mappings
    <-> exists before after,
          table_mappings = before ++ m :: after
          /\ (TableMapping.source_table m ∉ seen)
          /\ forall m', m' ∈ before ->
               TableMapping.source_table m' <> TableMapping.source_table m.
Proof.
induction table_mappings as [|item rest IH]; intros seen m; cbn.
- split; [intros Hin; inversion Hin|].
  intros (before & after & E & _). destruct before; discriminate E.
- case_bool_decide as Hseen.
  + rewrite IH. split.
    * intros (before & after & -> & Hm & Hb). exists (item :: before), after.
      split; [reflexivity|]. split; [exact Hm|].
      intros m' Hm'. apply elem_of_cons in Hm' as [->|Hm']; [|apply Hb, Hm'].
      intros E. apply Hm. rewrite <- E. exact Hseen.
    * intros ([|b before] & after & E & Hm & Hb); injection E as <- ->.
      -- contradiction.
      -- exists before, after. split; [reflexivity|]. split; [exact Hm|].
         intros m' Hm'. apply Hb. right. exact Hm'.
  + rewrite elem_of_cons, IH. split.
    * intros [->|(before & after & -> & Hm & Hb)].
      -- exists [], rest. split; [reflexivity|]. split; [exact Hseen|].
         intros m' Hm'. inversion Hm'.
      -- exists (item :: before), after. split; [reflexivity|].
         apply not_elem_of_union in Hm as [Hne Hm]. split; [exact Hm|].
         intros m' Hm'. apply elem_of_cons in Hm' as [->|Hm']; [|apply Hb, Hm'].
         intros E. apply Hne. rewrite E. apply elem_of_singleton. reflexivity.
    * intros ([|b before] & after & E & Hm & Hb); injection E as <- ->.
      -- left. reflexivity.
      -- right. exists before, after. split; [reflexivity|].
         split.
         ++ apply not_elem_of_union. split; [|exact Hm].
            intros E. apply elem_of_singleton in E.
            apply (Hb item); [left|symmetry; exact E].
         ++ intros m' Hm'. apply Hb. right. exact Hm'.
Qed.

Lemma deduplicate_NoDup (table_mappings : list Mapping) :
  forall seen : gset (option string),
    NoDup (List.map TableMapping.source_table (deduplicate seen table_mappings))
    /\ forall m, m ∈ deduplicate seen table_mappings ->
         TableMapping.source_table m ∉ seen.
Proof.
induction table_mappings as [|item rest IH]; intros seen; cbn.
- split; [constructor|]. intros m Hm. inversion Hm.
- case_bool_decide as Hseen; [apply IH|].
  destruct (IH ({[TableMapping.source_table item]} ∪ seen)) as [Hnd Hout].
  split.
  + cbn. constructor; [|exact Hnd]. intros Hin.
    apply list_elem_of_fmap in Hin as (m & E & Hm).
    apply Hout in Hm. apply Hm. rewrite <- E.
    apply elem_of_union_l, elem_of_singleton. reflexivity.
  + intros m Hm. apply elem_of_cons in Hm as [->|Hm]; [exact Hseen|].
    apply Hout in Hm. intros Hs. apply Hm, elem_of_union_r, Hs.
Qed.

Lemma schema_collect_settles (run : nat -> Mapping -> outcome SchemaResult)
    (futures : list (nat * Mapping)) (acc : list SchemaResult) :
  Forall (fun future => forall e, run (fst future) (snd future) = Raise e ->
                                  is_Exception e = true) futures ->
  collect run futures acc
  = Return (acc ++ List.map
                     (fun future =>
                        match run (fst future) (snd future) with
                        | Return result => result
                        | Raise e => failure_result (snd future) e
                        end) futures).
Proof.
revert acc. induction futures as [|[i mapping] futures IH]; intros acc Hall.
- cbn. rewrite app_nil_r. reflexivity.
- inversion Hall as [|? ? Hhead Htail]; subst. cbn in Hhead. cbn.
  destruct (run i mapping) as [result|e].
  + rewrite IH by exact Htail. rewrite <- app_assoc. reflexivity.
  + rewrite (Hhead e eq_refl). rewrite IH by exact Htail.
    rewrite <- app_assoc. reflexivity.
Qed.

Lemma get_table_columns_raise (query : outcome (list (string * string))) (e : exn) :
  _get_table_columns query = Raise e -> query = Raise e.
Proof.
unfold _get_table_columns. destruct query as [?|e']; [discriminate|].
destruct (is_Exception e'); [discriminate|]. intros E. injection E as ->. reflexivity.
Qed.

Lemma inspect_side_raise (exist : bool) (query : outcome (list (string * string)))
    (missing no_columns : Issue) (e : exn) :
  _get_table_columns query = Raise e ->
  inspect_side exist query missing no_columns
  = if negb exist then Return ([missing], ∅) else Raise e.
Proof. intros Hq. unfold inspect_side. rewrite Hq. reflexivity. Qed.

(** The check of one mapping raises only what the inspection of the
    columns raised. *)
Lemma validate_single_schema_raises (mapping : Mapping) (probe : Probe) (e : exn) :
  _validate_single_schema set_iter mapping probe = Raise e ->
  source_columns_query probe = Raise e \/ target_columns_query probe = Raise e.
Proof.
intros Hrun.
destruct (_get_table_columns (source_columns_query probe)) as [sc|e1] eqn:Es;
  destruct (_get_table_columns (target_columns_query probe)) as [tc|e2] eqn:Et.
- destruct (validate_single_schema_cases set_iter set_iter_admissible mapping probe
              sc tc Es Et) as (r & Hr & _).
  rewrite Hr in Hrun. discriminate Hrun.
- right. apply get_table_columns_raise in Et as Hq. rewrite Hq. f_equal.
  unfold _validate_single_schema in Hrun.
  rewrite (inspect_side_cases _ _ _ _ _ Es), (inspect_side_raise _ _ _ _ _ Et) in Hrun.
  destruct (negb (bool_decide (is_Some (source_lookup probe))));
    [|destruct (bool_decide (sc = ∅))];
    (destruct (negb (bool_decide (is_Some (target_lookup probe))));
     [discriminate Hrun|congruence]).
- left. apply get_table_columns_raise in Es as Hq. rewrite Hq. f_equal.
  unfold _validate_single_schema in Hrun.
  rewrite (inspect_side_raise _ _ _ _ _ Es), (inspect_side_cases _ _ _ _ _ Et) in Hrun.
  destruct (negb (bool_decide (is_Some (source_lookup probe))));
    [|congruence].
  destruct (negb (bool_decide (is_Some (target_lookup probe))));
    [|destruct (bool_decide (tc = ∅))]; discriminate Hrun.
- apply get_table_columns_raise in Es as Hqs.
  apply get_table_columns_raise in Et as Hqt. rewrite Hqs, Hqt.
  unfold _validate_single_schema in Hrun.
  rewrite (inspect_side_raise _ _ _ _ _ Es), (inspect_side_raise _ _ _ _ _ Et) in Hrun.
  destruct (negb (bool_decide (is_Some (source_lookup probe))));
    [|left; congruence].
  destruct (negb (bool_decide (is_Some (target_lookup probe))));
    [discriminate Hrun|right; congruence].
Qed.

Lemma validate_single_schema_tables (mapping : Mapping) (probe : Probe)
    (r : SchemaResult) :
  _validate_single_schema set_iter mapping probe = Return r ->
  tables_of_result r = tables_of_mapping mapping
  /\ SchemaValidationResult.status r <> SKIP.
Proof.
intros Hrun.
destruct (_get_table_columns (source_columns_query probe)) as [sc|e1] eqn:Es;
  destruct (_get_table_columns (target_columns_query probe)) as [tc|e2] eqn:Et.
- destruct (validate_single_schema_cases set_iter set_iter_admissible mapping probe
              sc tc Es Et) as (r' & Hr & Hsource & Htarget & Hskip & _).
  rewrite Hr in Hrun. injection Hrun as <-. split; [|exact Hskip].
  rewrite Hsource, Htarget. reflexivity.
- unfold _validate_single_schema in Hrun.
  rewrite (inspect_side_cases _ _ _ _ _ Es), (inspect_side_raise _ _ _ _ _ Et) in Hrun.
  destruct (negb (bool_decide (is_Some (source_lookup probe))));
    [|destruct (bool_decide (sc = ∅))];
    (destruct (negb (bool_decide (is_Some (target_lookup probe))));
     [|discriminate Hrun]);
    injection Hrun as <-; (split; [reflexivity|discriminate]).
- unfold _validate_single_schema in Hrun.
  rewrite (inspect_side_raise _ _ _ _ _ Es), (inspect_side_cases _ _ _ _ _ Et) in Hrun.
  destruct (negb (bool_decide (is_Some (source_lookup probe))));
    [|discriminate Hrun].
  destruct (negb (bool_decide (is_Some (target_lookup probe))));
    [|destruct (bool_decide (tc = ∅))];
    injection Hrun as <-; (split; [reflexivity|discriminate]).
- unfold _validate_single_schema in Hrun.
  rewrite (inspect_side_raise _ _ _ _ _ Es), (inspect_side_raise _ _ _ _ _ Et) in Hrun.
  destruct (negb (bool_decide (is_Some (source_lookup probe))));
    [|discriminate Hrun].
  destruct (negb (bool_decide (is_Some (target_lookup probe))));
    [|discriminate Hrun].
  injection Hrun as <-. split; [reflexivity|discriminate].
Qed.

Lemma submit_all_mappings (table_mappings : list Mapping) :
  List.map snd (Validator.submit_all table_mappings) = table_mappings.
Proof.
unfold Validator.submit_all.
assert (Hgen : forall (l : list Mapping) (f : nat -> Mapping -> nat * Mapping),
          (forall i m, snd (f i m) = m) -> List.map snd (imap f l) = l).
{ induction l as [|m l IH]; intros f Hf; [reflexivity|].
  cbn. rewrite Hf. f_equal. apply IH. intros i m'. apply Hf. }
apply Hgen. reflexivity.
Qed.

(** The results of the schema phase. *)
Lemma validate_schemas_results (table_mappings : list Mapping) :
  (forall futures, as_completed futures ≡ₚ futures) ->
  (forall i m e,
     source_columns_query (io i m) = Raise e
     \/ target_columns_query (io i m) = Raise e ->
     is_Exception e = true) ->
  exists results,
    _validate_schemas schema_task as_completed table_mappings = Return results
    /\ List.map (fun r => (SchemaValidationResult.source_table_name r,
                           SchemaValidationResult.target_table_name r)) results
       ≡ₚ List.map (fun m => (TableMapping.source_table m,
                              TableMapping.target_table m))
                   (deduplicate ∅ table_mappings)
    /\ (forall m,
          m ∈ deduplicate ∅ table_mappings
          <-> exists before after,
                table_mappings = before ++ m :: after
                /\ forall m', m' ∈ before ->
                     TableMapping.source_table m' <> TableMapping.source_table m)
    /\ NoDup (List.map SchemaValidationResult.source_table_name results)
    /\ (forall r, r ∈ results -> SchemaValidationResult.status r <> SKIP).
Proof.
intros Hperm Hexc. unfold _validate_schemas.
set (futures := as_completed (Validator.submit_all (deduplicate ∅ table_mappings))).
assert (Hreturns : forall i m, exists r,
          schema_task i m = Return r
          /\ tables_of_result r = tables_of_mapping m
          /\ SchemaValidationResult.status r <> SKIP).
{ intros i m. destruct (schema_task i m) as [r|e] eqn:Er.
  - exists r. split; [reflexivity|]. apply (validate_single_schema_tables _ _ _ Er).
  - exfalso. pose proof (validate_single_schema_raises _ _ _ Er) as Hq.
    pose proof (Hexc i m e Hq) as He.
    destruct Hq as [Hq|Hq].
    + assert (Hs : exists sc, _get_table_columns (source_columns_query (io i m))
                              = Return sc)
        by (rewrite Hq; cbn; rewrite He; eauto).
      destruct Hs as (sc & Hs).
      destruct (_get_table_columns (target_columns_query (io i m))) as [tc|e2] eqn:Et.
      * destruct (validate_single_schema_cases set_iter set_iter_admissible m
                    (io i m) sc tc Hs Et) as (r & Hr & _).
        rewrite Hr in Er. discriminate Er.
      * apply get_table_columns_raise in Et as Hqt.
        pose proof (Hexc i m e2 (or_intror Hqt)) as He2.
        rewrite Hqt in Et. cbn in Et. rewrite He2 in Et. discriminate Et.
    + assert (Ht : exists tc, _get_table_columns (target_columns_query (io i m))
                              = Return tc)
        by (rewrite Hq; cbn; rewrite He; eauto).
      destruct Ht as (tc & Ht).
      destruct (_get_table_columns (source_columns_query (io i m))) as [sc|e2] eqn:Es.
      * destruct (validate_single_schema_cases set_iter set_iter_admissible m
                    (io i m) sc tc Es Ht) as (r & Hr & _).
        rewrite Hr in Er. discriminate Er.
      * apply get_table_columns_raise in Es as Hqs.
        pose proof (Hexc i m e2 (or_introl Hqs)) as He2.
        rewrite Hqs in Es. cbn in Es. rewrite He2 in Es. discriminate Es. }
rewrite schema_collect_settles.
2: { apply Forall_forall. intros [i m] _ e He. cbn in He.
     destruct (Hreturns i m) as (r & Hr & _). rewrite Hr in He. discriminate He. }
eexists. split; [reflexivity|]. cbn [app].
assert (Htables : forall l : list (nat * Mapping),
          List.map tables_of_result
            (List.map (fun future =>
                         match schema_task (fst future) (snd future) with
                         | Return result => result
                         | Raise e => failure_result (snd future) e
                         end) l)
          = List.map tables_of_mapping (List.map snd l)).
{ induction l as [|[i m] l IH]; [reflexivity|]. cbn [List.map fst snd].
  rewrite IH. f_equal. destruct (Hreturns i m) as (r & Hr & Ht & _).
  rewrite Hr. exact Ht. }
assert (Hmaps : List.map snd futures ≡ₚ deduplicate ∅ table_mappings).
{ unfold futures. rewrite (Hperm _), submit_all_mappings. reflexivity. }
split; [rewrite Htables, Hmaps; reflexivity|].
split.
{ intros m. rewrite deduplicate_spec. split.
  - intros (before & after & E & _ & Hb). eauto.
  - intros (before & after & E & Hb). exists before, after.
    split; [exact E|]. split; [apply not_elem_of_empty|exact Hb]. }
split.
{ assert (E : List.map SchemaValidationResult.source_table_name
                (List.map (fun future =>
                             match schema_task (fst future) (snd future) with
                             | Return result => result
                             | Raise e => failure_result (snd future) e
                             end) futures)
              = List.map fst (List.map tables_of_mapping (List.map snd futures))).
  { rewrite <- Htables, !List.map_map. reflexivity. }
  rewrite E, Hmaps, List.map_map. cbn [fst].
  apply (deduplicate_NoDup table_mappings ∅). }
intros r Hr. apply list_elem_of_fmap in Hr as ([i m] & -> & _). cbn [fst snd].
destruct (Hreturns i m) as (r & Hr & _ & Hskip). rewrite Hr. exact Hskip.
Qed.

(** X18: when the inspection raises nothing but instances of [Exception],
    the schema phase returns, whatever the order of completion.  It checks
    the first mapping of every source table and no other: the pairs of
    table names of its results are those of the mappings that no mapping of
    the same source table precedes, so no two results have the same source
    table, and a later mapping of a source table to another target is not
    checked.  No result is SKIP. *)
Theorem validate_schemas_first_mapping_wins (table_mappings : list Mapping) :
  (forall futures, as_completed futures ≡ₚ futures) ->
  (forall i m e,
     source_columns_query (io i m) = Raise e
     \/ target_columns_query (io i m) = Raise e ->
     is_Exception e = true) ->
  exists results,
    _validate_schemas schema_task as_completed table_mappings = Return results
    /\ List.map (fun r => (SchemaValidationResult.source_table_name r,
                           SchemaValidationResult.target_table_name r)) results
       ≡ₚ List.map (fun m => (TableMapping.source_table m,
                              TableMapping.target_table m))
                   (deduplicate ∅ table_mappings)
    /\ (forall m,
          m ∈ deduplicate ∅ table_mappings
          <-> exists before after,
                table_mappings = before ++ m :: after
                /\ forall m', m' ∈ before ->
                     TableMapping.source_table m' <> TableMapping.source_table m)
    /\ NoDup (List.map SchemaValidationResult.source_table_name results)
    /\ (forall r, r ∈ results -> SchemaValidationResult.status r <> SKIP).
Proof. apply validate_schemas_results. Qed.

End SchemaPhaseResults.

(** ** Key columns and their cast types *)

Section KeyColumns.

Import TableMapping KeyColumnCasts.

Lemma build_cast_types_idempotent (mapping : Mapping) :
  build_cast_types (build_cast_types mapping) = build_cast_types mapping.
Proof.
destruct mapping as [kc cc ? ? ? ? ? ? ? ? ? ? ? ?].
destruct kc as [[|k ks]|]; try reflexivity.
assert (Hbuilt : forall m : Mapping,
          key_columns m = Some (List.map fst (List.map split_key_column (k :: ks))) ->
          key_columns_cast_types m
          = Some (List.map snd (List.map split_key_column (k :: ks))) ->
          build_cast_types m = m).
{ intros m Hk Hc. unfold build_cast_types. rewrite Hk, Hc. cbn [List.map].
  cbn [length]. rewrite !length_map, Nat.eqb_refl. reflexivity. }
match goal with
| |- build_cast_types ?x = _ => remember x as inner eqn:Ei
end.
unfold build_cast_types in Ei. cbn [key_columns key_columns_cast_types] in Ei.
destruct cc as [[|c cs]|]; try (subst inner; apply Hbuilt; reflexivity).
destruct (negb (length (c :: cs) =? length (k :: ks))%nat) eqn:El;
  subst inner; [apply Hbuilt; reflexivity|].
unfold build_cast_types. cbn [key_columns key_columns_cast_types].
rewrite El. reflexivity.
Qed.

Lemma build_cast_types_keeps (mapping : Mapping) :
  source_table (build_cast_types mapping) = source_table mapping
  /\ target_table (build_cast_types mapping) = target_table mapping
  /\ group (build_cast_types mapping) = group mapping
  /\ unique_data_mapping_id (build_cast_types mapping)
     = unique_data_mapping_id mapping
  /\ length (default [] (key_columns (build_cast_types mapping)))
     = length (default [] (key_columns mapping)).
Proof.
destruct mapping as [kc cc ? ? ? ? ? ? ? ? ? ? ? ?].
destruct kc as [[|k ks]|]; try (cbn; auto; fail).
unfold build_cast_types. cbn [key_columns key_columns_cast_types].
assert (Hlen : length (List.map fst (List.map split_key_column (k :: ks)))
               = length (k :: ks))
  by (rewrite !length_map; reflexivity).
destruct cc as [[|c cs]|];
  [| destruct (negb (length (c :: cs) =? length (k :: ks))%nat) |];
  cbn [source_table target_table group unique_data_mapping_id key_columns
       from_option id]; rewrite ?Hlen; auto.
Qed.

Lemma build_cast_types_lengths (mapping : Mapping) (k : string) (ks : list string) :
  key_columns (build_cast_types mapping) = Some (k :: ks) ->
  exists casts,
    key_columns_cast_types (build_cast_types mapping) = Some casts
    /\ length casts = length (k :: ks).
Proof.
destruct mapping as [kc cc ? ? ? ? ? ? ? ? ? ? ? ?].
destruct kc as [[|k0 ks0]|]; try (cbn; discriminate).
unfold build_cast_types. cbn [key_columns key_columns_cast_types].
assert (Hbuilt : Some (List.map fst (List.map split_key_column (k0 :: ks0)))
                 = Some (k :: ks) ->
                 exists casts,
                   Some (List.map snd (List.map split_key_column (k0 :: ks0)))
                   = Some casts
                   /\ length casts = length (k :: ks)).
{ intros E. eexists. split; [reflexivity|].
  assert (El : length (List.map fst (List.map split_key_column (k0 :: ks0)))
               = length (k :: ks)) by congruence.
  rewrite <- El, !length_map. reflexivity. }
destruct cc as [[|c cs]|]; cbn [key_columns key_columns_cast_types];
  try exact Hbuilt.
destruct (negb (length (c :: cs) =? length (k0 :: ks0))%nat) eqn:El;
  cbn [key_columns key_columns_cast_types]; [exact Hbuilt|].
intros E. injection E as <- <-. exists (c :: cs).
split; [reflexivity|]. apply negb_false_iff, Nat.eqb_eq in El. exact El.
Qed.

Lemma casted_from_returns (casts : list (option string)) :
  forall (quoted : list string) (i : nat),
    (i + length quoted <= length casts)%nat ->
    casted_from i quoted (Some casts)
    = Return (zip_with build_casted_key_columns quoted (drop i casts)).
Proof.
induction quoted as [|q quoted IH]; intros i Hlen; [reflexivity|].
cbn [length] in Hlen. cbn [casted_from cast_type_at].
destruct (casts !! i) as [cast_type|] eqn:Ei.
2: { apply lookup_ge_None in Ei. lia. }
rewrite IH by lia. rewrite (drop_S _ _ _ Ei). reflexivity.
Qed.

Lemma casted_from_raises (casts : list (option string)) :
  forall (quoted : list string) (i : nat),
    quoted <> [] ->
    (length casts < i + length quoted)%nat ->
    casted_from i quoted (Some casts)
    = Raise (OtherException "list index out of range").
Proof.
induction quoted as [|q quoted IH]; intros i Hne Hlen; [contradiction|].
cbn [length] in Hlen. cbn [casted_from cast_type_at].
destruct (casts !! i) as [cast_type|] eqn:Ei; [|reflexivity].
apply lookup_lt_Some in Ei.
destruct quoted as [|q' quoted]; [cbn [length] in Hlen; lia|].
rewrite IH; [reflexivity|discriminate|cbn [length] in *; lia].
Qed.

(** X19: building the cast types changes neither the number of mappings nor
    the tables, the group, the identifier and the number of key columns of a
    mapping, and doing it again changes nothing.  Afterwards every mapping
    with key columns has as many cast types as key columns, so the select
    list of its sample query is built without an error. *)
Theorem build_key_columns_cast_types_spec (table_mappings : list Mapping) :
  let built := build_key_columns_cast_types_from_key_columns table_mappings in
  build_key_columns_cast_types_from_key_columns built = built
  /\ List.map (fun m => (source_table m, target_table m, group m,
                         unique_data_mapping_id m,
                         length (default [] (key_columns m)))) built
     = List.map (fun m => (source_table m, target_table m, group m,
                           unique_data_mapping_id m,
                           length (default [] (key_columns m)))) table_mappings
  /\ forall m k ks,
       m ∈ built -> key_columns m = Some (k :: ks) ->
       exists casts select_list,
         key_columns_cast_types m = Some casts
         /\ length casts = length (k :: ks)
         /\ key_cols_str (k :: ks) (key_columns_cast_types m) = Return select_list.
Proof.
cbv zeta. unfold build_key_columns_cast_types_from_key_columns.
split; [|split].
- rewrite List.map_map. apply List.map_ext. intros m.
  apply build_cast_types_idempotent.
- rewrite List.map_map. apply List.map_ext. intros m.
  destruct (build_cast_types_keeps m) as (-> & -> & -> & -> & ->). reflexivity.
- intros m k ks Hin Hk. apply list_elem_of_fmap in Hin as (m0 & -> & _).
  destruct (build_cast_types_lengths m0 k ks Hk) as (casts & Hc & Hlen).
  exists casts. eexists. split; [exact Hc|]. split; [exact Hlen|].
  unfold key_cols_str. rewrite Hc, casted_from_returns; [reflexivity|].
  rewrite length_map, Hlen. cbn. lia.
Qed.

(** X20: the select list of the sample query.  For at least one key column
    it is built exactly when there is a list of cast types at least as long
    as the key columns: the quoted columns, each cast to INT when its cast
    type is one of the integer-like types, joined by a comma.  Without a list
    of cast types it raises [TypeError], with too short a list the error of
    an index out of range. *)
Theorem key_cols_str_cases (k : string) (ks : list string) :
  key_cols_str (k :: ks) None
  = Raise (TypeError "'NoneType' object is not subscriptable")
  /\ forall casts,
       key_cols_str (k :: ks) (Some casts)
       = if (length (k :: ks) <=? length casts)%nat
         then Return
                (PyStr.join ", "
                   (zip_with build_casted_key_columns
                      (List.map (fun col => double_quote +:+ col +:+ double_quote)
                                (k :: ks))
                      casts))
         else Raise (OtherException "list index out of range").
Proof.
split; [reflexivity|]. intros casts. unfold key_cols_str.
destruct (length (k :: ks) <=? length casts)%nat eqn:El.
- apply Nat.leb_le in El. rewrite casted_from_returns by (rewrite length_map; lia).
  reflexivity.
- apply Nat.leb_gt in El.
  rewrite casted_from_raises; [|discriminate|rewrite length_map; lia].
  reflexivity.
Qed.

#[local] Abbreviation chars := list_ascii_of_string.

Lemma chars_app (a b : string) : chars (a +:+ b) = chars a ++ chars b.
Proof.
induction a as [|c a IH]; [reflexivity|].
rewrite append_cons. cbn [list_ascii_of_string]. rewrite IH. reflexivity.
Qed.

Lemma prefix_chars (sub s : string) (x : ascii) :
  String.prefix sub s = true -> x ∈ chars sub -> x ∈ chars s.
Proof.
revert s. induction sub as [|c sub IH]; intros s Hp Hx; [inversion Hx|].
destruct s as [|d s]; [discriminate Hp|]. cbn [String.prefix] in Hp.
destruct (ascii_dec c d) as [->|]; [|discriminate Hp].
cbn [list_ascii_of_string] in *. apply elem_of_cons in Hx as [->|Hx]; [left|].
right. apply IH; assumption.
Qed.

Lemma contains_chars (sub s : string) (x : ascii) :
  x ∈ chars sub -> x ∉ chars s -> PyText.contains sub s = false.
Proof.
intros Hx. induction s as [|c s IH]; intros Hs.
- cbn [PyText.contains]. destruct (String.prefix sub "") eqn:Ep; [|reflexivity].
  exfalso. apply Hs. apply (prefix_chars sub "" x Ep Hx).
- cbn [PyText.contains]. rewrite IH.
  + rewrite orb_false_r. destruct (String.prefix sub (String c s)) eqn:Ep;
      [|reflexivity].
    exfalso. apply Hs. apply (prefix_chars _ _ x Ep Hx).
  + intros Hin. apply Hs. cbn [list_ascii_of_string]. right. exact Hin.
Qed.

Lemma drop_app_length (a b : string) : PyText.drop (String.length a) (a +:+ b) = b.
Proof.
induction a as [|c a IH]; [destruct b; reflexivity|].
rewrite append_cons. cbn [String.length PyText.drop]. exact IH.
Qed.

Lemma split_1_app (c0 : ascii) (sep name rest : string) :
  c0 ∉ chars name ->
  PyText.split_1 (String c0 sep) (name +:+ String c0 sep +:+ rest)
  = (name, Some rest).
Proof.
induction name as [|c name IH]; intros Hname.
- rewrite append_nil.
  assert (Hp : String.prefix (String c0 sep) (String c0 sep +:+ rest) = true)
    by apply prefix_app.
  rewrite append_cons in *.
  cbn [PyText.split_1]. rewrite Hp. f_equal. f_equal.
  rewrite <- append_cons. apply (drop_app_length (String c0 sep) rest).
- rewrite append_cons. cbn [PyText.split_1].
  assert (Hp : String.prefix (String c0 sep)
                 (String c (name +:+ String c0 sep +:+ rest)) = false).
  { cbn [String.prefix]. destruct (ascii_dec c0 c) as [->|]; [|reflexivity].
    exfalso. apply Hname. cbn [list_ascii_of_string]. left. }
  rewrite Hp, IH; [reflexivity|].
  intros Hin. apply Hname. cbn [list_ascii_of_string]. right. exact Hin.
Qed.

Ltac char_in := rewrite list_elem_of_In; cbn; auto 10.

Ltac char_out :=
  let Hc := fresh "Hc" in
  rewrite list_elem_of_In; cbn; intros Hc;
  repeat (destruct Hc as [Hc|Hc]; [discriminate Hc|]); exact Hc.

(** X21: how a key column is split into a column name and a cast type.  A
    key column without any of the characters [>], [:] and [|] is kept as
    it is, with no cast type.  A name and a cast type joined by one of the
    five separators are given back stripped, when neither holds a character
    of a separator; the longer separators are tried first, so [->] and [=>]
    are not read as [>]. *)
Theorem split_key_column_spec :
  (forall key_column,
     (forall c, c ∈ chars key_column -> c ∉ [">"; ":"; "|"]%char) ->
     split_key_column key_column = (key_column, None))
  /\ (forall separator name cast_type,
        separator ∈ [">"; "->"; "=>"; ":"; "|"] ->
        (forall c, c ∈ chars name -> c ∉ ["-"; "="; ">"; ":"; "|"]%char) ->
        (forall c, c ∈ chars cast_type -> c ∉ ["-"; "="; ">"; ":"; "|"]%char) ->
        split_key_column (name +:+ separator +:+ cast_type)
        = (PyStr.strip name, Some (PyStr.strip cast_type))).
Proof.
assert (Hseps : type_casting_separators = ["->"; "=>"; ">"; ":"; "|"])
  by (vm_compute; reflexivity).
split.
- intros key Hfree. unfold split_key_column. rewrite Hseps.
  assert (Hnot : forall x : ascii, x ∈ [">"; ":"; "|"]%char -> x ∉ chars key).
  { intros x Hx Hin. exact (Hfree x Hin Hx). }
  cbn [List.find].
  rewrite (contains_chars "->" key ">"%char), (contains_chars "=>" key ">"%char),
    (contains_chars ">" key ">"%char), (contains_chars ":" key ":"%char),
    (contains_chars "|" key "|"%char);
    first [reflexivity | apply Hnot; char_in | char_in].
- intros separator name cast_type Hsep Hname Hcast.
  assert (Hnot : forall (x : ascii) (sep : string),
            x ∈ ["-"; "="; ">"; ":"; "|"]%char -> x ∉ chars sep ->
            x ∉ chars (name +:+ sep +:+ cast_type)).
  { intros x sep Hx Hs. rewrite !chars_app, !elem_of_app.
    intros [Hin|[Hin|Hin]]; [exact (Hname x Hin Hx)|exact (Hs Hin)
                              |exact (Hcast x Hin Hx)]. }
  assert (Hin : forall x : ascii, x ∈ ["-"; "="; ">"; ":"; "|"]%char ->
                  x ∉ chars name).
  { intros x Hx Hn. exact (Hname x Hn Hx). }
  unfold split_key_column. rewrite Hseps. cbn [List.find].
  repeat (apply elem_of_cons in Hsep as [->|Hsep]); [..|inversion Hsep].
  + (* ">" *)
    rewrite (contains_chars "->" _ "-"%char), (contains_chars "=>" _ "="%char),
      (contains_app ">" name cast_type), (split_1_app ">"%char "" name cast_type);
      first [reflexivity | apply Hin; char_in
            | apply Hnot; [char_in|char_out] | char_in].
  + (* "->" *)
    rewrite (contains_app "->" name cast_type),
      (split_1_app "-"%char ">" name cast_type);
      first [reflexivity | apply Hin; char_in].
  + (* "=>" *)
    rewrite (contains_chars "->" _ "-"%char),
      (contains_app "=>" name cast_type),
      (split_1_app "="%char ">" name cast_type);
      first [reflexivity | apply Hin; char_in
            | apply Hnot; [char_in|char_out] | char_in].
  + (* ":" *)
    rewrite (contains_chars "->" _ ">"%char), (contains_chars "=>" _ ">"%char),
      (contains_chars ">" _ ">"%char),
      (contains_app ":" name cast_type), (split_1_app ":"%char "" name cast_type);
      first [reflexivity | apply Hin; char_in
            | apply Hnot; [char_in|char_out] | char_in].
  + (* "|" *)
    rewrite (contains_chars "->" _ ">"%char), (contains_chars "=>" _ ">"%char),
      (contains_chars ">" _ ">"%char), (contains_chars ":" _ ":"%char),
      (contains_app "|" name cast_type), (split_1_app "|"%char "" name cast_type);
      first [reflexivity | apply Hin; char_in
            | apply Hnot; [char_in|char_out] | char_in].
Qed.

End KeyColumns.

(** ** The counts of the rule-based validation *)

Section RuleCounts.

Import TableMapping RuleBased.

Variable re_compile : string -> option (string -> bool).

Lemma size_add_le (x : string) (X : gset string) :
  (size ({[x]} ∪ X) <= S (size X))%nat.
Proof.
rewrite size_union_alt, size_singleton.
assert (Hsub : (size (X ∖ {[x]}) <= size X)%nat)
  by (apply subseteq_size; intros y Hy; apply elem_of_difference in Hy as [Hy _];
      exact Hy).
lia.
Qed.

Lemma add_not_empty (x : string) (X : gset string) : {[x]} ∪ X <> (∅ : gset string).
Proof.
intros E. apply (not_elem_of_empty (C:=gset string) x). rewrite <- E.
apply elem_of_union_l, elem_of_singleton. reflexivity.
Qed.

(** One cell either passes, and its text joins the matched set, or fails,
    and its text joins the other set. *)
Lemma check_item_cases (value_can_be_null value_must_be_unique : bool)
    (fullmatch : string -> bool) (m n : gset string) (f : Z) (item_data : item) :
  let x := normalize_item_data_end_with_dot_0 item_data in
  check_item value_can_be_null value_must_be_unique fullmatch (m, n, f) item_data
  = ({[x]} ∪ m, n, f)
  \/ check_item value_can_be_null value_must_be_unique fullmatch (m, n, f) item_data
     = (m, {[x]} ∪ n, f + 1).
Proof.
cbv zeta. unfold check_item.
destruct ((is_None item_data || is_none_or_na item_data
           || text_mean_none (normalize_item_data_end_with_dot_0 item_data))
          && value_can_be_null); [left; reflexivity|].
destruct (value_must_be_unique
          && bool_decide (normalize_item_data_end_with_dot_0 item_data ∈ m));
  [right; reflexivity|].
destruct (negb (fullmatch (normalize_item_data_end_with_dot_0 item_data)));
  [right|left]; reflexivity.
Qed.

Lemma scan_counts (value_can_be_null value_must_be_unique : bool)
    (fullmatch : string -> bool) (column_data : list item) :
  forall (m n : gset string) (f : Z),
  exists (m' n' : gset string) (k : nat),
    fold_left (check_item value_can_be_null value_must_be_unique fullmatch)
              column_data (m, n, f)
    = (m', n', f + Z.of_nat k)
    /\ (k <= length column_data)%nat
    /\ (size n' <= size n + k)%nat
    /\ (size m' <= size m + (length column_data - k))%nat
    /\ (n' = ∅ <-> n = ∅ /\ k = 0%nat).
Proof.
induction column_data as [|x xs IH]; intros m n f.
- exists m, n, 0%nat. cbn. rewrite Z.add_0_r.
  repeat split; try lia; tauto.
- cbn [fold_left length].
  destruct (check_item_cases value_can_be_null value_must_be_unique fullmatch
              m n f x) as [E|E]; rewrite E.
  + destruct (IH ({[normalize_item_data_end_with_dot_0 x]} ∪ m) n f)
      as (m' & n' & k & Hfold & Hk & Hn & Hm & Hnil).
    exists m', n', k. split; [exact Hfold|].
    pose proof (size_add_le (normalize_item_data_end_with_dot_0 x) m).
    split; [lia|]. split; [lia|]. split; [lia|]. exact Hnil.
  + destruct (IH m ({[normalize_item_data_end_with_dot_0 x]} ∪ n) (f + 1))
      as (m' & n' & k & Hfold & Hk & Hn & Hm & Hnil).
    exists m', n', (S k). split; [rewrite Hfold; f_equal; lia|].
    pose proof (size_add_le (normalize_item_data_end_with_dot_0 x) n).
    split; [lia|]. split; [lia|]. split; [lia|]. split.
    * intros E'. apply Hnil in E' as [E' _].
      exfalso. exact (add_not_empty _ _ E').
    * intros [_ E']. discriminate E'.
Qed.

Lemma apply_pattern_counts (value_can_be_null value_must_be_unique : bool)
    (column_data : list item) (pattern : string) (fullmatch : string -> bool) :
  re_compile pattern = Some fullmatch ->
  exists st,
    apply_pattern re_compile value_can_be_null value_must_be_unique column_data
                  column_start (RStr pattern) = Return st
    /\ RuleCounts.counted column_data st.
Proof.
intros Hre. unfold apply_pattern. rewrite Hre.
destruct (scan_counts value_can_be_null value_must_be_unique fullmatch
            column_data ∅ ∅ (failed column_start))
  as (m' & n' & k & Hfold & Hk & Hn & Hm & Hnil).
rewrite Hfold. eexists. split; [reflexivity|].
unfold RuleCounts.counted.
cbn [passed failed failed_values success_values column_start] in *.
rewrite size_empty in Hn, Hm.
split; [lia|]. split; [lia|]. split; [lia|].
split; [case_bool_decide; [rewrite size_empty|]; lia|].
split; [case_bool_decide; [rewrite size_empty|]; lia|].
split.
- intros E. assert (Hk0 : k = 0%nat) by lia.
  assert (Hn' : n' = ∅) by (apply Hnil; auto).
  rewrite Hn'. case_bool_decide; reflexivity.
- intros E. assert (Hn' : n' = ∅) by (case_bool_decide; [assumption|exact E]).
  apply Hnil in Hn' as [_ ->]. reflexivity.
Qed.

#[local] Abbreviation pattern_free :=
  (Forall (fun kv : string * rule_value =>
             String.eqb (PyStr.lower (fst kv)) "pattern" = false)).

Lemma scan_keys_no_pattern (value_can_be_null value_must_be_unique : bool)
    (column_data : list item) (entries : list (string * rule_value))
    (st : column_state) :
  pattern_free entries ->
  scan_keys re_compile value_can_be_null value_must_be_unique column_data entries st
  = Return st.
Proof.
induction 1 as [|[key value] entries Hkey _ IH]; [reflexivity|].
cbn [scan_keys]. cbn [fst] in Hkey. rewrite Hkey. exact IH.
Qed.

Lemma scan_keys_single (value_can_be_null value_must_be_unique : bool)
    (column_data : list item) (before after : list (string * rule_value))
    (key : string) (value : rule_value) (st : column_state) :
  pattern_free before -> pattern_free after ->
  PyStr.lower key = "pattern" ->
  scan_keys re_compile value_can_be_null value_must_be_unique column_data
            (before ++ (key, value) :: after) st
  = apply_pattern re_compile value_can_be_null value_must_be_unique column_data
                  st value.
Proof.
intros Hb Ha Hkey. induction Hb as [|[k v] before Hk _ IH].
- cbn [app scan_keys]. rewrite Hkey. cbn [String.eqb Ascii.eqb].
  change (String.eqb "pattern" "pattern") with true. cbv iota.
  destruct (apply_pattern re_compile value_can_be_null value_must_be_unique
              column_data st value) as [st'|e]; [|reflexivity].
  apply scan_keys_no_pattern. exact Ha.
- cbn [app scan_keys]. cbn [fst] in Hk. rewrite Hk. exact IH.
Qed.

Lemma dict_get_split {V : Type} (key : string) (d : list (string * V)) (v : V) :
  dict_get key d = Some v ->
  exists before after,
    d = before ++ (key, v) :: after /\ key ∉ List.map fst before.
Proof.
induction d as [|[k w] d IH]; [discriminate|]. cbn [dict_get].
destruct (String.eqb k key) eqn:E.
- intros [= ->]. apply String.eqb_eq in E as ->.
  exists [], d. split; [reflexivity|]. intros Hin. inversion Hin.
- intros Hget. destruct (IH Hget) as (before & after & -> & Hnot).
  exists ((k, w) :: before), after. split; [reflexivity|].
  cbn [List.map fst]. intros Hin. apply elem_of_cons in Hin as [->|Hin].
  + rewrite String.eqb_refl in E. discriminate E.
  + exact (Hnot Hin).
Qed.

Lemma dict_get_None {V : Type} (key : string) (d : list (string * V)) :
  dict_get key d = None -> key ∉ List.map fst d.
Proof.
induction d as [|[k w] d IH]; intros Hget Hin; [inversion Hin|].
cbn [dict_get] in Hget. destruct (String.eqb k key) eqn:E; [discriminate|].
cbn [List.map fst] in Hin. apply elem_of_cons in Hin as [->|Hin].
- rewrite String.eqb_refl in E. discriminate E.
- exact (IH Hget Hin).
Qed.

(** A rule as a dict: its keys are different, and its only key read as the
    pattern is [pattern] itself. *)
Lemma with_default_pattern_split (rule : list (string * rule_value))
    (value_must_be_unique value_can_be_null : bool) :
  NoDup (List.map fst rule) ->
  (forall key, key ∈ List.map fst rule -> PyStr.lower key = "pattern" ->
               key = "pattern") ->
  exists before after,
    with_default_pattern rule value_must_be_unique value_can_be_null
    = before
        ++ ("pattern", default (RStr "^.*$") (dict_get "pattern" rule)) :: after
    /\ pattern_free before /\ pattern_free after.
Proof.
intros Hnd Hexact.
assert (Hfree : forall entries : list (string * rule_value),
          (forall key, key ∈ List.map fst entries -> key ∈ List.map fst rule) ->
          "pattern" ∉ List.map fst entries -> pattern_free entries).
{ intros entries Hsub Hnot. apply Forall_forall. intros [k v] Hin. cbn [fst].
  destruct (String.eqb (PyStr.lower k) "pattern") eqn:E; [|reflexivity].
  exfalso. apply String.eqb_eq in E.
  assert (Hk : k ∈ List.map fst entries).
  { apply (list_elem_of_fmap_2 fst) in Hin. exact Hin. }
  apply Hnot. rewrite <- (Hexact k (Hsub k Hk) E). exact Hk. }
unfold with_default_pattern, has_key.
destruct (dict_get "pattern" rule) as [v|] eqn:Eg.
- rewrite bool_decide_eq_true_2 by eauto.
  destruct (dict_get_split _ _ _ Eg) as (before & after & -> & Hnot).
  exists before, after. split; [reflexivity|].
  rewrite List.map_app in Hnd. cbn [List.map fst] in Hnd.
  apply NoDup_app in Hnd as (_ & Hdisj & Hnd').
  apply NoDup_cons in Hnd' as [Hafter _].
  split; apply Hfree; auto; intros key Hk; rewrite List.map_app;
    cbn [List.map fst]; apply elem_of_app; [left|right; right]; exact Hk.
- rewrite bool_decide_eq_false_2 by (intros [? ?]; discriminate).
  pose proof (dict_get_None _ _ Eg) as Hnot.
  exists rule. cbn [default from_option id].
  destruct (bool_decide
              (is_Some (dict_get "pattern_regex_description"
                          (rule ++ [("pattern", RStr "^.*$")])))).
  + exists []. split; [reflexivity|]. split; [apply Hfree; auto|constructor].
  + eexists. rewrite <- app_assoc. split; [reflexivity|].
    split; [apply Hfree; auto|]. constructor; [reflexivity|constructor].
Qed.

Lemma validate_column_counts (rule : list (string * rule_value))
    (column_data : list item) (st : column_state) :
  NoDup (List.map fst rule) ->
  (forall key, key ∈ List.map fst rule -> PyStr.lower key = "pattern" ->
               key = "pattern") ->
  validate_column re_compile rule (Some column_data) = Return st ->
  RuleCounts.counted column_data st.
Proof.
intros Hnd Hexact. unfold validate_column.
destruct (with_default_pattern_split rule (flag (dict_get "unique" rule))
            (flag (dict_get "nullable" rule)) Hnd Hexact)
  as (before & after & -> & Hb & Ha).
rewrite scan_keys_single by (auto; reflexivity).
destruct (default (RStr "^.*$") (dict_get "pattern" rule)) as [| | |pattern];
  try discriminate.
destruct (re_compile pattern) as [fullmatch|] eqn:Hre.
- destruct (apply_pattern_counts (flag (dict_get "nullable" rule))
              (flag (dict_get "unique" rule)) column_data pattern fullmatch Hre)
    as (st' & -> & Hcounted).
  intros [= <-]. exact Hcounted.
- unfold apply_pattern. rewrite Hre. discriminate.
Qed.

Lemma validate_columns_spec (data : DataFrame)
    (filtered_rules : list (string * list (string * rule_value))) :
  forall sts,
    validate_columns re_compile data filtered_rules = Return sts ->
    Forall2 (fun entry cs =>
               fst cs = fst entry
               /\ validate_column re_compile (snd entry) (dict_get (fst entry) data)
                  = Return (snd cs))
            filtered_rules sts.
Proof.
induction filtered_rules as [|[column_name rule] rest IH]; intros sts Hrun.
- cbn in Hrun. injection Hrun as <-. constructor.
- cbn [validate_columns] in Hrun.
  destruct (validate_column re_compile rule (dict_get column_name data))
    as [st|e] eqn:Est; [|discriminate Hrun].
  destruct (validate_columns re_compile data rest) as [sts'|e] eqn:Erest;
    [|discriminate Hrun].
  injection Hrun as <-. constructor; [split; [reflexivity|exact Est]|].
  apply IH. reflexivity.
Qed.

(** X22: the counts of the rule-based validation.  For rules given as dicts
    whose only key read as the pattern is [pattern], and a sample whose
    columns all hold one cell per row: the result counts the rows of the
    sample, it has a passed and a failed count for the same columns, all of
    them key columns, no count is negative, and for a column of the sample
    the passed and the failed records add up to the total; for a column that
    is not in the sample both counts are 0. *)
Theorem rule_based_counts (data : DataFrame) (table_mapping : Mapping)
    (res : RuleBasedDataValidationResult.t) :
  (forall column rule,
     (column, rule) ∈ default [] (rule_based_data_validation table_mapping) ->
     NoDup (List.map fst rule)
     /\ forall key, key ∈ List.map fst rule -> PyStr.lower key = "pattern" ->
                    key = "pattern") ->
  (forall column cells,
     (column, cells) ∈ data -> Z.of_nat (length cells) = df_len data) ->
  _rule_based_data_validation re_compile (Some data) table_mapping
  = Return (Some res) ->
  RuleBasedDataValidationResult.total_records res = df_len data
  /\ Forall2
       (fun passed_count failed_count =>
          fst passed_count = fst failed_count
          /\ fst passed_count ∈ default [] (key_columns table_mapping)
          /\ 0 <= snd passed_count
          /\ 0 <= snd failed_count
          /\ snd passed_count + snd failed_count
             = if bool_decide (is_Some (dict_get (fst passed_count) data))
               then RuleBasedDataValidationResult.total_records res
               else 0)
       (RuleBasedDataValidationResult.passed_records_count res)
       (RuleBasedDataValidationResult.failed_records_count res).
Proof.
intros Hrules Hrect. unfold _rule_based_data_validation.
destruct (rule_based_data_validation table_mapping) as [[|entry rules]|] eqn:Er;
  try discriminate.
set (all_rules := entry :: rules) in *.
set (filtered :=
       List.filter
         (fun kv => bool_decide
                      (fst kv ∈ (list_to_set (default [] (key_columns table_mapping))
                                 : gset string)))
         all_rules).
assert (Hfiltered : Forall (fun kv => kv ∈ all_rules
                                      /\ fst kv ∈ default [] (key_columns table_mapping))
                           filtered).
{ apply Forall_forall. intros kv Hin. unfold filtered in Hin.
  rewrite list_elem_of_In in Hin. apply List.filter_In in Hin as [Hin Hkey].
  rewrite <- list_elem_of_In in Hin. split; [exact Hin|].
  apply bool_decide_eq_true in Hkey. apply elem_of_list_to_set in Hkey. exact Hkey. }
destruct filtered as [|first others] eqn:Ef; [discriminate|].
rewrite <- Ef in *. clear Ef.
destruct (validate_columns re_compile data filtered) as [sts|e] eqn:Erun;
  [|discriminate].
cbv zeta. destruct (record_samples table_mapping _) as [drawn|e]; [|discriminate].
intros [= <-]. cbn [RuleBasedDataValidationResult.total_records
                    RuleBasedDataValidationResult.passed_records_count
                    RuleBasedDataValidationResult.failed_records_count].
split; [reflexivity|].
pose proof (validate_columns_spec data filtered sts Erun) as Hspec.
assert (Hsts : Forall
                 (fun cs =>
                    fst cs ∈ default [] (key_columns table_mapping)
                    /\ 0 <= passed (snd cs) /\ 0 <= failed (snd cs)
                    /\ passed (snd cs) + failed (snd cs)
                       = if bool_decide (is_Some (dict_get (fst cs) data))
                         then df_len data else 0)
                 sts).
{ clear Erun. induction Hspec as [|[column rule] [name st] l sts' [Hname Hst] _ IH];
    [constructor|].
  apply Forall_cons in Hfiltered as [[Hin Hkey] Hrest].
  cbn [fst snd] in *. subst name.
  constructor; [|apply IH; exact Hrest]. cbn [fst snd].
  split; [exact Hkey|].
  destruct (Hrules column rule Hin) as [Hnd Hexact].
  destruct (dict_get column data) as [cells|] eqn:Eg.
  - rewrite bool_decide_eq_true_2 by eauto.
    destruct (validate_column_counts rule cells st Hnd Hexact Hst)
      as (Hsum & Hf & Hp & _).
    destruct (dict_get_split _ _ _ Eg) as (before & after & Hdata & _).
    assert (Hcells : (column, cells) ∈ data)
      by (rewrite Hdata; apply elem_of_app; right; left).
    rewrite <- (Hrect column cells Hcells). auto.
  - rewrite bool_decide_eq_false_2 by (intros [? ?]; discriminate).
    cbn in Hst. injection Hst as <-. cbn. lia. }
clear Hspec Erun Hfiltered. induction Hsts as [|cs sts' Hcs _ IH]; [constructor|].
cbn [List.map]. constructor; [|exact IH]. cbn [fst snd].
destruct Hcs as (Hkey & Hp & Hf & Hsum). auto.
Qed.

End RuleCounts.

(** ** The constructor of a table mapping *)

Section PostInitResult.

Import TableMapping.

Lemma app_empty_r (s : string) : s +:+ "" = s.
Proof. induction s as [|c s IH]; [reflexivity|]. rewrite append_cons, IH. reflexivity. Qed.

Lemma app_assoc_string (a b c : string) : (a +:+ b) +:+ c = a +:+ (b +:+ c).
Proof.
induction a as [|x a IH]; [reflexivity|]. rewrite !append_cons, IH. reflexivity.
Qed.

Lemma rev_app_spec (s acc : string) :
  String.rev_app s acc = String.rev s +:+ acc.
Proof.
unfold String.rev. revert acc. induction s as [|c s IH]; intros acc; [reflexivity|].
cbn [String.rev_app]. rewrite (IH (String c acc)), (IH (String c "")).
rewrite app_assoc_string. reflexivity.
Qed.

Lemma rev_cons (c : ascii) (s : string) :
  String.rev (String c s) = String.rev s +:+ String c "".
Proof. unfold String.rev at 1. cbn [String.rev_app]. apply rev_app_spec. Qed.

Lemma rev_app_distr (a b : string) :
  String.rev (a +:+ b) = String.rev b +:+ String.rev a.
Proof.
induction a as [|c a IH].
- rewrite append_nil. change (String.rev "") with "". rewrite app_empty_r. reflexivity.
- rewrite append_cons, !rev_cons, IH, app_assoc_string. reflexivity.
Qed.

Lemma rev_involutive (s : string) : String.rev (String.rev s) = s.
Proof.
induction s as [|c s IH]; [reflexivity|].
rewrite rev_cons, rev_app_distr, IH. reflexivity.
Qed.

Lemma lstrip_shape (s : string) :
  PyStr.lstrip s = ""
  \/ exists c t, PyStr.lstrip s = String c t /\ PyStr.isspace c = false.
Proof.
induction s as [|c s IH]; [left; reflexivity|]. cbn [PyStr.lstrip].
destruct (PyStr.isspace c) eqn:E; [exact IH|]. right. eauto.
Qed.

Lemma lstrip_idempotent (s : string) : PyStr.lstrip (PyStr.lstrip s) = PyStr.lstrip s.
Proof.
destruct (lstrip_shape s) as [->|(c & t & -> & Hc)]; [reflexivity|].
cbn [PyStr.lstrip]. rewrite Hc. reflexivity.
Qed.

Lemma lstrip_app_nonspace (a b : string) (c : ascii) :
  PyStr.isspace c = false ->
  PyStr.lstrip (a +:+ String c b) = PyStr.lstrip a +:+ String c b.
Proof.
intros Hc. induction a as [|d a IH].
- rewrite append_nil. cbn [PyStr.lstrip]. rewrite Hc. reflexivity.
- rewrite append_cons. cbn [PyStr.lstrip].
  destruct (PyStr.isspace d); [exact IH|]. rewrite append_cons. reflexivity.
Qed.

Lemma rstrip_cons_nonspace (c : ascii) (t : string) :
  PyStr.isspace c = false ->
  PyStr.rstrip (String c t) = String c (PyStr.rstrip t).
Proof.
intros Hc. unfold PyStr.rstrip.
rewrite rev_cons, (lstrip_app_nonspace _ _ _ Hc), rev_app_distr. reflexivity.
Qed.

Lemma rstrip_idempotent (s : string) : PyStr.rstrip (PyStr.rstrip s) = PyStr.rstrip s.
Proof. unfold PyStr.rstrip. rewrite rev_involutive, lstrip_idempotent. reflexivity. Qed.

Lemma strip_idempotent (s : string) : PyStr.strip (PyStr.strip s) = PyStr.strip s.
Proof.
unfold PyStr.strip.
destruct (lstrip_shape s) as [->|(c & t & -> & Hc)]; [reflexivity|].
rewrite (rstrip_cons_nonspace _ _ Hc). cbn [PyStr.lstrip]. rewrite Hc.
rewrite (rstrip_cons_nonspace _ _ Hc), rstrip_idempotent. reflexivity.
Qed.

Lemma clean_key_columns_clean (cols : list string) :
  Forall (fun k => k <> "" /\ PyStr.strip k = k) (clean_key_columns cols).
Proof.
unfold clean_key_columns. apply Forall_forall. intros k Hk.
apply list_elem_of_fmap in Hk as (col & -> & Hcol).
rewrite list_elem_of_In in Hcol. apply List.filter_In in Hcol as [_ Hne].
split; [|apply strip_idempotent].
intros E. rewrite E in Hne. discriminate Hne.
Qed.

Lemma clean_key_columns_fixed (keys : list string) :
  Forall (fun k => k <> "" /\ PyStr.strip k = k) keys ->
  clean_key_columns keys = keys.
Proof.
unfold clean_key_columns. induction 1 as [|k keys [Hne Hk] _ IH]; [reflexivity|].
cbn [List.filter]. rewrite Hk.
destruct (String.eqb k "") eqn:E; [apply String.eqb_eq in E; contradiction|].
cbn [negb List.map]. rewrite Hk, IH. reflexivity.
Qed.

Lemma truthy_app (a b : string) :
  a <> "" -> PyStr.truthy (Some (a +:+ b)) = true.
Proof. destruct a; [contradiction|]. reflexivity. Qed.

(** X23: every mapping the constructor returns has both table names (a
    missing one is the other), a list of key columns each of which is
    stripped and not empty, and an identifier; and constructing again from
    such a mapping changes nothing. *)
Theorem post_init_result (set_iter : list string -> list string)
    (self m : Mapping) :
  __post_init__ set_iter self = Return m ->
  PyStr.truthy (source_table m) = true
  /\ PyStr.truthy (target_table m) = true
  /\ (PyStr.truthy (source_table self) = true ->
      source_table m = source_table self)
  /\ (PyStr.truthy (target_table self) = true ->
      target_table m = target_table self)
  /\ (PyStr.truthy (source_table self) = false
      \/ PyStr.truthy (target_table self) = false ->
      source_table m = target_table m)
  /\ (exists keys,
        key_columns m = Some keys
        /\ Forall (fun k => k <> "" /\ PyStr.strip k = k) keys)
  /\ PyStr.truthy (unique_data_mapping_id m) = true
  /\ __post_init__ set_iter m = Return m.
Proof.
intros Hrun.
destruct (PyStr.truthy (source_table self) || PyStr.truthy (target_table self))
  eqn:Htab.
2: { unfold __post_init__ in Hrun. apply orb_false_iff in Htab as [Hs Ht].
     rewrite Hs, Ht in Hrun. cbn [negb andb] in Hrun. discriminate Hrun. }
rewrite (post_init_with_tables _ _ Htab) in Hrun. cbv zeta in Hrun.
assert (Hm : exists ident,
          PyStr.truthy ident = true
          /\ m = mk (Some (clean_key_columns (default [] (key_columns self))))
                    (key_columns_cast_types self)
                    (if PyStr.truthy (source_table self) then source_table self
                     else target_table self)
                    (if PyStr.truthy (source_table self)
                     then if PyStr.truthy (target_table self)
                          then target_table self else source_table self
                     else target_table self)
                    (group self) (sample_size self)
                    (data_transformation_rules self)
                    (number_of_set_sample_records_for_detailed_report self)
                    (max_item_length_for_html_report self)
                    (max_word_length_for_html_report self)
                    (rule_based_data_validation self) ident
                    (Some (default [] (exclude_columns self)))
                    (Some (default [] (custom_mappings self)))).
{ destruct (PyStr.truthy (unique_data_mapping_id self)) eqn:Hid.
  - injection Hrun as <-. eauto.
  - destruct (data_transformation_rules self) as [rules|]; [|discriminate Hrun].
    injection Hrun as <-. eexists. split; [|reflexivity].
    unfold generated_id.
    destruct (PyStr.truthy (source_table self)) eqn:Hs.
    + destruct (source_table self) as [[|c s]|]; try discriminate Hs. reflexivity.
    + cbn in Htab.
      destruct (target_table self) as [[|c s]|]; try discriminate Htab.
      reflexivity. }
destruct Hm as (ident & Hid & ->).
cbn [source_table target_table key_columns unique_data_mapping_id].
pose proof (clean_key_columns_clean (default [] (key_columns self))) as Hclean.
destruct (PyStr.truthy (source_table self)) eqn:Hs,
         (PyStr.truthy (target_table self)) eqn:Ht; try discriminate Htab.
all: repeat split; try assumption; try reflexivity; try discriminate; eauto.
all: try (intros [E|E]; discriminate E).
all: rewrite post_init_with_tables
  by (cbn [source_table target_table]; rewrite ?Hs, ?Ht; reflexivity);
  cbv zeta; cbn [source_table target_table key_columns unique_data_mapping_id
                 key_columns_cast_types group sample_size data_transformation_rules
                 number_of_set_sample_records_for_detailed_report
                 max_item_length_for_html_report max_word_length_for_html_report
                 rule_based_data_validation exclude_columns custom_mappings
                 from_option id];
  rewrite ?Hs, ?Ht, Hid, (clean_key_columns_fixed _ Hclean); reflexivity.
Qed.

End PostInitResult.

(** ** The whole run *)

Section TransitionResults.

Import ValidationStatus ValidationIssue TableStatus Validator OverallValidation.
Import Transition.

Context {F : Type} `{PyFloat F}.
Context {K : Type} `{Countable K}.

Variable settings : Settings F.
Variable transform : list string -> K -> K.
Variable re_compile : string -> option (string -> bool).
Variable distribution :
  Mapping -> option (Sample K) -> option (Sample K) -> outcome unit.

#[local] Abbreviation keys_of := DataMatchValidationResult.key_columns.
#[local] Abbreviation source_of := DataMatchValidationResult.source_table.

Lemma check_row_counts_ids (source_count target_count : option Z)
    (result : TableResult) :
  keys_of (check_row_counts settings source_count target_count result)
  = keys_of result
  /\ source_of (check_row_counts settings source_count target_count result)
     = source_of result.
Proof.
unfold check_row_counts.
destruct source_count, target_count; try (split; reflexivity).
destruct (negb _); split; reflexivity.
Qed.

Lemma merge_issues_ids (issues : list Issue) (result : TableResult) :
  keys_of (fold_left merge_issue issues result) = keys_of result
  /\ source_of (fold_left merge_issue issues result) = source_of result.
Proof.
revert result. induction issues as [|issue issues IH]; intros result; simpl.
- split; reflexivity.
- destruct (IH (merge_issue result issue)) as [-> ->].
  unfold merge_issue. case_bool_decide; split; reflexivity.
Qed.

Lemma apply_success_rate_ids (source_count target_count : option Z)
    (success_rate : F) (result : TableResult) :
  keys_of (apply_success_rate settings source_count target_count success_rate result)
  = keys_of result
  /\ source_of (apply_success_rate settings source_count target_count success_rate
                                   result)
     = source_of result.
Proof.
unfold apply_success_rate. destruct (fltb _ (float_of_int 100)); split; reflexivity.
Qed.

(** A table result carries the key columns and the source table of its
    mapping. *)
Lemma task_result_ids (mapping : Mapping) (sample_size : option Z)
    (io : Probe K) (r : TableResult) :
  _validate_single_table_data settings transform re_compile distribution mapping
    sample_size io = Return r ->
  keys_of r = TableMapping.key_columns mapping
  /\ source_of r = TableMapping.source_table mapping.
Proof.
unfold _validate_single_table_data. intros Hrun.
destruct (unknown_or_empty _ && unknown_or_empty _).
{ injection Hrun as <-. split; reflexivity. }
destruct (bool_decide _ && bool_decide _).
{ injection Hrun as <-. cbn [keys_of source_of DataMatchValidationResult.set_status].
  match goal with
  | |- keys_of (check_row_counts _ ?s ?t ?x) = _ /\ _ =>
      destruct (check_row_counts_ids s t x) as [-> ->]
  end. split; reflexivity. }
destruct (TableMapping.key_columns mapping) as [[|k ks]|] eqn:Ek.
1, 3: injection Hrun as <-;
      cbn [keys_of source_of DataMatchValidationResult.set_data_match_validation_issues];
      match goal with
      | |- keys_of (check_row_counts _ ?s ?t ?x) = _ /\ _ =>
          destruct (check_row_counts_ids s t x) as [-> ->]
      end; cbn; rewrite Ek; split; reflexivity.
destruct (_compare_sample_data _ _ _ _ _ _ _ _) as [c'|e]; [|discriminate Hrun].
destruct (CompareSampleDataResult.interpolated_matching_records_of_tables_from_success_rate c');
  [|discriminate Hrun].
injection Hrun as <-.
match goal with
| |- keys_of (apply_success_rate _ ?s ?t ?rate ?x) = _ /\ _ =>
    destruct (apply_success_rate_ids s t rate x) as [-> ->]
end.
cbn [keys_of source_of DataMatchValidationResult.set_matching_records].
match goal with
| |- keys_of (fold_left merge_issue ?l ?x) = _ /\ _ =>
    destruct (merge_issues_ids l x) as [-> ->]
end.
cbn [keys_of source_of DataMatchValidationResult.set_compare_sample_data_result].
match goal with
| |- keys_of (check_row_counts _ ?s ?t ?x) = _ /\ _ =>
    destruct (check_row_counts_ids s t x) as [-> ->]
end. cbn. rewrite Ek. split; reflexivity.
Qed.

(** The rule-based validation raises instances of [Exception] only. *)
Lemma rule_based_raises (data : option DataFrame) (table_mapping : Mapping)
    (e : exn) :
  RuleBased._rule_based_data_validation re_compile data table_mapping = Raise e ->
  is_Exception e = true.
Proof.
assert (Hkeys : forall can_be_null must_be_unique cells entries st,
          RuleBased.scan_keys re_compile can_be_null must_be_unique cells entries st
          = Raise e ->
          is_Exception e = true).
{ intros can_be_null must_be_unique cells entries.
  induction entries as [|[key value] entries IH]; intros st; cbn [RuleBased.scan_keys];
    [discriminate|].
  destruct (String.eqb _ "pattern"); [|apply IH].
  destruct (RuleBased.apply_pattern _ _ _ _ _ value) as [st'|e'] eqn:Ep; [apply IH|].
  intros E. injection E as ->. unfold RuleBased.apply_pattern in Ep.
  destruct value as [| | |p]; try (injection Ep as <-; reflexivity).
  destruct (re_compile p) as [fullmatch|]; [|injection Ep as <-; reflexivity].
  destruct (fold_left _ _ _) as [[matched non_matched] failed_count].
  discriminate Ep. }
assert (Hcolumns : forall frame rules,
          RuleBased.validate_columns re_compile frame rules = Raise e ->
          is_Exception e = true).
{ intros frame rules. induction rules as [|[column rule] rules IH];
    cbn [RuleBased.validate_columns]; [discriminate|].
  destruct (RuleBased.validate_column re_compile rule _) as [st|e'] eqn:Ec.
  - destruct (RuleBased.validate_columns re_compile frame rules) as [sts|e''];
      [discriminate|].
    intros E. injection E as ->. apply IH. reflexivity.
  - intros E. injection E as ->. unfold RuleBased.validate_column in Ec.
    destruct (dict_get column frame) as [cells|]; [|discriminate Ec].
    exact (Hkeys _ _ _ _ _ Ec). }
unfold RuleBased._rule_based_data_validation.
destruct (TableMapping.rule_based_data_validation table_mapping) as [[|entry rules]|];
  try discriminate.
destruct data as [frame|]; [|discriminate].
destruct (List.filter _ _) as [|first others]; [discriminate|].
destruct (RuleBased.validate_columns re_compile frame _) as [sts|e'] eqn:Ec.
- cbv zeta. unfold RuleBased.record_samples.
  destruct (_ ++ _) as [|drawn sets]; [discriminate|].
  destruct (islice_accepts _); [discriminate|].
  intros E. injection E as <-. reflexivity.
- intros E. injection E as ->. exact (Hcolumns _ _ Ec).
Qed.

Lemma rule_based_block_raises (mapping : Mapping)
    (source_sample target_sample : option (Sample K)) (e : exn) :
  rule_based_data_validation_block settings re_compile mapping source_sample
                                   target_sample = Raise e ->
  is_Exception e = true.
Proof.
unfold rule_based_data_validation_block.
destruct (TableMapping.rule_based_data_validation mapping) as [[|entry rules]|];
  try discriminate.
destruct (default true (enable_rule_based_data_validation settings));
  [|discriminate].
destruct (RuleBased._rule_based_data_validation re_compile (frame <$> source_sample)
                                                mapping) as [source_result|e1] eqn:E1.
- destruct (RuleBased._rule_based_data_validation re_compile (frame <$> target_sample)
                                                  mapping) as [target_result|e2] eqn:E2;
    [discriminate|].
  intros E. injection E as ->. exact (rule_based_raises _ _ _ E2).
- intros E. injection E as ->. exact (rule_based_raises _ _ _ E1).
Qed.

(** What the [except] clause raises is an instance of [Exception], or the
    exception it was given when that is none. *)
Lemma compare_except_raises (mapping : Mapping) (sample_size : option Z)
    (source_sample target_sample : option (Sample K)) (S T : gset K)
    (raised e : exn) :
  compare_except mapping sample_size source_sample target_sample S T raised
  = Raise e ->
  is_Exception e = true \/ e = raised.
Proof.
unfold compare_except. destruct (is_Exception raised) eqn:Ex.
- destruct source_sample, target_sample; try discriminate;
    intros E; injection E as <-; left; reflexivity.
- intros E. injection E as <-. right. reflexivity.
Qed.

(** The comparison raises an instance of [Exception], or what a sample
    query or the distribution-based validation raised. *)
Lemma compare_sample_data_raises (mapping : Mapping) (sample_size : option Z)
    (source_sample_query target_sample_query : outcome (option (Sample K)))
    (e : exn) :
  _compare_sample_data settings transform re_compile distribution mapping
    sample_size source_sample_query target_sample_query = Raise e ->
  is_Exception e = true
  \/ source_sample_query = Raise e \/ target_sample_query = Raise e
  \/ exists source_sample target_sample,
       distribution mapping source_sample target_sample = Raise e.
Proof.
unfold _compare_sample_data.
destruct source_sample_query as [source_sample|e1].
2: { intros E. apply compare_except_raises in E as [E| ->]; auto. }
destruct target_sample_query as [target_sample|e2].
2: { intros E. apply compare_except_raises in E as [E| ->]; auto. }
destruct (rule_based_data_validation_block _ _ _ _ _) as [rule_based|e3] eqn:E3.
2: { intros E. apply compare_except_raises in E as [E| ->]; [auto|].
     left. exact (rule_based_block_raises _ _ _ _ E3). }
destruct (distribution mapping source_sample target_sample)
  as [distribution_based|e4] eqn:E4.
2: { intros E. apply compare_except_raises in E as [E| ->]; [auto|].
     right; right; right. eauto. }
destruct (key_sets transform mapping source_sample target_sample) as [S T].
destruct (islice_accepts _); [discriminate|].
intros E. apply compare_except_raises in E as [E| ->]; [auto|].
left. reflexivity.
Qed.

(** The task raises an instance of [Exception], or what a sample query or
    the distribution-based validation raised. *)
Lemma task_raises (mapping : Mapping) (sample_size : option Z)
    (io : Probe K) (e : exn) :
  _validate_single_table_data settings transform re_compile distribution mapping
    sample_size io = Raise e ->
  is_Exception e = true
  \/ source_sample_query io = Raise e \/ target_sample_query io = Raise e
  \/ exists source_sample target_sample,
       distribution mapping source_sample target_sample = Raise e.
Proof.
unfold _validate_single_table_data. intros Hrun.
destruct (unknown_or_empty _ && unknown_or_empty _); [discriminate Hrun|].
destruct (bool_decide _ && bool_decide _); [discriminate Hrun|].
destruct (TableMapping.key_columns mapping) as [[|k ks]|]; try discriminate Hrun.
destruct (_compare_sample_data _ _ _ _ _ _ _ _) as [c'|e'] eqn:Ec.
- destruct (CompareSampleDataResult.interpolated_matching_records_of_tables_from_success_rate c');
    [discriminate Hrun|].
  injection Hrun as <-. left. reflexivity.
- injection Hrun as ->. exact (compare_sample_data_raises _ _ _ _ _ Ec).
Qed.

Variable sample_size : option Z.

(** What the connector answers to the data task, and the inspector to the
    schema task, submitted [i]-th. *)
Variable data_io : nat -> Mapping -> Probe K.
Variable schema_io : nat -> Mapping -> SchemaValidator.Probe.
Variable set_iter : list string -> list string.
Hypothesis set_iter_admissible : TableMapping.admissible set_iter.
Variable schema_completed : list (nat * Mapping) -> list (nat * Mapping).
Variable data_completed : list (nat * Mapping) -> list (nat * Mapping).

Variable default_value : option Z.
Variable sorting : report_sorting_settings.
Variable connected : bool.

#[local] Abbreviation data_task :=
  (fun (i : nat) (mapping : Mapping) =>
     _validate_single_table_data settings transform re_compile distribution mapping
       sample_size (data_io i mapping)).

#[local] Abbreviation schema_task :=
  (fun (i : nat) (mapping : Mapping) =>
     SchemaValidator._validate_single_schema set_iter mapping (schema_io i mapping)).

#[local] Abbreviation constructed :=
  (fun m : Mapping =>
     is_Some (TableMapping.key_columns m) /\ is_Some (TableMapping.source_table m)).

Lemma validate_data_results (table_mappings : list Mapping) :
  (forall futures, data_completed futures ≡ₚ futures) ->
  (forall i m e,
     source_sample_query (data_io i m) = Raise e
     \/ target_sample_query (data_io i m) = Raise e ->
     is_Exception e = true) ->
  (forall m source_sample target_sample e,
     distribution m source_sample target_sample = Raise e ->
     is_Exception e = true) ->
  exists results,
    _validate_data data_task data_completed table_mappings = Return results
    /\ length results = length table_mappings
    /\ forall r, r ∈ results ->
         DataMatchValidationResult.status r <> SKIP
         /\ exists m, m ∈ table_mappings
                      /\ keys_of r = TableMapping.key_columns m
                      /\ source_of r = TableMapping.source_table m.
Proof.
intros Hperm Hexc Hdist. unfold _validate_data.
set (futures := data_completed (submit_all table_mappings)).
assert (Hall : Forall (fun future => forall e,
                         data_task (fst future) (snd future) = Raise e ->
                         is_Exception e = true) futures).
{ apply Forall_forall. intros [i m] _ e He. cbn [fst snd] in He.
  destruct (task_raises _ _ _ _ He) as [Hx|[Hq|[Hq|(s & t & Hq)]]]; [exact Hx|..].
  - exact (Hexc i m e (or_introl Hq)).
  - exact (Hexc i m e (or_intror Hq)).
  - exact (Hdist m s t e Hq). }
rewrite (collect_settles data_task futures [] Hall). cbn [app].
eexists. split; [reflexivity|].
assert (Hmaps : List.map snd futures ≡ₚ table_mappings).
{ unfold futures. rewrite (Hperm _), submit_all_mappings. reflexivity. }
split.
{ rewrite length_map, <- (length_map snd futures), Hmaps. reflexivity. }
intros r Hr. apply list_elem_of_fmap in Hr as ([i m] & -> & Hin).
assert (Hm : m ∈ table_mappings).
{ rewrite <- Hmaps. apply (list_elem_of_fmap_2 snd) in Hin. exact Hin. }
unfold settled. cbn [fst snd]. cbv beta.
destruct (_validate_single_table_data settings transform re_compile distribution m
    sample_size (data_io i m))
  as [r|e] eqn:Er.
- split; [apply (task_status_covers_row_counts_aux settings transform re_compile distribution _ _ _ _ Er)|].
  exists m. split; [exact Hm|]. apply (task_result_ids _ _ _ _ Er).
- split; [discriminate|]. exists m. split; [exact Hm|]. split; reflexivity.
Qed.

Lemma rewritten_mappings (table_mappings : list Mapping) :
  let rewritten :=
    set_default_number_of_set_sample_records_for_detailed_report default_value
      (KeyColumnCasts.build_key_columns_cast_types_from_key_columns table_mappings) in
  length rewritten = length table_mappings
  /\ List.map TableMapping.source_table rewritten
     = List.map TableMapping.source_table table_mappings
  /\ (Forall constructed table_mappings -> Forall constructed rewritten).
Proof.
cbv zeta.
unfold set_default_number_of_set_sample_records_for_detailed_report,
  KeyColumnCasts.build_key_columns_cast_types_from_key_columns.
assert (Hone : forall m : Mapping,
          let m' := set_default_of_mapping default_value
                      (KeyColumnCasts.build_cast_types m) in
          TableMapping.source_table m' = TableMapping.source_table m
          /\ (constructed m -> constructed m')).
{ intros m. cbv zeta.
  destruct (build_cast_types_keeps m) as (Hs & _).
  assert (Hk : is_Some (TableMapping.key_columns m) ->
               is_Some (TableMapping.key_columns (KeyColumnCasts.build_cast_types m))).
  { destruct m as [kc cc ? ? ? ? ? ? ? ? ? ? ? ?].
    unfold KeyColumnCasts.build_cast_types.
    cbn [TableMapping.key_columns TableMapping.key_columns_cast_types].
    destruct kc as [[|k ks]|]; try (cbn; auto; fail).
    destruct cc as [[|c cs]|]; try (cbn; eauto; fail).
    destruct (negb _); cbn; eauto. }
  unfold set_default_of_mapping.
  destruct (TableMapping.number_of_set_sample_records_for_detailed_report
              (KeyColumnCasts.build_cast_types m)) as [n|];
    [destruct (n =? 0)|];
    cbn [TableMapping.source_table TableMapping.key_columns
         set_number_of_set_sample_records_for_detailed_report];
    (split; [exact Hs|]); intros [Hkeys Hsource]; rewrite ?Hs; auto. }
rewrite !length_map, !List.map_map.
split; [reflexivity|]. split.
- apply List.map_ext. intros m. apply (Hone m).
- intros Hall. apply Forall_forall. intros m' Hm'.
  apply list_elem_of_fmap in Hm' as (m & -> & Hm).
  rewrite Forall_forall in Hall. apply (Hone m), Hall, Hm.
Qed.

Lemma deduplicate_sources (table_mappings : list Mapping) :
  forall (seen : gset (option string)) (name : option string),
    name ∈ List.map TableMapping.source_table
             (SchemaValidator.deduplicate seen table_mappings)
    <-> name ∈ List.map TableMapping.source_table table_mappings /\ name ∉ seen.
Proof.
induction table_mappings as [|item rest IH]; intros seen name;
  cbn [SchemaValidator.deduplicate List.map].
- split; [intros Hin; inversion Hin|intros [Hin _]; inversion Hin].
- case_bool_decide as Hseen.
  + rewrite IH, elem_of_cons. split; [tauto|].
    intros [[->|Hin] Hnot]; [contradiction|auto].
  + cbn [List.map]. rewrite !elem_of_cons, IH, not_elem_of_union, elem_of_singleton.
    split.
    * intros [->|(Hin & Hne & Hnot)]; auto.
    * intros [[->|Hin] Hnot]; [auto|].
      destruct (decide (name = TableMapping.source_table item)); auto.
Qed.

(** X24: the whole run.  When the completion orders are rearrangements,
    the inspection, the sample queries and the distribution-based validation
    raise nothing but instances of [Exception], the mappings come from the
    constructor, and the schema
    report is not sorted by severity in a run that has no connection to
    inspect: the run returns.  Its result has the given identifier and one
    table result for every mapping when the data validation is enabled, none
    otherwise, none of them SKIP.  Its schema results are [None] exactly when
    the schema validation is enabled without a connection, the empty list
    when it is disabled, and else one result for every source table of the
    mappings.  The run is PASS overall only when both validations are
    enabled, the connection is there and there is a mapping. *)
Theorem validate_transition_returns (validation_id : string)
    (table_mappings : list Mapping)
    (enable_schema_validation enable_data_validation : bool) :
  (forall futures, schema_completed futures ≡ₚ futures) ->
  (forall futures, data_completed futures ≡ₚ futures) ->
  (forall i m e,
     SchemaValidator.source_columns_query (schema_io i m) = Raise e
     \/ SchemaValidator.target_columns_query (schema_io i m) = Raise e ->
     is_Exception e = true) ->
  (forall i m e,
     source_sample_query (data_io i m) = Raise e
     \/ target_sample_query (data_io i m) = Raise e ->
     is_Exception e = true) ->
  (forall m source_sample target_sample e,
     distribution m source_sample target_sample = Raise e ->
     is_Exception e = true) ->
  Forall (fun m => is_Some (TableMapping.key_columns m)
                   /\ is_Some (TableMapping.source_table m)) table_mappings ->
  (enable_schema_validation = true -> connected = false ->
   existsb (is_by "severity_status") (schema_report sorting) = false) ->
  exists self,
    validate_transition default_value sorting connected schema_task schema_completed
      data_task data_completed validation_id table_mappings
      enable_schema_validation enable_data_validation
    = Return self
    /\ OverallValidation.validation_id self = validation_id
    /\ length (data_match_validation_result self)
       = (if enable_data_validation then length table_mappings else 0%nat)
    /\ (forall r, r ∈ data_match_validation_result self ->
          DataMatchValidationResult.status r <> SKIP)
    /\ (schema_validation_results self = None
        <-> enable_schema_validation = true /\ connected = false)
    /\ (enable_schema_validation = false ->
        schema_validation_results self = Some [])
    /\ (enable_schema_validation = true -> connected = true ->
        exists schema_results,
          schema_validation_results self = Some schema_results
          /\ NoDup (List.map SchemaValidationResult.source_table_name schema_results)
          /\ forall name,
               name ∈ List.map SchemaValidationResult.source_table_name
                        schema_results
               <-> name ∈ List.map TableMapping.source_table table_mappings)
    /\ (overall_status self = PASS ->
        enable_schema_validation = true /\ connected = true
        /\ enable_data_validation = true /\ table_mappings <> []).
Proof.
intros Hperm_s Hperm_d Hexc_s Hexc_d Hdist Hcon Hsort. unfold validate_transition.
destruct (rewritten_mappings table_mappings) as (Hlen & Hsrc & Hcon').
cbv zeta in Hlen, Hsrc, Hcon'. specialize (Hcon' Hcon).
set (rewritten :=
       set_default_number_of_set_sample_records_for_detailed_report default_value
         (KeyColumnCasts.build_key_columns_cast_types_from_key_columns
            table_mappings)) in *.
(* the schema phase *)
assert (Hschema : exists schema,
          (if enable_schema_validation then
             if connected then
               match
                 SchemaValidator._validate_schemas schema_task schema_completed
                                                   rewritten
               with
               | Raise e => Raise e
               | Return schema_results => Return (Some schema_results)
               end
             else Return None
           else Return (Some []))
          = Return schema
          /\ (schema = None <-> enable_schema_validation = true /\ connected = false)
          /\ (enable_schema_validation = false -> schema = Some [])
          /\ (enable_schema_validation = true -> connected = true ->
              exists schema_results,
                schema = Some schema_results
                /\ NoDup (List.map SchemaValidationResult.source_table_name
                                   schema_results)
                /\ forall name,
                     name ∈ List.map SchemaValidationResult.source_table_name
                              schema_results
                     <-> name ∈ List.map TableMapping.source_table table_mappings)).
{ destruct enable_schema_validation, connected.
  - destruct (validate_schemas_results set_iter set_iter_admissible schema_io
                schema_completed rewritten Hperm_s Hexc_s)
      as (sres & Hs & Hpairs & _ & Hnd & _).
    rewrite Hs. eexists. split; [reflexivity|].
    split; [split; [discriminate|intros [_ E]; discriminate E] |].
    split; [discriminate|]. intros _ _. exists sres.
    split; [reflexivity|]. split; [exact Hnd|]. intros name.
    assert (Hsources : List.map SchemaValidationResult.source_table_name sres
                       ≡ₚ List.map TableMapping.source_table
                             (SchemaValidator.deduplicate ∅ rewritten)).
    { apply (Permutation_map fst) in Hpairs. rewrite !List.map_map in Hpairs.
      exact Hpairs. }
    rewrite Hsources, deduplicate_sources, Hsrc. split; [tauto|].
    intros Hin. split; [exact Hin|apply not_elem_of_empty].
  - eexists. split; [reflexivity|]. split; [tauto|].
    split; discriminate.
  - eexists. split; [reflexivity|].
    split; [split; [discriminate|intros [E _]; discriminate E] |].
    split; [reflexivity|discriminate].
  - eexists. split; [reflexivity|].
    split; [split; [discriminate|intros [E _]; discriminate E] |].
    split; [reflexivity|discriminate]. }
destruct Hschema as (schema & -> & Hnone & Hoff & Hon).
(* the data phase *)
assert (Hdata : exists results,
          (if enable_data_validation
           then _validate_data data_task data_completed rewritten
           else Return [])
          = Return results
          /\ length results
             = (if enable_data_validation then length table_mappings else 0%nat)
          /\ forall r, r ∈ results ->
               DataMatchValidationResult.status r <> SKIP
               /\ is_Some (keys_of r) /\ is_Some (source_of r)).
{ destruct enable_data_validation.
  - destruct (validate_data_results rewritten Hperm_d Hexc_d Hdist)
      as (results & Hd & Hdlen & Hdall).
    exists results. split; [exact Hd|]. split; [rewrite Hdlen; exact Hlen|].
    intros r Hr. destruct (Hdall r Hr) as (Hskip & m & Hm & -> & ->).
    split; [exact Hskip|]. rewrite Forall_forall in Hcon'. apply Hcon', Hm.
  - exists []. split; [reflexivity|]. split; [reflexivity|].
    intros r Hr. inversion Hr. }
destruct Hdata as (results & -> & Hdlen & Hdall).
(* the sorting *)
set (self0 := {| OverallValidation.validation_id := validation_id;
                 schema_validation_results := schema;
                 data_match_validation_result := results;
                 data_match_validation_result_grouped := [] |}).
assert (Hpre : schema_validation_results self0 = None ->
               existsb (is_by "severity_status") (schema_report sorting) = false).
{ cbn. intros E. apply Hnone in E as [E1 E2]. exact (Hsort E1 E2). }
assert (Hcomplete : Forall (fun r => is_Some (keys_of r) /\ is_Some (source_of r))
                           (data_match_validation_result self0)).
{ cbn. apply Forall_forall. intros r Hr. apply (Hdall r Hr). }
destruct (sort_results_keeps sorting self0 Hpre Hcomplete)
  as (self & Hrun & Hid & Hresults & Hschemas & Et & Es & _ & _ & Eo).
exists self. split; [exact Hrun|]. split; [exact Hid|].
destruct (sort_results_inv sorting self0 self Hrun) as (_ & Hsch & _).
cbn [schema_validation_results data_match_validation_result self0] in *.
split; [rewrite Hresults; exact Hdlen|].
split; [intros r Hr; rewrite Hresults in Hr; apply (Hdall r Hr)|].
split.
{ rewrite Hsch, <- Hnone. destruct schema; cbn; split; try discriminate; auto. }
split.
{ intros E. rewrite Hsch, (Hoff E). cbn. f_equal.
  assert (Hp : sort_by_severity SchemaValidationResult.status
                 (schema_report sorting) [] ≡ₚ [])
    by apply sort_by_severity_perm.
  apply Permutation_nil_r in Hp. exact Hp. }
split.
{ intros E1 E2. destruct (Hon E1 E2) as (sres & -> & Hnd & Hmem).
  rewrite Hsch. cbn. eexists. split; [reflexivity|].
  assert (Hp : List.map SchemaValidationResult.source_table_name
                 (sort_by_severity SchemaValidationResult.status
                    (schema_report sorting) sres)
               ≡ₚ List.map SchemaValidationResult.source_table_name sres)
    by (apply Permutation_map, sort_by_severity_perm).
  split; [rewrite Hp; exact Hnd|]. intros name. rewrite Hp. apply Hmem. }
intros Hpass. rewrite Eo in Hpass.
apply (overall_status_of_parts self0) in Hpass as [Htable Hschema].
apply (status_of_list_cases DataMatchValidationResult.status results) in Htable
  as [Hne _].
apply (status_of_list_cases SchemaValidationResult.status (default [] schema))
  in Hschema as [Hne' _].
assert (Hs : enable_schema_validation = true /\ connected = true).
{ destruct enable_schema_validation.
  - split; [reflexivity|]. destruct connected; [reflexivity|].
    exfalso. apply Hne'. assert (E : schema = None) by (apply Hnone; auto).
    rewrite E. reflexivity.
  - exfalso. apply Hne'. rewrite (Hoff eq_refl). reflexivity. }
destruct Hs as [Hs1 Hs2]. split; [exact Hs1|]. split; [exact Hs2|].
destruct enable_data_validation.
- split; [reflexivity|]. intros ->. destruct results; [contradiction|discriminate].
- destruct results; [contradiction|discriminate].
Qed.

(** X25: a run with the schema validation enabled but without a source or
    target connection, whose settings sort the schema report by severity,
    does not return a result: when the data phase has returned, sorting the
    missing schema results raises. *)
Theorem validate_transition_without_connection (validation_id : string)
    (table_mappings : list Mapping) (enable_data_validation : bool)
    (schema_run : nat -> Mapping -> outcome SchemaResult)
    (data_run : nat -> Mapping -> outcome TableResult) :
  connected = false ->
  existsb (is_by "severity_status") (schema_report sorting) = true ->
  (forall i m e, data_run i m = Raise e -> is_Exception e = true) ->
  validate_transition default_value sorting connected schema_run schema_completed
    data_run data_completed validation_id table_mappings true
    enable_data_validation
  = Raise (OtherException "'NoneType' object has no attribute 'sort'").
Proof.
intros -> Hsort Hexc. unfold validate_transition.
assert (Hdata : exists results,
          (if enable_data_validation
           then _validate_data data_run data_completed
                  (set_default_number_of_set_sample_records_for_detailed_report
                     default_value
                     (KeyColumnCasts.build_key_columns_cast_types_from_key_columns
                        table_mappings))
           else Return [])
          = Return results).
{ destruct enable_data_validation; [|eauto]. unfold _validate_data.
  rewrite collect_settles; [eauto|].
  apply Forall_forall. intros [i m] _ e He. exact (Hexc i m e He). }
destruct Hdata as (results & ->).
unfold sort_results_and_add_data_match_validation_result_grouped.
cbn [schema_validation_results]. rewrite Hsort. reflexivity.
Qed.


End TransitionResults.

(** ** The percentage of the row-count difference a result reports *)

Section PercentDifference.

Import DataMatchValidationResult TableStatus Validator.

Lemma percent_count_difference_positive (r : TableResult) :
  0 < source_count r -> 0 <= target_count r ->
  percent_count_difference (F:=Q) r
  = (inject_Z (source_count r - target_count r) / inject_Z (source_count r)
     * inject_Z 100)%Q.
Proof.
intros Hs Ht. unfold percent_count_difference.
rewrite (proj2 (Z.ltb_ge _ _)) by lia.
rewrite (proj2 (Z.ltb_ge _ _)) by lia.
rewrite (proj2 (Z.eqb_neq _ _)) by lia. reflexivity.
Qed.

(** X26: in exact arithmetic, for a positive source count and a target
    count that is not negative, the percentage a result reports is the
    percentage of the row-count check with the opposite sign: it is positive
    when the target holds fewer rows.  It is at most 100, and 0 exactly when
    the counts are equal.  With both counts 0 it is 0, while the row-count
    check would take the difference as 100. *)
Theorem percent_count_difference_exact (r : TableResult) :
  (0 < source_count r -> 0 <= target_count r ->
   (percent_count_difference (F:=Q) r
    == - percent_diff (F:=Q) (source_count r) (target_count r))%Q
   /\ (percent_count_difference (F:=Q) r <= 100)%Q
   /\ ((percent_count_difference (F:=Q) r == 0)%Q
       <-> source_count r = target_count r))
  /\ (source_count r = 0 -> target_count r = 0 ->
      percent_count_difference (F:=Q) r = 0%Q
      /\ percent_diff (F:=Q) (source_count r) (target_count r) = 100%Q).
Proof.
split.
- intros Hs Ht. rewrite (percent_count_difference_positive r Hs Ht).
  unfold percent_diff. rewrite (proj2 (Z.eqb_neq _ _)) by lia.
  cbn [int_truediv fmul float_of_int exactQ].
  assert (Hne : ~ (inject_Z (source_count r) == 0)%Q).
  { intros E. change 0%Q with (inject_Z 0) in E.
    apply (proj1 (inject_Z_injective _ _)) in E. lia. }
  split; [|split].
  + rewrite inject_Z_opp. field. exact Hne.
  + assert (Hle : (inject_Z (source_count r - target_count r)
                   <= inject_Z (source_count r))%Q)
      by (rewrite <- Zle_Qle; lia).
    assert (Hpos : (0 < inject_Z (source_count r))%Q)
      by (change 0%Q with (inject_Z 0); rewrite <- Zlt_Qlt; exact Hs).
    assert (Hdiv : (inject_Z (source_count r - target_count r)
                    / inject_Z (source_count r) <= 1)%Q).
    { apply Qle_shift_div_r; [exact Hpos|]. rewrite Qmult_1_l. exact Hle. }
    apply (Qle_trans _ (1 * inject_Z 100)%Q);
      [apply Qmult_le_compat_r; [exact Hdiv|discriminate]|discriminate].
  + split.
    * intros E.
      assert (E' : (inject_Z (source_count r - target_count r) == 0)%Q).
      { assert (Hx : (inject_Z (source_count r - target_count r)
                      == (inject_Z (source_count r - target_count r)
                          / inject_Z (source_count r) * inject_Z 100)
                         * (inject_Z (source_count r) / inject_Z 100))%Q)
          by (field; repeat split; first [exact Hne|discriminate]).
        rewrite Hx, E. ring. }
      change 0%Q with (inject_Z 0) in E'.
      apply (proj1 (inject_Z_injective _ _)) in E'. lia.
    * intros E. rewrite E, Z.sub_diag. change (inject_Z 0) with 0%Q.
      field. rewrite <- E. exact Hne.
- intros Hs Ht. unfold percent_count_difference, percent_diff. rewrite Hs, Ht.
  split; reflexivity.
Qed.

End PercentDifference.

(** * The theorems at concrete inputs *)

Lemma task_without_rows_fails_witness :
  exists r,
    Validator._validate_single_table_data Scenario.thresholds_5_1 Scenario.keep
      RuleBased.default_only Scenario.no_distribution_specs
      Scenario.orders None Examples.probe_empty = Return r
    /\ DataMatchValidationResult.status r = FAIL
    /\ DataMatchValidationResult.compare_sample_data_result r = None.
Proof.
destruct (task_without_rows_fails Scenario.thresholds_5_1 Scenario.keep
      RuleBased.default_only Scenario.no_distribution_specs
      Scenario.orders None Examples.probe_empty)
  as (r & Hr & Hs & Hc & _).
- right; right; right. exists 0. split; [reflexivity|lia].
- right; right; right. exists 0. split; [reflexivity|lia].
- exists r. auto.
Defined.

Lemma task_with_row_counts_disabled_witness :
  exists r,
    Validator._validate_single_table_data Examples.row_counts_disabled Scenario.keep
      RuleBased.default_only Scenario.no_distribution_specs
      Scenario.orders None Scenario.probe_1000_950 = Return r
    /\ DataMatchValidationResult.status r = FAIL
    /\ DataMatchValidationResult.data_match_validation_issues r = [].
Proof.
destruct (task_with_row_counts_disabled Examples.row_counts_disabled Scenario.keep
      RuleBased.default_only Scenario.no_distribution_specs
      Scenario.orders None Scenario.probe_1000_950 eq_refl)
  as (r & Hr & Hs & _ & Hnone).
exists r. split; [exact Hr|]. split; [exact Hs|].
apply Hnone; eexists; reflexivity.
Defined.

Lemma task_status_covers_row_counts_witness :
  DataMatchValidationResult.status Scenario.result_1000_950 <> SKIP
  /\ ValidationStatus.le (TableStatus.row_count_status Scenario.result_1000_950)
                         (DataMatchValidationResult.status Scenario.result_1000_950).
Proof.
apply (task_status_covers_row_counts Scenario.thresholds_5_1 Scenario.keep
      RuleBased.default_only Scenario.no_distribution_specs
      Scenario.orders None Scenario.probe_1000_950 Scenario.result_1000_950).
vm_compute. reflexivity.
Defined.

Lemma task_data_match_status_witness :
  TableStatus.get_data_match_status Scenario.result_1000_950
  = DataMatchValidationResult.status Scenario.result_1000_950.
Proof.
apply (task_data_match_status Scenario.thresholds_5_1 Scenario.keep
      RuleBased.default_only Scenario.no_distribution_specs
      Scenario.orders None Scenario.probe_1000_950 Scenario.result_1000_950
         "ID" []).
- reflexivity.
- vm_compute. reflexivity.
Defined.

Lemma task_without_key_columns_witness :
  DataMatchValidationResult.compare_sample_data_result Examples.result_without_keys
  = None
  /\ TableStatus.is_successful Examples.result_without_keys = false.
Proof.
destruct (task_without_key_columns Scenario.thresholds_5_1 Scenario.keep
      RuleBased.default_only Scenario.no_distribution_specs
      Examples.orders_without_keys None Scenario.probe_1000_950
            Examples.result_without_keys)
  as (Hc & _ & _ & _ & _ & Hs).
- right. reflexivity.
- left. vm_compute. reflexivity.
- vm_compute. reflexivity.
- split; assumption.
Defined.

Lemma data_phase_statuses_witness :
  ValidationStatus.le
    (OverallValidation.overall_status_row_count_result Examples.run_of_orders)
    (OverallValidation.overall_status_table_result Examples.run_of_orders)
  /\ OverallValidation.overall_status_data_match_result Examples.run_of_orders
     = OverallValidation.overall_status_table_result Examples.run_of_orders.
Proof.
destruct (data_phase_statuses Scenario.thresholds_5_1 Scenario.keep
      RuleBased.default_only Scenario.no_distribution_specs None
            (fun _ _ => Scenario.probe_1000_950) (fun futures => futures)
            [Scenario.orders; Scenario.orders]
            [Scenario.result_1000_950; Scenario.result_1000_950]
            Examples.run_of_orders)
  as (_ & Hle & Heq).
- intros futures. reflexivity.
- vm_compute. reflexivity.
- reflexivity.
- split; [exact Hle|]. apply Heq. intros mapping Hin.
  exists "ID", []. apply elem_of_cons in Hin as [->|Hin]; [reflexivity|].
  apply elem_of_cons in Hin as [->|Hin]; [reflexivity|inversion Hin].
Defined.

Lemma sort_results_keeps_results_witness :
  exists self',
    OverallValidation.sort_results_and_add_data_match_validation_result_grouped
      Examples.sorting Examples.run_of_two = Return self'
    /\ OverallValidation.overall_status self'
       = OverallValidation.overall_status Examples.run_of_two.
Proof.
destruct (sort_results_keeps_results Examples.sorting Examples.run_of_two)
  as (self' & Hrun & _ & _ & _ & _ & _ & _ & _ & Hstatus).
- intros E. discriminate E.
- repeat constructor; eexists; reflexivity.
- exists self'. split; assumption.
Defined.

Lemma sort_results_groups_witness :
  exists self' groups no_group,
    OverallValidation.sort_results_and_add_data_match_validation_result_grouped
      Examples.sorting Examples.run_of_two = Return self'
    /\ OverallValidation.data_match_validation_result self'
       = List.concat (List.map snd groups) ++ no_group
    /\ OverallValidation.well_grouped groups.
Proof.
destruct (OverallValidation.sort_results_and_add_data_match_validation_result_grouped
            Examples.sorting Examples.run_of_two) as [self'|e] eqn:E;
  [|vm_compute in E; discriminate E].
destruct (sort_results_groups Examples.sorting Examples.run_of_two self' E)
  as (groups & no_group & Hflat & Hgroups & _); [discriminate|].
exists self', groups, no_group. auto.
Defined.

Lemma group_named_no_group_is_overwritten_witness :
  exists self' no_group,
    OverallValidation.sort_results_and_add_data_match_validation_result_grouped
      Examples.sorting Examples.run_of_two = Return self'
    /\ dict_get "_no_group_"
                (OverallValidation.data_match_validation_result_grouped self')
       = Some no_group
    /\ DataMatchValidationResult.init Examples.orders_grouped PASS ∉ no_group.
Proof.
destruct (OverallValidation.sort_results_and_add_data_match_validation_result_grouped
            Examples.sorting Examples.run_of_two) as [self'|e] eqn:E;
  [|vm_compute in E; discriminate E].
destruct (group_named_no_group_is_overwritten Examples.sorting Examples.run_of_two
            self' E)
  as (no_group & Hget & _ & Hout); [discriminate|].
exists self', no_group. split; [reflexivity|]. split; [exact Hget|].
destruct (Hout (DataMatchValidationResult.init Examples.orders_grouped PASS))
  as [_ Hnot]; [left|reflexivity|].
apply (Hnot "_no_group_").
clear -Hget. induction (OverallValidation.data_match_validation_result_grouped self')
  as [|[k v] d IH]; [discriminate Hget|].
cbn [dict_get] in Hget. destruct (String.eqb k "_no_group_") eqn:Ek.
- injection Hget as ->. apply String.eqb_eq in Ek as ->. left.
- right. apply IH. exact Hget.
Defined.

Lemma validate_single_schema_status_witness :
  exists r,
    SchemaValidator._validate_single_schema remove_dups Scenario.orders
      Examples.columns_probe = Return r
    /\ SchemaValidationResult.status r <> SKIP
    /\ SchemaValidationResult.source_table_name r = Some "ORDERS".
Proof.
pose proof (validate_single_schema_status remove_dups remove_dups_admissible
              Scenario.orders Examples.columns_probe Examples.source_columns
              Examples.target_columns eq_refl eq_refl) as X.
cbv zeta in X. destruct X as (r & Hr & Hsource & _ & Hskip & _).
exists r. split; [exact Hr|]. split; [exact Hskip|exact Hsource].
Defined.

Lemma validate_schemas_first_mapping_wins_witness :
  exists results,
    SchemaValidator._validate_schemas
      (fun _ mapping =>
         SchemaValidator._validate_single_schema remove_dups mapping
                                                 Examples.columns_probe)
      (fun futures => futures) [Scenario.orders; Scenario.orders_sampled]
    = Return results
    /\ NoDup (List.map SchemaValidationResult.source_table_name results).
Proof.
destruct (validate_schemas_first_mapping_wins remove_dups remove_dups_admissible
            (fun _ _ => Examples.columns_probe) (fun futures => futures)
            [Scenario.orders; Scenario.orders_sampled])
  as (results & Hrun & _ & _ & Hnd & _).
- intros futures. reflexivity.
- intros i m e [E|E]; discriminate E.
- exists results. split; assumption.
Defined.

Lemma rule_based_counts_witness :
  exists res,
    RuleBased._rule_based_data_validation RuleBased.default_only
      (Some Scenario.frame_objects) Scenario.orders_with_rule = Return (Some res)
    /\ RuleBasedDataValidationResult.total_records res
       = df_len Scenario.frame_objects.
Proof.
destruct (RuleBased._rule_based_data_validation RuleBased.default_only
            (Some Scenario.frame_objects) Scenario.orders_with_rule)
  as [[res|]|e] eqn:E; [|vm_compute in E; discriminate E..].
destruct (rule_based_counts RuleBased.default_only Scenario.frame_objects
            Scenario.orders_with_rule res) as [Htotal _].
- intros column rule Hin. apply list_elem_of_singleton in Hin.
  injection Hin as -> ->. split.
  + apply NoDup_cons. split; [|apply NoDup_singleton].
    intros Hin. apply list_elem_of_singleton in Hin. discriminate Hin.
  + intros key Hin Hlower. exfalso.
    apply elem_of_cons in Hin as [->|Hin]; [vm_compute in Hlower; discriminate|].
    apply list_elem_of_singleton in Hin as ->. vm_compute in Hlower. discriminate.
- intros column cells Hin. apply list_elem_of_singleton in Hin.
  injection Hin as -> ->. reflexivity.
- exact E.
- exists res. split; [reflexivity|exact Htotal].
Defined.

Lemma post_init_result_witness :
  exists m,
    TableMapping.__post_init__ remove_dups Examples.written = Return m
    /\ PyStr.truthy (TableMapping.target_table m) = true
    /\ TableMapping.__post_init__ remove_dups m = Return m.
Proof.
destruct (TableMapping.__post_init__ remove_dups Examples.written) as [m|e] eqn:E;
  [|vm_compute in E; discriminate E].
destruct (post_init_result remove_dups Examples.written m E)
  as (_ & Htarget & _ & _ & _ & _ & _ & Hagain).
exists m. split; [reflexivity|]. split; assumption.
Defined.

Lemma validate_transition_returns_witness :
  exists self,
    Transition.validate_transition (Some 5) Examples.sorting true
      (fun _ mapping =>
         SchemaValidator._validate_single_schema remove_dups mapping
                                                 Examples.columns_probe)
      (fun futures => futures)
      (fun _ mapping =>
         Validator._validate_single_table_data Scenario.thresholds_5_1 Scenario.keep
      RuleBased.default_only Scenario.no_distribution_specs
      mapping None Scenario.probe_1000_950)
      (fun futures => futures) "run-1" [Scenario.orders] true true
    = Return self
    /\ length (OverallValidation.data_match_validation_result self) = 1%nat.
Proof.
destruct (validate_transition_returns Scenario.thresholds_5_1 Scenario.keep
      RuleBased.default_only Scenario.no_distribution_specs None
            (fun _ _ => Scenario.probe_1000_950) (fun _ _ => Examples.columns_probe)
            remove_dups remove_dups_admissible (fun futures => futures)
            (fun futures => futures) (Some 5) Examples.sorting true "run-1"
            [Scenario.orders] true true)
  as (self & Hrun & _ & Hlen & _).
- intros futures. reflexivity.
- intros futures. reflexivity.
- intros i m e [E|E]; discriminate E.
- intros i m e [E|E]; discriminate E.
- intros m source_sample target_sample e E. discriminate E.
- repeat constructor; eexists; reflexivity.
- intros _ E. discriminate E.
- exists self. split; assumption.
Defined.

Lemma validate_transition_without_connection_witness :
  Transition.validate_transition (Some 5) Examples.sorting false
    (fun _ _ => Raise KeyboardInterrupt) (fun futures => futures)
    Scenario.second_task_raises (fun futures => futures) "run-1"
    Scenario.three_mappings true true
  = Raise (OtherException "'NoneType' object has no attribute 'sort'").
Proof.
apply (validate_transition_without_connection (fun futures => futures)
         (fun futures => futures) (Some 5) Examples.sorting false "run-1"
         Scenario.three_mappings true (fun _ _ => Raise KeyboardInterrupt)
         Scenario.second_task_raises).
- reflexivity.
- reflexivity.
- intros i m e. unfold Scenario.second_task_raises.
  destruct (Nat.eqb i 1); [|discriminate].
  intros E. injection E as <-. reflexivity.
Defined.



(** The schema check of a mapping neither table of which is in the index:
    the result carries the issue of each side. *)
Example validate_single_schema_of_missing_tables :
  match SchemaValidator._validate_single_schema remove_dups Scenario.orders
          Examples.probe_of_missing_tables with
  | Return r =>
      SchemaValidationResult.status r = FAIL
      /\ List.map ValidationIssue.issue_type
                  (SchemaValidationResult.validation_issues r)
         = ["no_source_table"; "no_target_table"]
  | Raise _ => False
  end.
Proof. vm_compute. split; reflexivity. Qed.
